(** * Token lifecycle of the Saxo-live scripts

    A shallow embedding of the OAuth2 token handling found in
    [opt/saxo_client.py], [opt/QQQ.py], [opt/bot-token-dennik.py],
    [api/get_saxo_token.py] and [api/auth_code_flow.py], one module per
    source file, followed by the properties of the token store, the
    refresher, the dispatcher and the callback listener.

    Python code is rendered in a state-and-exception monad over a [World]
    that holds the file system, the clock, the two network peers (token
    endpoint, trading API) and the trace of observable events.  What the
    environment decides is an input: the n-th clock reading, the answer to
    the n-th POST to the token endpoint and to the n-th API request are
    given by functions of n, and the requests reaching a callback listener
    by a list. *)

From Stdlib Require Import ZArith List String Ascii Bool Lia.
From stdpp Require Import base gmap strings list.

Open Scope string_scope.
Open Scope list_scope.
Open Scope stdpp_scope.
Open Scope Z_scope.

(* ===================================================================== *)
(** * Python values *)
(* ===================================================================== *)

(** JSON scalars that occur as fields of a token record: [null], integers
    and strings.  Non-integral numbers, booleans and nested containers do
    not occur in the token endpoint's documented fields and are left out. *)
Inductive json : Type :=
| JNull
| JNum (n : Z)
| JStr (s : string).

Abbreviation dict := (gmap string json).

(** A decoded JSON document: an object, or a top-level [null], boolean or
    number, of which only the truth value is kept (it supports neither
    [in], nor [.get], nor indexing).  Top-level arrays and strings are not
    modelled. *)
Inductive jdoc : Type :=
| JDict (d : dict)
| JScalar (truthy : bool).

(** Python exceptions, by class.  A [RuntimeError] carries the raise site
    instead of the formatted message. *)
Inductive runtime_msg : Type :=
| TokenFileReadError              (* saxo_client._load_token *)
| TokenFileMissing                (* get_valid_token of saxo_client and QQQ *)
| RefreshHttpError (code : Z)     (* saxo_client._refresh_token, 4xx *)
| RefreshExhausted                (* saxo_client._refresh_token, attempts used up *)
| RequestHttpError (code : Z)     (* saxo_client._request *)
| NoAccessToken.                  (* bot-token-dennik.get_valid_token *)

Inductive exn : Type :=
| RuntimeError (m : runtime_msg)
| KeyError (k : string)
| TypeError
| AttributeError
| ValueError
| JSONDecodeError
| FileNotFoundError
| HTTPError (code : Z)
| URLError                (* urllib: no response *)
| ConnectionError         (* requests: no response *)
| SystemExit (code : Z).

(** The conditions named by the design, as the exceptions that carry them. *)
Definition AuthRejected (code : Z) : exn := RuntimeError (RefreshHttpError code).
Definition TransientFailure : exn := RuntimeError RefreshExhausted.
Definition NotAuthorized : exn := RuntimeError TokenFileMissing.

(** [bool(x)] *)
Definition truthy (v : json) : bool :=
  match v with
  | JNull => false
  | JNum n => negb (n =? 0)
  | JStr s => negb (String.eqb s "")
  end.

Definition doc_truthy (v : jdoc) : bool :=
  match v with
  | JDict d => negb (bool_decide (d = ∅))
  | JScalar b => b
  end.

(** ** [int(x)] on a string

    Surrounding ASCII white space is stripped, one sign is allowed, then
    decimal digits, single underscores being allowed between digits. *)
Definition is_space (c : ascii) : bool :=
  let n := nat_of_ascii c in
  ((9 <=? n) && (n <=? 13))%nat || ((28 <=? n) && (n <=? 32))%nat.

Definition digit_of (c : ascii) : option Z :=
  let n := nat_of_ascii c in
  if ((48 <=? n) && (n <=? 57))%nat then Some (Z.of_nat n - 48) else None.

Fixpoint lstrip (l : list ascii) : list ascii :=
  match l with
  | c :: r => if is_space c then lstrip r else l
  | [] => []
  end.

Definition strip (l : list ascii) : list ascii :=
  rev (lstrip (rev (lstrip l))).

(** [digits acc prev l]: [prev] tells whether the previous character was a
    digit (an underscore must sit between two digits). *)
Fixpoint digits (acc : Z) (prev : bool) (l : list ascii) : option Z :=
  match l with
  | [] => if prev then Some acc else None
  | c :: r =>
      match digit_of c with
      | Some d => digits (10 * acc + d) true r
      | None =>
          if (nat_of_ascii c =? 95)%nat && prev then
            match r with
            | c' :: _ =>
                match digit_of c' with
                | Some _ => digits acc false r
                | None => None
                end
            | [] => None
            end
          else None
      end
  end.

Definition int_of_str (s : string) : option Z :=
  match strip (list_ascii_of_string s) with
  | [] => None
  | c :: r =>
      if (nat_of_ascii c =? 45)%nat then Z.opp <$> digits 0 false r
      else if (nat_of_ascii c =? 43)%nat then digits 0 false r
      else digits 0 false (c :: r)
  end.

(** ** URL encoding: [urllib.parse.quote_plus] and [urlencode] *)
Definition is_unreserved (c : ascii) : bool :=
  let n := nat_of_ascii c in
  (((48 <=? n) && (n <=? 57)) || ((65 <=? n) && (n <=? 90))
   || ((97 <=? n) && (n <=? 122))
   || (n =? 95) || (n =? 46) || (n =? 45) || (n =? 126))%nat.

Definition hex_digit (n : nat) : ascii :=
  if (n <? 10)%nat then ascii_of_nat (48 + n) else ascii_of_nat (55 + n).

Fixpoint quote_plus (s : string) : string :=
  match s with
  | EmptyString => EmptyString
  | String c r =>
      if is_unreserved c then String c (quote_plus r)
      else if (nat_of_ascii c =? 32)%nat then String "+" (quote_plus r)
      else
        let n := nat_of_ascii c in
        String "%" (String (hex_digit (n / 16)) (String (hex_digit (n mod 16))
                   (quote_plus r)))
  end.

Fixpoint urlencode (items : list (string * string)) : string :=
  match items with
  | [] => ""
  | [(k, v)] => (quote_plus k ++ "=" ++ quote_plus v)%string
  | (k, v) :: r =>
      (quote_plus k ++ "=" ++ quote_plus v ++ "&" ++ urlencode r)%string
  end.

(** [str.upper] on ASCII letters. *)
Definition upper_char (c : ascii) : ascii :=
  let n := nat_of_ascii c in
  if ((97 <=? n) && (n <=? 122))%nat then ascii_of_nat (n - 32) else c.

Fixpoint upper (s : string) : string :=
  match s with
  | EmptyString => EmptyString
  | String c r => String (upper_char c) (upper r)
  end.


(* ===================================================================== *)
(** * The world: files, clock, network peers, trace *)
(* ===================================================================== *)

(** What a file holds, as far as a JSON reader can tell: nothing yet (just
    truncated), a proper prefix of the text of a document (a dump in
    progress), the complete text of a document, or anything else. *)
Inductive fdata : Type :=
| FEmpty
| FPartial (v : jdoc)
| FJson (v : jdoc)
| FGarbage.

Record file : Type := mkFile { data : fdata; mode : Z }.

(** Primitive file-system steps.  [json.dump(v, f)] writes the text in
    pieces: [WriteChunk] is the state after some but not all pieces,
    [WriteDone] the state once the last piece is written and [f] closed. *)
Inductive fs_op : Type :=
| Truncate (p : string)                 (* open(p, "w") *)
| WriteChunk (p : string) (v : jdoc)
| WriteDone (p : string) (v : jdoc)
| Replace (src dst : string)            (* Path.replace: rename(2) *)
| Chmod (p : string) (m : Z)
| Unlink (p : string).

(** An HTTP exchange as seen by the client: a status with a body that
    decodes as JSON or does not, or no response at all. *)
Inductive response : Type :=
| Resp (status : Z) (body : option jdoc)
| NetErr.

Record api_request : Type := mkReq {
  req_method : string;
  req_url : string;
  req_bearer : json;
  req_data : option jdoc
}.

Inductive log_level : Type := Debug | Info | Warning.

Inductive event : Type :=
| EvRefresherCall                      (* entry of a token refresher *)
| EvTokenPost (refresh_tok : json)     (* POST grant_type=refresh_token *)
| EvCodePost (code : string)           (* POST grant_type=authorization_code *)
| EvSleep (secs : Z)
| EvApi (r : api_request)
| EvFs (op : fs_op)
| EvLog (lvl : log_level).

Record World : Type := mkWorld {
  fs : gmap string file;
  create_mode : Z;                 (* 0o666 masked by the umask *)
  clock : nat -> Z;                (* successive values of int(time.time()) *)
  ticks : nat;
  token_endpoint : nat -> response;   (* answer to the n-th POST *)
  posts : nat;
  api : nat -> response;              (* answer to the n-th API request *)
  calls : nat;
  trace : list event                  (* oldest first *)
}.

Inductive outcome (A : Type) : Type :=
| Ok (a : A)
| Raise (e : exn).
Arguments Ok {A} a.
Arguments Raise {A} e.

Definition M (A : Type) : Type := World -> outcome A * World.

Definition ret {A} (a : A) : M A := fun w => (Ok a, w).
Definition raise {A} (e : exn) : M A := fun w => (Raise e, w).
Definition bind {A B} (c : M A) (k : A -> M B) : M B :=
  fun w => match c w with
           | (Ok a, w1) => k a w1
           | (Raise e, w1) => (Raise e, w1)
           end.
(** [try: c  except: h] *)
Definition try_except {A} (c : M A) (h : exn -> M A) : M A :=
  fun w => match c w with
           | (Ok a, w1) => (Ok a, w1)
           | (Raise e, w1) => h e w1
           end.

Declare Scope py_scope.
Delimit Scope py_scope with py.
Notation "x <- c ;; k" := (bind c (fun x => k))
  (at level 100, c at next level, right associativity) : py_scope.
Notation "c ;;; k" := (bind c (fun _ => k))
  (at level 100, right associativity) : py_scope.
Open Scope py_scope.

Definition emit (e : event) : M unit := fun w =>
  (Ok tt, mkWorld (fs w) (create_mode w) (clock w) (ticks w) (token_endpoint w)
                  (posts w) (api w) (calls w) (trace w ++ [e])).

(** [int(time.time())] *)
Definition now : M Z := fun w =>
  (Ok (clock w (ticks w)),
   mkWorld (fs w) (create_mode w) (clock w) (S (ticks w)) (token_endpoint w)
           (posts w) (api w) (calls w) (trace w)).

Definition sleep (secs : Z) : M unit := emit (EvSleep secs).

(** One exchange with the token endpoint. *)
Definition token_exchange (e : event) : M response := fun w =>
  (Ok (token_endpoint w (posts w)),
   mkWorld (fs w) (create_mode w) (clock w) (ticks w) (token_endpoint w)
           (S (posts w)) (api w) (calls w) (trace w ++ [e])).

(** One exchange with the trading API. *)
Definition api_exchange (r : api_request) : M response := fun w =>
  (Ok (api w (calls w)),
   mkWorld (fs w) (create_mode w) (clock w) (ticks w) (token_endpoint w)
           (posts w) (api w) (S (calls w)) (trace w ++ [EvApi r])).

(** ** File system steps *)
Definition fs_step (cm : Z) (op : fs_op) (f : gmap string file)
  : option (gmap string file) :=
  match op with
  | Truncate p =>
      Some (<[p := mkFile FEmpty (match f !! p with
                                  | Some o => mode o
                                  | None => cm
                                  end)]> f)
  | WriteChunk p v =>
      o ← f !! p; Some (<[p := mkFile (FPartial v) (mode o)]> f)
  | WriteDone p v =>
      o ← f !! p; Some (<[p := mkFile (FJson v) (mode o)]> f)
  | Replace src dst =>
      o ← f !! src; Some (<[dst := o]> (delete src f))
  | Chmod p m =>
      o ← f !! p; Some (<[p := mkFile (data o) m]> f)
  | Unlink p =>
      o ← f !! p; Some (delete p f)
  end.

Fixpoint fs_run (cm : Z) (ops : list fs_op) (f : gmap string file)
  : option (gmap string file) :=
  match ops with
  | [] => Some f
  | op :: r => f1 ← fs_step cm op f; fs_run cm r f1
  end.

(** A step on a path that does not exist raises [FileNotFoundError]. *)
Definition fs_do (op : fs_op) : M unit := fun w =>
  match fs_step (create_mode w) op (fs w) with
  | Some f1 =>
      (Ok tt, mkWorld f1 (create_mode w) (clock w) (ticks w) (token_endpoint w)
                      (posts w) (api w) (calls w) (trace w ++ [EvFs op]))
  | None => (Raise FileNotFoundError, w)
  end.

Fixpoint fs_do_all (ops : list fs_op) : M unit :=
  match ops with
  | [] => ret tt
  | op :: r => fs_do op ;;; fs_do_all r
  end.

(** [json.load(open(p))] *)
Definition json_load (p : string) : M jdoc := fun w =>
  match fs w !! p with
  | None => (Raise FileNotFoundError, w)
  | Some f =>
      match data f with
      | FJson v => (Ok v, w)
      | _ => (Raise JSONDecodeError, w)
      end
  end.

Definition is_file (p : string) : M bool := fun w =>
  (Ok (bool_decide (is_Some (fs w !! p))), w).

(** What a reader of [p] sees. *)
Definition visible (f : gmap string file) (p : string) : option fdata :=
  data <$> f !! p.

(** ** Dict access *)
Definition getitem (d : dict) (k : string) : M json :=
  match d !! k with
  | Some v => ret v
  | None => raise (KeyError k)
  end.

Definition get_default (d : dict) (k : string) (dflt : json) : json :=
  default dflt (d !! k).

(** [int(v)] *)
Definition py_int (v : json) : M Z :=
  match v with
  | JNum n => ret n
  | JStr s => match int_of_str s with
              | Some n => ret n
              | None => raise ValueError
              end
  | JNull => raise TypeError
  end.

(** An integer operand of [+], [-], [<]: anything else raises. *)
Definition as_num (v : json) : M Z :=
  match v with
  | JNum n => ret n
  | _ => raise TypeError
  end.

(** [urllib.request.urlopen] followed by [json.loads(resp.read().decode())]:
    a status outside 2xx raises [HTTPError], no response raises [URLError]. *)
Definition urlopen_json (exchange : M response) : M jdoc :=
  r <- exchange ;;
  match r with
  | NetErr => raise URLError
  | Resp st body =>
      if (200 <=? st) && (st <? 300) then
        match body with
        | Some v => ret v
        | None => raise JSONDecodeError
        end
      else raise (HTTPError st)
  end.

(* ===================================================================== *)
(** * opt/saxo_client.py *)
(* ===================================================================== *)
Module SaxoClient.

Definition TOKEN_FILE : string := "~/.ibkr_token.json".
(** [TOKEN_FILE.with_suffix(".tmp")] *)
Definition TOKEN_TMP : string := "~/.ibkr_token.tmp".

Definition _load_token : M (option jdoc) :=
  try_except (v <- json_load TOKEN_FILE ;; ret (Some v))
    (fun e => match e with
              | FileNotFoundError => ret None
              | _ => raise (RuntimeError TokenFileReadError)
              end).

(** The steps of [_save_token]; 384 is 0o600. *)
Definition _save_token_ops (d : dict) : list fs_op :=
  [ Truncate TOKEN_TMP;
    WriteChunk TOKEN_TMP (JDict d);
    WriteDone TOKEN_TMP (JDict d);
    Replace TOKEN_TMP TOKEN_FILE;
    Chmod TOKEN_FILE 384 ].

Definition _save_token (d : dict) : M unit := fs_do_all (_save_token_ops d).

(** The [try] block of [_refresh_token]: one POST, then the expiry stamp. *)
Definition refresh_attempt (refresh_tok : json) : M dict :=
  v <- urlopen_json (token_exchange (EvTokenPost refresh_tok)) ;;
  t <- now ;;
  match v with
  | JDict d =>
      n <- py_int (get_default d "expires_in" (JNum 0)) ;;
      ret (<["exp" := JNum (t + n)]> d)
  | JScalar _ => raise AttributeError
  end.

(** The [for attempt in range(retries + 1)] loop.  [last_exc] only feeds
    the message of the final error and is not kept. *)
Fixpoint refresh_loop (refresh_tok : json) (retries : nat) (backoff : Z)
         (attempts : list nat) : M dict :=
  match attempts with
  | [] => raise (RuntimeError RefreshExhausted)
  | attempt :: rest =>
      let next :=
        (if (attempt <? retries)%nat
         then sleep (backoff * 2 ^ Z.of_nat attempt)
         else ret tt) ;;;
        refresh_loop refresh_tok retries backoff rest in
      try_except (refresh_attempt refresh_tok)
        (fun e =>
           match e with
           | HTTPError code =>
               if (400 <=? code) && (code <? 500)
               then raise (RuntimeError (RefreshHttpError code))
               else next
           | _ => next
           end)
  end.

(** [retries] is a natural number, [backoff] a number of seconds (the
    float 1.0 of the source is the integer 1).  The call itself is recorded
    as [EvRefresherCall]. *)
Definition _refresh_token (refresh_tok : json) (retries : nat) (backoff : Z)
  : M dict :=
  emit EvRefresherCall ;;;
  refresh_loop refresh_tok retries backoff (seq 0 (S retries)).

(** The defaults [retries=2], [backoff=1.0], used at both call sites. *)
Definition refresh (refresh_tok : json) : M dict := _refresh_token refresh_tok 2 1.

Definition get_valid_token : M dict :=
  loaded <- _load_token ;;
  match loaded with
  | None => raise (RuntimeError TokenFileMissing)
  | Some v =>
      if negb (doc_truthy v) then raise (RuntimeError TokenFileMissing)
      else
        t <- now ;;
        match v with
        | JScalar _ => raise TypeError
        | JDict tok0 =>
            tok <- match tok0 !! "exp" with
                   | Some _ => ret tok0
                   | None =>
                       n <- py_int (get_default tok0 "expires_in" (JNum 0)) ;;
                       ret (<["exp" := JNum (t + n)]> tok0)
                   end ;;
            e <- getitem tok "exp" ;;
            e <- as_num e ;;
            if t <? e - 30 then ret tok
            else
              rt <- getitem tok "refresh_token" ;;
              refreshed <- refresh rt ;;
              let refreshed :=
                match refreshed !! "refresh_token" with
                | Some _ => refreshed
                | None => <["refresh_token" := rt]> refreshed
                end in
              _save_token refreshed ;;;
              ret refreshed
        end
  end.

(** [if params: url = f"{url}?{urlencode(params)}"] *)
Definition add_query (url : string) (params : option (list (string * string)))
  : string :=
  match params with
  | Some ((_ :: _) as ps) => (url ++ "?" ++ urlencode ps)%string
  | _ => url
  end.

(** The body of [_request]; [again] is the recursive call, which Python
    makes with the rebuilt [url] and [retry=False]. *)
Definition request_with (again : string -> M jdoc)
           (method url : string) (params : option (list (string * string)))
           (json_data : option jdoc) (retry : bool) : M jdoc :=
  token_obj <- get_valid_token ;;
  token <- getitem token_obj "access_token" ;;
  let url := add_query url params in
  let req := mkReq (upper method) url token json_data in
  try_except (urlopen_json (api_exchange req))
    (fun e =>
       match e with
       | HTTPError code =>
           if (code =? 401) && retry then
             rt <- getitem token_obj "refresh_token" ;;
             refreshed <- refresh rt ;;
             _save_token refreshed ;;;
             again url
           else raise (RuntimeError (RequestHttpError code))
       | _ => raise e
       end).

(** [_request(..., retry=False)]: the recursive call is never reached. *)
Definition _request_final (method url : string)
           (params : option (list (string * string)))
           (json_data : option jdoc) : M jdoc :=
  request_with (fun _ => raise TypeError) method url params json_data false.

Definition _request (method url : string)
           (params : option (list (string * string)))
           (json_data : option jdoc) (retry : bool) : M jdoc :=
  request_with (fun url' => _request_final method url' params json_data)
               method url params json_data retry.

Definition get (url : string) (params : option (list (string * string))) : M jdoc :=
  _request "GET" url params None true.

Definition post (url : string) (json_data : option jdoc) : M jdoc :=
  _request "POST" url None json_data true.

End SaxoClient.


(* ===================================================================== *)
(** * Callback requests *)
(* ===================================================================== *)

(** A GET on the listener after [urlparse]: the path and the query as a
    list of decoded [key=value] pairs, in order. *)
Record request : Type := mkRequest {
  path : string;
  query : list (string * string)
}.

(** [parse_qs(query).get(k, [None])[0]]: blank values are dropped by
    [parse_qs], the first remaining value of the key is taken. *)
Definition qs_first (q : list (string * string)) (k : string) : option string :=
  match List.filter (fun kv => String.eqb (fst kv) k
                               && negb (String.eqb (snd kv) "")) q with
  | kv :: _ => Some (snd kv)
  | [] => None
  end.

(** The listener's server object: the slot for the code and, in QQQ, the
    completion event. *)
Record server : Type := mkServer {
  code : option string;
  event_set : bool
}.

(* ===================================================================== *)
(** * opt/QQQ.py *)
(* ===================================================================== *)
Module QQQ.

Definition CLIENT_ID : string := "4252e068bf8b41b4a41545b73d1ccc6d".
Definition AUTH_ENDPOINT : string := "https://sim.logonvalidation.net/authorize".
Definition REDIRECT_URI : string := "http://127.0.0.1:5327/callback".
Definition SCOPE : string := "openid profile".
Definition TOKEN_FILE : string := "~/.ibkr_token.json".

(** The module-level [state = secrets.token_urlsafe(16)] is evaluated once
    when the script starts; its value is an input [state] of what follows. *)

Definition do_GET (state : string) (r : request) (s : server) : Z * server :=
  if negb (String.eqb (path r) "/callback") then (404, s)
  else
    let code := qs_first (query r) "code" in
    let recv_state := qs_first (query r) "state" in
    match recv_state, code with
    | Some st, Some c =>
        if String.eqb st state then (200, mkServer (Some c) true)
        else (400, mkServer None true)
    | _, _ => (400, mkServer None true)
    end.

(** [serve_forever] until [event.wait] returns: the requests are handled
    in order, and the waiting thread shuts the server down as soon as the
    event is set, no request being handled in between.  The list holds
    the requests that arrive within the 300 s of [event.wait]. *)
Fixpoint serve (state : string) (reqs : list request) (s : server)
  : list Z * server :=
  match reqs with
  | [] => ([], s)
  | r :: rest =>
      let (st, s1) := do_GET state r s in
      if event_set s1 then ([st], s1)
      else let (sts, s2) := serve state rest s1 in (st :: sts, s2)
  end.

Definition auth_params (state : string) : list (string * string) :=
  [ ("response_type", "code"); ("client_id", CLIENT_ID);
    ("redirect_uri", REDIRECT_URI); ("scope", SCOPE); ("state", state) ].

Definition auth_url (state : string) : string :=
  (AUTH_ENDPOINT ++ "?" ++ urlencode (auth_params state))%string.

Definition exchange_code_for_token (c : string) : M dict :=
  v <- urlopen_json (token_exchange (EvCodePost c)) ;;
  t <- now ;;
  match v with
  | JDict token =>
      n <- as_num (get_default token "expires_in" (JNum 0)) ;;
      ret (<["exp" := JNum (t + n)]> token)
  | JScalar _ => raise AttributeError
  end.

Definition save_token_ops (d : dict) : list fs_op :=
  [ Truncate TOKEN_FILE;
    WriteChunk TOKEN_FILE (JDict d);
    WriteDone TOKEN_FILE (JDict d) ].

Definition save_token (d : dict) : M unit := fs_do_all (save_token_ops d).

Definition load_token : M (option jdoc) :=
  try_except (v <- json_load TOKEN_FILE ;; ret (Some v))
    (fun e => match e with
              | FileNotFoundError => ret None
              | _ => raise e
              end).

Definition refresh_token (refresh_tok : json) : M dict :=
  emit EvRefresherCall ;;;
  v <- urlopen_json (token_exchange (EvTokenPost refresh_tok)) ;;
  t <- now ;;
  match v with
  | JDict token =>
      n <- as_num (get_default token "expires_in" (JNum 0)) ;;
      ret (<["exp" := JNum (t + n)]> token)
  | JScalar _ => raise AttributeError
  end.

Definition get_valid_token : M dict :=
  loaded <- load_token ;;
  match loaded with
  | None => raise (RuntimeError TokenFileMissing)
  | Some v =>
      if negb (doc_truthy v) then raise (RuntimeError TokenFileMissing)
      else
        t <- now ;;
        match v with
        | JScalar _ => raise AttributeError
        | JDict tok =>
            e <- as_num (get_default tok "exp" (JNum 0)) ;;
            if t <? e - 30 then ret tok
            else
              rt <- getitem tok "refresh_token" ;;
              refreshed <- refresh_token rt ;;
              let refreshed :=
                match refreshed !! "refresh_token" with
                | Some _ => refreshed
                | None => <["refresh_token" := rt]> refreshed
                end in
              save_token refreshed ;;;
              ret refreshed
        end
  end.

(** [main]: the interactive flow when there is no token file, the validity
    check otherwise.  [reqs] are the requests reaching the listener. *)
Definition main (state : string) (reqs : list request) : M unit :=
  present <- is_file TOKEN_FILE ;;
  if negb present then
    let httpd := snd (serve state reqs (mkServer None false)) in
    match event_set httpd, code httpd with
    | true, Some c =>
        token_resp <- exchange_code_for_token c ;;
        save_token token_resp
    | _, _ => raise (SystemExit 1)
    end
  else
    get_valid_token ;;; ret tt.

End QQQ.

(* ===================================================================== *)
(** * opt/bot-token-dennik.py *)
(* ===================================================================== *)
Module BotTokenDennik.

(** The settings read from [config.ini], and [jwt.decode] without
    signature check ([None] when it raises). *)
Record Config : Type := mkConfig {
  REFRESH_TOKEN : string;
  TOKEN_FILE : string;
  BASE_URL : string;
  jwt_decode : string -> option dict
}.

Section WithConfig.
Variable cfg : Config.

(** [requests.post]/[requests.get]: no response raises. *)
Definition requests_call (exchange : M response) : M (Z * option jdoc) :=
  r <- exchange ;;
  match r with
  | NetErr => raise ConnectionError
  | Resp st body => ret (st, body)
  end.

Definition raise_for_status (st : Z) : M unit :=
  if (400 <=? st) && (st <? 600) then raise (HTTPError st) else ret tt.

(** [r.json()] *)
Definition r_json (body : option jdoc) : M jdoc :=
  match body with
  | Some v => ret v
  | None => raise JSONDecodeError
  end.

(** [TOKEN_FILE.write_text(json.dumps(data, indent=2))]; the [mkdir] of
    the parent directory leaves the files alone. *)
Definition save_token_ops (v : jdoc) : list fs_op :=
  [ Truncate (TOKEN_FILE cfg);
    WriteChunk (TOKEN_FILE cfg) v;
    WriteDone (TOKEN_FILE cfg) v ].

Definition save_token (v : jdoc) : M unit := fs_do_all (save_token_ops v).

Definition load_token : M jdoc :=
  present <- is_file (TOKEN_FILE cfg) ;;
  if negb present then ret (JDict ∅)
  else
    try_except (json_load (TOKEN_FILE cfg))
      (fun e => match e with
                | JSONDecodeError | FileNotFoundError =>
                    emit (EvLog Warning) ;;; ret (JDict ∅)
                | _ => raise e
                end).

(** [int(x) > now], [None] when [int] raises. *)
Definition int_gt (x : json) (t : Z) : option bool :=
  match x with
  | JNum n => Some (t <? n)
  | JStr s => (fun n => t <? n) <$> int_of_str s
  | JNull => None
  end.

Definition token_is_valid (token_data : jdoc) : M bool :=
  match token_data with
  | JScalar _ => raise AttributeError
  | JDict d =>
      let expiry_ts := get_default d "expiry_ts" JNull in
      t <- now ;;
      match (if truthy expiry_ts then int_gt expiry_ts t else None) with
      | Some b => ret b
      | None =>
          let access := get_default d "access_token" JNull in
          if negb (truthy access) then ret false
          else
            match access with
            | JStr a =>
                match jwt_decode cfg a with
                | Some payload =>
                    let exp := get_default payload "exp" JNull in
                    if truthy exp then ret (default false (int_gt exp t))
                    else ret false
                | None => ret false
                end
            | _ => ret false
            end
      end
  end.

Definition invalidate_token : M unit :=
  present <- is_file (TOKEN_FILE cfg) ;;
  if present then fs_do (Unlink (TOKEN_FILE cfg)) ;;; emit (EvLog Info)
  else ret tt.

(** What [obtain_new_access] does with the answer [r] of the POST. *)
Definition store_answer (r : Z * option jdoc) : M jdoc :=
  raise_for_status (fst r) ;;;
  v <- r_json (snd r) ;;
  match v with
  | JScalar _ => raise TypeError
  | JDict d =>
      d1 <- match d !! "expires_in" with
            | Some x =>
                t <- now ;;
                match x with
                | JNum n => ret (<["expiry_ts" := JNum (t + n)]> d)
                | JStr s => match int_of_str s with
                            | Some n => ret (<["expiry_ts" := JNum (t + n)]> d)
                            | None => ret d
                            end
                | JNull => ret d
                end
            | None => ret d
            end ;;
      save_token (JDict d1) ;;;
      emit (EvLog Info) ;;;
      ret (JDict d1)
  end.

(** [obtain_new_access(refresh_token)], [JNull] standing for the default
    [None]. *)
Definition obtain_new_access (refresh_token : json) : M jdoc :=
  emit EvRefresherCall ;;;
  let sent := if truthy refresh_token then refresh_token
              else JStr (REFRESH_TOKEN cfg) in
  emit (EvLog Debug) ;;;
  r <- requests_call (token_exchange (EvTokenPost sent)) ;;
  store_answer r.

Definition get_valid_token : M json :=
  token_data <- load_token ;;
  valid <- token_is_valid token_data ;;
  token_data <-
    (if negb valid then
       emit (EvLog Info) ;;; obtain_new_access JNull
     else
       match token_data with
       | JScalar _ => raise AttributeError
       | JDict d =>
           t <- now ;;
           e <- as_num (get_default d "expiry_ts" (JNum 0)) ;;
           if e - t <? 300 then
             emit (EvLog Info) ;;;
             obtain_new_access (get_default d "refresh_token" JNull)
           else ret token_data
       end) ;;
  match token_data with
  | JScalar _ => raise AttributeError
  | JDict d =>
      let access := get_default d "access_token" JNull in
      if negb (truthy access) then raise (RuntimeError NoAccessToken)
      else ret access
  end.

Definition overview_request (token : json) : api_request :=
  mkReq "GET" (BASE_URL cfg ++ "/port/v1/accountoverview")%string token None.

Definition example_api_call : M unit :=
  token <- get_valid_token ;;
  r <- requests_call (api_exchange (overview_request token)) ;;
  r <- (if fst r =? 401 then
          emit (EvLog Warning) ;;;
          invalidate_token ;;;
          token <- get_valid_token ;;
          requests_call (api_exchange (overview_request token))
        else ret r) ;;
  raise_for_status (fst r) ;;;
  _ <- r_json (snd r) ;;
  emit (EvLog Info).

End WithConfig.
End BotTokenDennik.

(* ===================================================================== *)
(** * api/get_saxo_token.py *)
(* ===================================================================== *)
Module GetSaxoToken.

Definition AUTH_ENDPOINT : string := "https://sim.logonvalidation.net/authorize".

(** [CLIENT_ID] and [REDIRECT_URI] come from the environment. *)
Definition auth_params (CLIENT_ID REDIRECT_URI : string) : list (string * string) :=
  [ ("response_type", "code"); ("client_id", CLIENT_ID);
    ("redirect_uri", REDIRECT_URI); ("scope", "openid profile email trading");
    ("state", "saxo_demo_state_123") ].

Definition build_auth_url (CLIENT_ID REDIRECT_URI : string) : string :=
  (AUTH_ENDPOINT ++ "?" ++ urlencode (auth_params CLIENT_ID REDIRECT_URI))%string.

(** [CallbackHandler.do_GET]: any path, only [code] is looked at. *)
Definition do_GET (r : request) (s : server) : Z * server :=
  match qs_first (query r) "code" with
  | Some c => (200, mkServer (Some c) (event_set s))
  | None => (400, s)
  end.

(** [start_local_server]: [handle_request] until a code is stored.  [None]
    when the requests at hand are used up and the loop is still waiting. *)
Fixpoint handle_requests (reqs : list request) (s : server) : option string :=
  match code s with
  | Some c => Some c
  | None =>
      match reqs with
      | [] => None
      | r :: rest => handle_requests rest (snd (do_GET r s))
      end
  end.

Definition start_local_server (reqs : list request) : option string :=
  handle_requests reqs (mkServer None false).

End GetSaxoToken.

(* ===================================================================== *)
(** * api/auth_code_flow.py *)
(* ===================================================================== *)
Module AuthCodeFlow.

Definition AUTH_ENDPOINT : string := "https://sim.logonvalidation.net/authorize".

Definition auth_params (CLIENT_ID REDIRECT_URI : string) : list (string * string) :=
  [ ("response_type", "code"); ("client_id", CLIENT_ID);
    ("redirect_uri", REDIRECT_URI); ("scope", "openid profile email trading");
    ("state", "test_state_123") ].

Definition build_auth_url (CLIENT_ID REDIRECT_URI : string) : string :=
  (AUTH_ENDPOINT ++ "?" ++ urlencode (auth_params CLIENT_ID REDIRECT_URI))%string.

End AuthCodeFlow.

(* ===================================================================== *)
(** * Vocabulary of the statements *)
(* ===================================================================== *)

(** ** Answers of the token endpoint *)

(** The status of a 4xx answer. *)
Definition client_error (r : response) : option Z :=
  match r with
  | Resp st _ => if (400 <=? st) && (st <? 500) then Some st else None
  | NetErr => None
  end.

(** A network error or a 5xx answer. *)
Definition transient (r : response) : bool :=
  match r with
  | Resp st _ => (500 <=? st) && (st <? 600)
  | NetErr => true
  end.

Definition is_2xx (st : Z) : bool := (200 <=? st) && (st <? 300).

(** [int(body.get("expires_in", 0))] when it does not raise. *)
Definition lifetime (body : dict) : option Z :=
  match get_default body "expires_in" (JNum 0) with
  | JNum n => Some n
  | JStr s => int_of_str s
  | JNull => None
  end.

(** ** Worlds *)

(** The world after one reading of the clock. *)
Definition tick (w : World) : World :=
  mkWorld (fs w) (create_mode w) (clock w) (S (ticks w)) (token_endpoint w)
          (posts w) (api w) (calls w) (trace w).

(** The world after [n] more POSTs to the token endpoint that left the
    events [evs], nothing else having changed. *)
Definition after_posts (w : World) (n : nat) (evs : list event) : World :=
  mkWorld (fs w) (create_mode w) (clock w) (ticks w) (token_endpoint w)
          (posts w + n) (api w) (calls w) (trace w ++ evs).

(** The world once the file-system steps [ops] have led to [f']. *)
Definition after_fs (w : World) (f' : gmap string file) (ops : list fs_op) : World :=
  mkWorld f' (create_mode w) (clock w) (ticks w) (token_endpoint w)
          (posts w) (api w) (calls w) (trace w ++ map EvFs ops).

(** The same world with the clock standing at [t]. *)
Definition at_time (t : Z) (w : World) : World :=
  mkWorld (fs w) (create_mode w) (fun _ => t) (ticks w) (token_endpoint w)
          (posts w) (api w) (calls w) (trace w).

(** The events added between [w] and a later world [w']. *)
Definition new_events (w w' : World) : list event :=
  drop (length (trace w)) (trace w').

(** The record held by the token file, if it holds one. *)
Definition stored_record (w : World) (p : string) : option dict :=
  match visible (fs w) p with
  | Some (FJson (JDict d)) => Some d
  | _ => None
  end.

(** ** Events *)

Definition is_post (e : event) : bool :=
  match e with EvTokenPost _ => true | _ => false end.
Definition is_sleep (e : event) : bool :=
  match e with EvSleep _ => true | _ => false end.
Definition is_fs (e : event) : bool :=
  match e with EvFs _ => true | _ => false end.
Definition is_api (e : event) : bool :=
  match e with EvApi _ => true | _ => false end.
Definition is_refresher_call (e : event) : bool :=
  match e with EvRefresherCall => true | _ => false end.

(** Events of the retry loop, and events of anything but the trading API. *)
Definition post_or_sleep (e : event) : bool := is_post e || is_sleep e.
Definition token_layer (e : event) : bool := negb (is_api e).

Definition count (p : event -> bool) (evs : list event) : nat :=
  length (List.filter p evs).

(** Events of the attempts [a, a+1, ..., a+len-1] when each of them fails
    and the loop goes on: a POST, then the pause if one is due. *)
Fixpoint failed_attempts (rt : json) (retries : nat) (backoff : Z)
         (a len : nat) : list event :=
  match len with
  | O => []
  | S len' =>
      EvTokenPost rt ::
      (if (a <? retries)%nat then [EvSleep (backoff * 2 ^ Z.of_nat a)] else [])
      ++ failed_attempts rt retries backoff (S a) len'
  end.

(** ** How a computation may change the world *)

(** [w'] is reached from [w] without touching the trading API: same API
    peer, same clock and token endpoint, and only events satisfying [p]
    were added. *)
Definition grows (p : event -> bool) (w w' : World) : Prop :=
  api w' = api w /\ calls w' = calls w /\
  token_endpoint w' = token_endpoint w /\ clock w' = clock w /\
  exists evs, trace w' = trace w ++ evs /\ forallb p evs = true.

Definition steps (p : event -> bool) {A} (c : M A) : Prop :=
  forall w, grows p w (snd (c w)).

(** [c] adds at most [n] API requests to the trace, whatever the world. *)
Definition at_most (n : nat) {A} (c : M A) : Prop :=
  forall w, exists evs,
    trace (snd (c w)) = trace w ++ evs /\ (count is_api evs <= n)%nat.

(** ** Files *)

(** What a reader of [p] can see after each step of [ops], in order. *)
Fixpoint observations (cm : Z) (ops : list fs_op) (f : gmap string file)
         (p : string) : list (option fdata) :=
  match ops with
  | [] => []
  | op :: r =>
      match fs_step cm op f with
      | Some f1 => visible f1 p :: observations cm r f1 p
      | None => []
      end
  end.

(** A reader of the file sees a write in progress. *)
Definition torn (o : option fdata) : bool :=
  match o with
  | Some FEmpty | Some (FPartial _) => true
  | _ => false
  end.

Definition is_rename_or_chmod (op : fs_op) : bool :=
  match op with
  | Replace _ _ | Chmod _ _ => true
  | _ => false
  end.


(** The mode of the file at [p]. *)
Definition mode_of (f : gmap string file) (p : string) : option Z :=
  mode <$> f !! p.

(** ** Query strings *)

(** The value of a parameter in a list of items. *)
Definition param (k : string) (items : list (string * string)) : option string :=
  snd <$> List.find (fun kv => String.eqb (fst kv) k) items.

(** ** Further vocabulary *)

(** An answer the refresher of [saxo_client] cannot use and does not treat
    as fatal: no answer, a status outside 2xx and outside 4xx, or a 2xx
    whose body is not JSON, not an object, or whose [expires_in] does not
    convert with [int]. *)
Definition unusable (r : response) : bool :=
  match r with
  | NetErr => true
  | Resp st body =>
      if is_2xx st then
        match body with
        | Some (JDict d) => match lifetime d with Some _ => false | None => true end
        | _ => true
        end
      else negb ((400 <=? st) && (st <? 500))
  end.

(** ** Events and outcomes of the other scripts *)

Definition is_code_post (e : event) : bool :=
  match e with EvCodePost _ => true | _ => false end.

(** File-system and log events. *)
Definition fs_or_log (e : event) : bool :=
  match e with EvFs _ | EvLog _ => true | _ => false end.

(** The outcome of QQQ's two token requests on the answer [r] read at
    clock value [t]. *)
Definition qqq_outcome (r : response) (t : Z) : outcome dict :=
  match r with
  | NetErr => Raise URLError
  | Resp st b =>
      if is_2xx st then
        match b with
        | None => Raise JSONDecodeError
        | Some (JScalar _) => Raise AttributeError
        | Some (JDict token) =>
            match get_default token "expires_in" (JNum 0) with
            | JNum n => Ok (<["exp" := JNum (t + n)]> token)
            | _ => Raise TypeError
            end
        end
      else Raise (HTTPError st)
  end.

(** ** What the next dispatch does with a stored record *)




(* ===================================================================== *)
(** * Sample records, stores and worlds *)
(* ===================================================================== *)

(** The clock of the samples stands at 1000; new files get mode 0o644. *)
Definition world_with (f : gmap string file) (tok api_ : nat -> response) : World :=
  mkWorld f 420 (fun _ => 1000) 0 tok 0 api_ 0 [].

Definition no_store : gmap string file := ∅.

Definition store_of (p : string) (content : fdata) : gmap string file :=
  {[ p := mkFile content 384 ]}.

(** A stored record good until 5000, one about to expire, one without any
    expiry information. *)
Definition record_old : dict :=
  <["access_token" := JStr "A0"]> (<["refresh_token" := JStr "R0"]>
  (<["exp" := JNum 5000]> ∅)).

Definition record_stale : dict :=
  <["access_token" := JStr "A0"]> (<["refresh_token" := JStr "R0"]>
  (<["exp" := JNum 1010]> ∅)).

Definition record_unstamped : dict :=
  <["access_token" := JStr "A0"]> (<["refresh_token" := JStr "R0"]> ∅).

(** Answers of the token endpoint: one without [refresh_token], one
    without [expires_in]. *)
Definition record_new : dict :=
  <["access_token" := JStr "A1"]> (<["expires_in" := JNum 1200]> ∅).

Definition record_bare : dict :=
  <["access_token" := JStr "A1"]> (<["refresh_token" := JStr "R1"]> ∅).

Definition answer_new : nat -> response :=
  fun _ => Resp 200 (Some (JDict record_new)).
Definition answer_bare : nat -> response :=
  fun _ => Resp 200 (Some (JDict record_bare)).
Definition always_401 : nat -> response := fun _ => Resp 401 None.
Definition no_network : nat -> response := fun _ => NetErr.

Definition saxo_world (rec : dict) (tok api_ : nat -> response) : World :=
  world_with (store_of SaxoClient.TOKEN_FILE (FJson (JDict rec))) tok api_.

(** A dispatch in which the API rejects the stored token once: the stored
    record is [record_old], the token endpoint answers with [record_new]
    (which carries no refresh token), the API answers 401 and then 200. *)
Definition world_401 : World :=
  saxo_world record_old answer_new
             (fun n => if (n =? 0)%nat then Resp 401 None
                       else Resp 200 (Some (JDict ∅))).

Definition bot_config : BotTokenDennik.Config :=
  BotTokenDennik.mkConfig "R-config" "/var/lib/bot/token.json"
    "https://gateway.saxobank.com/sim/openapi" (fun _ => None).

Definition bot_record : dict :=
  <["access_token" := JStr "A0"]> (<["expiry_ts" := JNum 5000]> ∅).

Definition bot_world : World :=
  world_with (store_of (BotTokenDennik.TOKEN_FILE bot_config)
                       (FJson (JDict bot_record)))
             answer_new always_401.

(** Callback requests: one with a guessed state, and the genuine one for
    the state "S3cr3t". *)
Definition forged_callback : request :=
  mkRequest "/callback" [("code", "evil"); ("state", "guess")].
Definition genuine_callback : request :=
  mkRequest "/callback" [("code", "good"); ("state", "S3cr3t")].

(** A token endpoint that fails twice before it answers, and one whose
    answers cannot be used. *)
Definition flaky_endpoint : nat -> response :=
  fun n => if (n <? 2)%nat then Resp 503 None
           else Resp 200 (Some (JDict record_new)).

Definition useless_endpoint : nat -> response :=
  fun n => match n with
           | O => Resp 200 None
           | 1%nat => Resp 304 None
           | _ => Resp 200 (Some (JDict (<["expires_in" := JStr "soon"]> ∅)))
           end.

Definition empty_record : dict := ∅.
Definition record_no_refresh : dict := <["exp" := JNum 1010]> ∅.
Definition record_text_exp : dict := <["exp" := JStr "5000"]> ∅.

(** What a refresh of [record_stale] answered by [record_new] leaves. *)
Definition record_kept : dict :=
  <["refresh_token" := JStr "R0"]> (<["exp" := JNum 2200]> record_new).

(** An answer whose [expires_in] is a string of digits. *)
Definition record_text_lifetime : dict :=
  <["access_token" := JStr "A1"]> (<["expires_in" := JStr "1200"]> ∅).
Definition answer_text_lifetime : nat -> response :=
  fun _ => Resp 200 (Some (JDict record_text_lifetime)).

(** A record of the bot without [expiry_ts], and bot worlds: one whose
    API does not answer, one holding that record. *)
Definition record_jwt_only : dict :=
  <["access_token" := JStr "A0"]> (<["refresh_token" := JStr "R0"]> ∅).

Definition bot_world_offline : World :=
  world_with (store_of (BotTokenDennik.TOKEN_FILE bot_config)
                       (FJson (JDict bot_record)))
             answer_new no_network.

Definition bot_world_jwt : World :=
  world_with (store_of (BotTokenDennik.TOKEN_FILE bot_config)
                       (FJson (JDict record_jwt_only)))
             answer_new always_401.

(** The dispatch of [world_401] with a token endpoint whose answers carry
    a refresh token but no [expires_in], and with one whose answers carry
    neither. *)
Definition world_401_bare : World :=
  saxo_world record_old answer_bare
             (fun n => if (n =? 0)%nat then Resp 401 None
                       else Resp 200 (Some (JDict ∅))).


(* ===================================================================== *)
(** * Properties *)
(* ===================================================================== *)

(* --------------------------------------------------------------------- *)
(** ** Sample runs *)
(* --------------------------------------------------------------------- *)

Example int_of_str_samples :
  map int_of_str ["3600"; " -1_000 "; "+7"; "1__0"; "_1"; "1_"; "1.5"; ""]
  = [Some 3600; Some (-1000); Some 7; None; None; None; None; None].
Proof. vm_compute. reflexivity. Qed.

Example urlencode_sample :
  urlencode [ ("response_type", "code");
              ("redirect_uri", "http://127.0.0.1:5327/callback");
              ("scope", "openid profile") ]
  = "response_type=code&redirect_uri=http%3A%2F%2F127.0.0.1%3A5327%2Fcallback&scope=openid+profile".
Proof. vm_compute. reflexivity. Qed.

(** A GET with a good stored token: one clock reading, one request. *)
Example saxo_get_sends_query :
  let r := SaxoClient.get "https://g/x" (Some [("Uic", "4"); ("AssetType", "Stock")])
             (saxo_world record_old answer_new
                         (fun _ => Resp 200 (Some (JDict ∅)))) in
  fst r = Ok (JDict ∅)
  /\ trace (snd r)
     = [EvApi (mkReq "GET" "https://g/x?Uic=4&AssetType=Stock" (JStr "A0") None)]
  /\ ticks (snd r) = 1%nat.
Proof. vm_compute. repeat split; reflexivity. Qed.

(** A stored token about to expire, a token endpoint that fails twice and
    then answers, and an API that cannot be reached. *)
Example saxo_refresh_after_two_failures :
  let r := SaxoClient.get "https://g/x" None
             (saxo_world record_stale
                (fun n => if (n <? 2)%nat then Resp 502 None
                          else Resp 200 (Some (JDict record_new)))
                no_network) in
  let saved := <["refresh_token" := JStr "R0"]> (<["exp" := JNum 2200]> record_new) in
  fst r = Raise URLError
  /\ trace (snd r)
     = [ EvRefresherCall; EvTokenPost (JStr "R0"); EvSleep 1;
         EvTokenPost (JStr "R0"); EvSleep 2; EvTokenPost (JStr "R0") ]
       ++ map EvFs (SaxoClient._save_token_ops saved)
       ++ [ EvApi (mkReq "GET" "https://g/x" (JStr "A1") None) ]
  /\ stored_record (snd r) SaxoClient.TOKEN_FILE = Some saved
  /\ mode_of (fs (snd r)) SaxoClient.TOKEN_FILE = Some 384.
Proof. vm_compute. repeat split; reflexivity. Qed.

(** The bot with a token that expires in 200 s: it refreshes with the
    configured refresh token, the stored record having none. *)
Example bot_near_expiry_refreshes :
  let stored := <["access_token" := JStr "A0"]> (<["expiry_ts" := JNum 1200]> ∅) in
  let r := BotTokenDennik.get_valid_token bot_config
             (world_with (store_of (BotTokenDennik.TOKEN_FILE bot_config)
                                   (FJson (JDict stored)))
                         answer_new no_network) in
  let saved := JDict (<["expiry_ts" := JNum 2200]> record_new) in
  fst r = Ok (JStr "A1")
  /\ trace (snd r)
     = [ EvLog Info; EvRefresherCall; EvLog Debug; EvTokenPost (JStr "R-config") ]
       ++ map EvFs (BotTokenDennik.save_token_ops bot_config saved)
       ++ [ EvLog Info ].
Proof. vm_compute. repeat split; reflexivity. Qed.

(** The interactive flow of QQQ with a stray request and then the genuine
    redirect. *)
Example qqq_main_accepts_genuine :
  let r := QQQ.main "S3cr3t" [mkRequest "/favicon.ico" []; genuine_callback]
             (world_with no_store answer_new no_network) in
  fst r = Ok tt
  /\ trace (snd r)
     = EvCodePost "good"
       :: map EvFs (QQQ.save_token_ops (<["exp" := JNum 2200]> record_new))
  /\ mode_of (fs (snd r)) QQQ.TOKEN_FILE = Some 420.
Proof. vm_compute. repeat split; reflexivity. Qed.

Lemma after_posts_0 w : after_posts w 0 [] = w.
Proof.
  destruct w; unfold after_posts; simpl.
  rewrite Nat.add_0_r, app_nil_r. reflexivity.
Qed.

Lemma after_posts_after_posts w n evs m evs' :
  after_posts (after_posts w n evs) m evs' = after_posts w (n + m) (evs ++ evs').
Proof.
  unfold after_posts; simpl. rewrite Nat.add_assoc, app_assoc. reflexivity.
Qed.

Section Refresher.
Import SaxoClient.
Variable rt : json.

(** An attempt answered by anything but a 2xx status raises right after
    the POST, before the clock is read. *)
Lemma refresh_attempt_error w :
  match token_endpoint w (posts w) with
  | NetErr =>
      refresh_attempt rt w = (Raise URLError, after_posts w 1 [EvTokenPost rt])
  | Resp st _ =>
      (200 <=? st) && (st <? 300) = false ->
      refresh_attempt rt w = (Raise (HTTPError st), after_posts w 1 [EvTokenPost rt])
  end.
Proof.
  unfold refresh_attempt, urlopen_json, token_exchange, bind, after_posts.
  destruct (token_endpoint w (posts w)) as [st body|] eqn:E; simpl.
  - intros H. rewrite H. rewrite Nat.add_1_r. reflexivity.
  - rewrite Nat.add_1_r. reflexivity.
Qed.

Lemma transient_not_2xx st body :
  transient (Resp st body) = true -> (200 <=? st) && (st <? 300) = false.
Proof. simpl. lia. Qed.

Lemma transient_not_4xx st body :
  transient (Resp st body) = true -> (400 <=? st) && (st <? 500) = false.
Proof. simpl. lia. Qed.

Lemma client_error_not_2xx st body code :
  client_error (Resp st body) = Some code ->
  code = st /\ (200 <=? st) && (st <? 300) = false
  /\ (400 <=? st) && (st <? 500) = true.
Proof.
  simpl. destruct ((400 <=? st) && (st <? 500)) eqn:E; [|discriminate].
  intros [= <-]. repeat split. lia.
Qed.

(** One failed attempt that is followed by the rest of the loop. *)
Lemma refresh_loop_step retries backoff a rest w :
  transient (token_endpoint w (posts w)) = true ->
  refresh_loop rt retries backoff (a :: rest) w =
  refresh_loop rt retries backoff rest
    (after_posts w 1 (failed_attempts rt retries backoff a 1)).
Proof.
  intros Htr. pose proof (refresh_attempt_error w) as Hatt.
  cbn [refresh_loop]. unfold try_except.
  destruct (token_endpoint w (posts w)) as [st body|] eqn:E.
  - rewrite (Hatt (transient_not_2xx _ _ Htr)).
    rewrite (transient_not_4xx _ _ Htr).
    unfold bind, sleep, emit, ret, after_posts; simpl.
    destruct (a <? retries)%nat; simpl; rewrite <- ?app_assoc; reflexivity.
  - rewrite Hatt.
    unfold bind, sleep, emit, ret, after_posts; simpl.
    destruct (a <? retries)%nat; simpl; rewrite <- ?app_assoc; reflexivity.
Qed.

Lemma failed_attempts_app retries backoff a k len :
  failed_attempts rt retries backoff a (k + len) =
  failed_attempts rt retries backoff a k
  ++ failed_attempts rt retries backoff (a + k) len.
Proof.
  revert a. induction k as [|k IH]; intros a; simpl.
  - rewrite Nat.add_0_r. reflexivity.
  - rewrite IH. rewrite <- app_assoc.
    replace (S a + k)%nat with (a + S k)%nat by lia. reflexivity.
Qed.

(** [k] transient answers in a row: the loop runs through [k] attempts. *)
Lemma refresh_loop_skip retries backoff k : forall a rest w,
  (forall j, (j < k)%nat -> transient (token_endpoint w (posts w + j)) = true) ->
  refresh_loop rt retries backoff (seq a k ++ rest) w =
  refresh_loop rt retries backoff rest
    (after_posts w k (failed_attempts rt retries backoff a k)).
Proof.
  induction k as [|k IH]; intros a rest w Htr.
  - simpl. rewrite after_posts_0. reflexivity.
  - cbn [seq app]. rewrite refresh_loop_step.
    2:{ specialize (Htr 0%nat). rewrite Nat.add_0_r in Htr. apply Htr. lia. }
    rewrite IH.
    + rewrite after_posts_after_posts.
      change (S k) with (1 + k)%nat. rewrite failed_attempts_app.
      replace (a + 1)%nat with (S a) by lia. reflexivity.
    + intros j Hj. simpl.
      replace (posts w + 1 + j)%nat with (posts w + S j)%nat by lia.
      apply Htr. lia.
Qed.

(** A 4xx answer ends the loop at once, whatever attempts were left. *)
Lemma refresh_loop_rejected retries backoff a rest w code :
  client_error (token_endpoint w (posts w)) = Some code ->
  refresh_loop rt retries backoff (a :: rest) w =
  (Raise (AuthRejected code), after_posts w 1 [EvTokenPost rt]).
Proof.
  intros Hc. pose proof (refresh_attempt_error w) as Hatt.
  cbn [refresh_loop]. unfold try_except.
  destruct (token_endpoint w (posts w)) as [st body|] eqn:E; [|discriminate].
  apply client_error_not_2xx in Hc as (-> & H2 & H4).
  rewrite (Hatt H2), H4. reflexivity.
Qed.

End Refresher.

Lemma emit_after_posts e w : emit e w = (Ok tt, after_posts w 0 [e]).
Proof. unfold emit, after_posts. rewrite Nat.add_0_r. reflexivity. Qed.

(** The refresher with any retry bound: [k <= retries] transient answers
    followed by a 4xx answer. *)
Lemma _refresh_token_rejected rt retries backoff k code w :
  (k <= retries)%nat ->
  (forall j, (j < k)%nat -> transient (token_endpoint w (posts w + j)) = true) ->
  client_error (token_endpoint w (posts w + k)) = Some code ->
  SaxoClient._refresh_token rt retries backoff w =
  (Raise (AuthRejected code),
   after_posts w (S k)
     (EvRefresherCall :: failed_attempts rt retries backoff 0 k ++ [EvTokenPost rt])).
Proof.
  intros Hk Htr Hc. unfold SaxoClient._refresh_token, bind.
  rewrite emit_after_posts.
  replace (seq 0 (S retries)) with (seq 0 k ++ k :: seq (S k) (retries - k)).
  2:{ replace (S retries) with (k + S (retries - k))%nat by lia.
      rewrite seq_app. reflexivity. }
  rewrite refresh_loop_skip.
  2:{ intros j Hj. simpl. rewrite Nat.add_0_r. apply Htr, Hj. }
  rewrite (refresh_loop_rejected rt retries backoff k _ _ code).
  2:{ simpl. rewrite Nat.add_0_r. exact Hc. }
  rewrite !after_posts_after_posts. simpl.
  replace (k + 1)%nat with (S k) by lia. reflexivity.
Qed.

(** [retries + 1] transient answers: every attempt is used, with a pause
    after each but the last, and the refresher gives up. *)
Lemma _refresh_token_exhausted rt retries backoff w :
  (forall j, (j < S retries)%nat ->
             transient (token_endpoint w (posts w + j)) = true) ->
  SaxoClient._refresh_token rt retries backoff w =
  (Raise TransientFailure,
   after_posts w (S retries)
     (EvRefresherCall :: failed_attempts rt retries backoff 0 (S retries))).
Proof.
  intros Htr. unfold SaxoClient._refresh_token, bind.
  rewrite emit_after_posts.
  rewrite <- (app_nil_r (seq 0 (S retries))).
  rewrite refresh_loop_skip.
  2:{ intros j Hj. simpl. rewrite Nat.add_0_r. apply Htr, Hj. }
  rewrite after_posts_after_posts. reflexivity.
Qed.

(** C1. With the defaults (two retries, base pause 1 s): a 4xx answer,
    at the first attempt or after one or two transient failures, makes the
    refresher fail with [AuthRejected] right after that POST, no further
    attempt being made; three transient answers (network error or 5xx) in
    a row make it POST exactly three times, pausing 1 s and then 2 s in
    between, and fail with [TransientFailure]; the endpoint is not asked a
    fourth time. *)
Theorem refresher_retry_policy (rt : json) (w : World) :
  (forall (k : nat) (code : Z),
      (k <= 2)%nat ->
      (forall j, (j < k)%nat ->
                 transient (token_endpoint w (posts w + j)) = true) ->
      client_error (token_endpoint w (posts w + k)) = Some code ->
      SaxoClient.refresh rt w =
      (Raise (AuthRejected code),
       after_posts w (S k)
         (EvRefresherCall :: failed_attempts rt 2 1 0 k ++ [EvTokenPost rt])))
  /\
  ((forall j, (j < 3)%nat ->
              transient (token_endpoint w (posts w + j)) = true) ->
   SaxoClient.refresh rt w =
   (Raise TransientFailure,
    after_posts w 3
      [EvRefresherCall; EvTokenPost rt; EvSleep 1; EvTokenPost rt; EvSleep 2;
       EvTokenPost rt])).
Proof.
  split.
  - intros k code Hk Htr Hc. apply _refresh_token_rejected; assumption.
  - intros Htr. apply (_refresh_token_exhausted rt 2 1 w Htr).
Qed.

Lemma refresher_retry_policy_witness :
  SaxoClient.refresh (JStr "r0")
    (world_with no_store (fun n => if (n =? 1)%nat then Resp 400 None else Resp 503 None)
            (fun _ => NetErr)) =
  (Raise (AuthRejected 400),
   after_posts (world_with no_store (fun n => if (n =? 1)%nat then Resp 400 None else Resp 503 None)
            (fun _ => NetErr)) 2
     [EvRefresherCall; EvTokenPost (JStr "r0"); EvSleep 1; EvTokenPost (JStr "r0")])
  /\
  SaxoClient.refresh (JStr "r0")
    (world_with no_store (fun n => if (n =? 1)%nat then NetErr else Resp 500 None)
            (fun _ => NetErr)) =
  (Raise TransientFailure,
   after_posts (world_with no_store (fun n => if (n =? 1)%nat then NetErr else Resp 500 None)
            (fun _ => NetErr)) 3
     [EvRefresherCall; EvTokenPost (JStr "r0"); EvSleep 1;
      EvTokenPost (JStr "r0"); EvSleep 2; EvTokenPost (JStr "r0")]).
Proof.
  split.
  - apply (proj1 (refresher_retry_policy (JStr "r0") _) 1%nat 400).
    + lia.
    + intros j Hj. assert (j = 0%nat) as -> by lia. reflexivity.
    + reflexivity.
  - apply (proj2 (refresher_retry_policy (JStr "r0") _)).
    intros j Hj.
    destruct j as [|[|[|j]]]; [reflexivity | reflexivity | reflexivity | lia].
Defined.

(* --------------------------------------------------------------------- *)
(** ** How the trace grows *)
(* --------------------------------------------------------------------- *)

Lemma grows_refl p w : grows p w w.
Proof.
  repeat split; exists []. rewrite app_nil_r. split; reflexivity.
Qed.

Lemma grows_trans p w1 w2 w3 : grows p w1 w2 -> grows p w2 w3 -> grows p w1 w3.
Proof.
  intros (A1 & C1 & T1 & K1 & e1 & E1 & F1) (A2 & C2 & T2 & K2 & e2 & E2 & F2).
  repeat split; try congruence.
  exists (e1 ++ e2). rewrite E2, E1, app_assoc, forallb_app, F1, F2.
  split; reflexivity.
Qed.

Lemma grows_weaken (p q : event -> bool) w w' :
  (forall e, p e = true -> q e = true) -> grows p w w' -> grows q w w'.
Proof.
  intros Hpq (A1 & C1 & T1 & K1 & e1 & E1 & F1).
  repeat split; try assumption. exists e1. split; [assumption|].
  rewrite forallb_forall in *. auto.
Qed.

Lemma new_events_app w w' evs :
  trace w' = trace w ++ evs -> new_events w w' = evs.
Proof.
  intros H. unfold new_events. rewrite H.
  rewrite drop_app_length. reflexivity.
Qed.

Lemma count_app p l1 l2 : count p (l1 ++ l2) = (count p l1 + count p l2)%nat.
Proof. unfold count. rewrite List.filter_app, length_app. reflexivity. Qed.

Lemma count_none (p q : event -> bool) evs :
  (forall e, p e = true -> q e = false) ->
  forallb p evs = true -> count q evs = 0%nat.
Proof.
  intros Hpq. unfold count. induction evs as [|e evs IH]; simpl; [reflexivity|].
  intros [He Hevs]%andb_prop. rewrite (Hpq e He). auto.
Qed.

Section Steps.
Context (p : event -> bool) {A B : Type}.

Lemma steps_ret (a : A) : steps p (ret a).
Proof. intros w. apply grows_refl. Qed.

Lemma steps_raise (e : exn) : steps p (@raise A e).
Proof. intros w. apply grows_refl. Qed.

Lemma steps_bind (c : M A) (k : A -> M B) :
  steps p c -> (forall a, steps p (k a)) -> steps p (bind c k).
Proof.
  intros Hc Hk w. unfold bind. specialize (Hc w).
  destruct (c w) as [[a|e] w1]; simpl in *; [|assumption].
  eapply grows_trans; [exact Hc | apply Hk].
Qed.

Lemma steps_try (c : M A) (h : exn -> M A) :
  steps p c -> (forall e, steps p (h e)) -> steps p (try_except c h).
Proof.
  intros Hc Hh w. unfold try_except. specialize (Hc w).
  destruct (c w) as [[a|e] w1]; simpl in *; [assumption|].
  eapply grows_trans; [exact Hc | apply Hh].
Qed.

End Steps.

Lemma steps_emit p e : p e = true -> steps p (emit e).
Proof.
  intros He w. repeat split. exists [e]. simpl. rewrite He. split; reflexivity.
Qed.

Lemma steps_now p : steps p now.
Proof. intros w. repeat split. exists []. simpl. rewrite app_nil_r. auto. Qed.

Lemma steps_token_exchange p e : p e = true -> steps p (token_exchange e).
Proof.
  intros He w. repeat split. exists [e]. simpl. rewrite He. split; reflexivity.
Qed.

Lemma steps_fs_do p op : p (EvFs op) = true -> steps p (fs_do op).
Proof.
  intros He w. unfold fs_do.
  destruct (fs_step (create_mode w) op (fs w)); [|apply grows_refl].
  repeat split. exists [EvFs op]. simpl. rewrite He. split; reflexivity.
Qed.

Lemma steps_fs_do_all p ops :
  (forall op, p (EvFs op) = true) -> steps p (fs_do_all ops).
Proof.
  intros He. induction ops as [|op ops IH]; simpl.
  - apply steps_ret.
  - apply steps_bind; [apply steps_fs_do, He | intros _; exact IH].
Qed.

Lemma steps_json_load p path : steps p (json_load path).
Proof.
  intros w. unfold json_load.
  destruct (fs w !! path) as [f|]; [destruct (data f)|]; apply grows_refl.
Qed.

Lemma steps_is_file p path : steps p (is_file path).
Proof. intros w. apply grows_refl. Qed.

Lemma steps_getitem p (d : dict) k : steps p (getitem d k).
Proof. unfold getitem. destruct (d !! k); [apply steps_ret | apply steps_raise]. Qed.

Lemma steps_py_int p v : steps p (py_int v).
Proof.
  destruct v as [|n|s]; simpl; [apply steps_raise | apply steps_ret |].
  destruct (int_of_str s); [apply steps_ret | apply steps_raise].
Qed.

Lemma steps_as_num p v : steps p (as_num v).
Proof. destruct v; simpl; (apply steps_raise || apply steps_ret). Qed.

Lemma steps_urlopen_json p (c : M response) : steps p c -> steps p (urlopen_json c).
Proof.
  intros Hc. unfold urlopen_json. apply steps_bind; [exact Hc|].
  intros [st body|]; [|apply steps_raise].
  destruct ((200 <=? st) && (st <? 300)); [|apply steps_raise].
  destruct body; [apply steps_ret | apply steps_raise].
Qed.

(** Tactic for the routine cases: split binds, case on branches. *)
Ltac steps_auto :=
  repeat first
    [ apply steps_ret | apply steps_raise | apply steps_now
    | apply steps_getitem | apply steps_py_int | apply steps_as_num
    | apply steps_json_load | apply steps_is_file
    | apply steps_emit; reflexivity
    | apply steps_token_exchange; reflexivity
    | apply steps_fs_do_all; intros; reflexivity
    | apply steps_fs_do; reflexivity
    | apply steps_urlopen_json
    | apply steps_bind; [|intros ?]
    | apply steps_try; [|intros ?]
    | progress cbv zeta
    | match goal with
      | |- steps _ (match ?x with _ => _ end) => destruct x
      | |- steps _ (if ?x then _ else _) => destruct x
      end ].

(** *** opt/saxo_client.py *)


Lemma steps_refresh_attempt rt : steps post_or_sleep (SaxoClient.refresh_attempt rt).
Proof. unfold SaxoClient.refresh_attempt. steps_auto. Qed.

Lemma steps_refresh_loop rt retries backoff attempts :
  steps post_or_sleep (SaxoClient.refresh_loop rt retries backoff attempts).
Proof.
  induction attempts as [|a rest IH]; cbn [SaxoClient.refresh_loop].
  - apply steps_raise.
  - assert (steps post_or_sleep
              ((if (a <? retries)%nat then sleep (backoff * 2 ^ Z.of_nat a)
                else ret tt) ;;;
               SaxoClient.refresh_loop rt retries backoff rest)) as Hnext.
    { apply steps_bind; [|intros _; exact IH].
      destruct (a <? retries)%nat; [apply steps_emit; reflexivity | apply steps_ret]. }
    apply steps_try; [apply steps_refresh_attempt|].
    intros e. destruct e as [| | | | | | |c| | |]; try exact Hnext.
    destruct ((400 <=? c) && (c <? 500)); [apply steps_raise | exact Hnext].
Qed.


Lemma steps_refresh rt : steps token_layer (SaxoClient.refresh rt).
Proof.
  unfold SaxoClient.refresh, SaxoClient._refresh_token.
  apply steps_bind; [apply steps_emit; reflexivity|]. intros _.
  intros w. eapply grows_weaken; [|apply steps_refresh_loop].
  intros [] H; try discriminate; reflexivity.
Qed.

Lemma steps_save_token p d :
  (forall op, p (EvFs op) = true) -> steps p (SaxoClient._save_token d).
Proof. intros H. apply steps_fs_do_all, H. Qed.

Lemma steps_load_token p : steps p SaxoClient._load_token.
Proof. unfold SaxoClient._load_token. steps_auto. Qed.

Lemma steps_get_valid_token : steps token_layer SaxoClient.get_valid_token.
Proof.
  unfold SaxoClient.get_valid_token.
  apply steps_bind; [apply steps_load_token|]. intros [v|]; [|apply steps_raise].
  destruct (negb (doc_truthy v)); [apply steps_raise|].
  apply steps_bind; [apply steps_now|]. intros t.
  destruct v as [tok0|]; [|apply steps_raise].
  apply steps_bind; [steps_auto|]. intros tok.
  apply steps_bind; [steps_auto|]. intros e.
  apply steps_bind; [steps_auto|]. intros e'.
  destruct (t <? e' - 30); [apply steps_ret|].
  apply steps_bind; [steps_auto|]. intros rt.
  apply steps_bind; [apply steps_refresh|]. intros refreshed.
  apply steps_bind; [apply steps_save_token; reflexivity | intros _; apply steps_ret].
Qed.

(* --------------------------------------------------------------------- *)
(** ** saxo_client: obtaining a valid token *)
(* --------------------------------------------------------------------- *)

Lemma load_token_record w f v :
  fs w !! SaxoClient.TOKEN_FILE = Some f -> data f = FJson v ->
  SaxoClient._load_token w = (Ok (Some v), w).
Proof.
  intros Hf Hd. unfold SaxoClient._load_token, try_except, bind, json_load.
  rewrite Hf, Hd. reflexivity.
Qed.

Lemma dict_truthy (d : dict) k v : d !! k = Some v -> doc_truthy (JDict d) = true.
Proof.
  intros H. simpl. rewrite bool_decide_eq_false_2; [reflexivity|].
  intros ->. rewrite lookup_empty in H. discriminate.
Qed.

(** The record is still good for more than 30 s: it is returned as it is. *)
Lemma get_valid_token_fresh w f d e :
  fs w !! SaxoClient.TOKEN_FILE = Some f -> data f = FJson (JDict d) ->
  d !! "exp" = Some (JNum e) ->
  clock w (ticks w) + 30 < e ->
  SaxoClient.get_valid_token w = (Ok d, tick w).
Proof.
  intros Hf Hd He Hlt. unfold SaxoClient.get_valid_token, bind at 1.
  rewrite (load_token_record w f _ Hf Hd), (dict_truthy d _ _ He).
  cbn [negb]. unfold bind, now, getitem, as_num, ret.
  repeat (rewrite He; cbn beta iota).
  destruct (Z.ltb_spec (clock w (ticks w)) (e - 30)); [reflexivity | lia].
Qed.

(** The record expires within 30 s (or has expired): the refresher is
    called with the stored refresh token, its result completed with that
    refresh token if it brings none, saved and returned. *)
Lemma get_valid_token_stale w f d e rt :
  fs w !! SaxoClient.TOKEN_FILE = Some f -> data f = FJson (JDict d) ->
  d !! "exp" = Some (JNum e) ->
  e <= clock w (ticks w) + 30 ->
  d !! "refresh_token" = Some rt ->
  SaxoClient.get_valid_token w =
  (refreshed <- SaxoClient.refresh rt ;;
   let refreshed :=
     match refreshed !! "refresh_token" with
     | Some _ => refreshed
     | None => <["refresh_token" := rt]> refreshed
     end in
   SaxoClient._save_token refreshed ;;; ret refreshed) (tick w).
Proof.
  intros Hf Hd He Hle Hrt. unfold SaxoClient.get_valid_token, bind at 1.
  rewrite (load_token_record w f _ Hf Hd), (dict_truthy d _ _ He).
  cbn [negb]. unfold bind, now, getitem, as_num, ret.
  repeat (rewrite He; cbn beta iota).
  destruct (Z.ltb_spec (clock w (ticks w)) (e - 30)); [lia|].
  rewrite Hrt. reflexivity.
Qed.



(* --------------------------------------------------------------------- *)
(** ** Saving the token record *)
(* --------------------------------------------------------------------- *)

Lemma fs_do_all_ok ops : forall w f',
  fs_run (create_mode w) ops (fs w) = Some f' ->
  fs_do_all ops w = (Ok tt, after_fs w f' ops).
Proof.
  induction ops as [|op ops IH]; intros w f' H; simpl in H.
  - injection H as <-. unfold after_fs. simpl. rewrite app_nil_r.
    destruct w; reflexivity.
  - destruct (fs_step (create_mode w) op (fs w)) as [f1|] eqn:E; [|discriminate].
    simpl in H. cbn [fs_do_all]. unfold bind, fs_do. rewrite E.
    erewrite IH; [|simpl; exact H].
    unfold after_fs. simpl. rewrite <- app_assoc. reflexivity.
Qed.

Section SaxoSave.
Import SaxoClient.
Variables (cm : Z) (f : gmap string file) (d : dict).

Let m0 : Z := match f !! TOKEN_TMP with Some o => mode o | None => cm end.

Lemma tmp_ne_token : TOKEN_TMP <> TOKEN_FILE.
Proof. discriminate. Qed.

(** The five states the files go through. *)
Lemma save_run_1 :
  fs_run cm (take 1 (_save_token_ops d)) f
  = Some (<[TOKEN_TMP := mkFile FEmpty m0]> f).
Proof. reflexivity. Qed.

Lemma save_run_2 :
  fs_run cm (take 2 (_save_token_ops d)) f
  = Some (<[TOKEN_TMP := mkFile (FPartial (JDict d)) m0]> f).
Proof.
  simpl. rewrite lookup_insert_eq. simpl. rewrite insert_insert_eq. reflexivity.
Qed.

Lemma save_run_3 :
  fs_run cm (take 3 (_save_token_ops d)) f
  = Some (<[TOKEN_TMP := mkFile (FJson (JDict d)) m0]> f).
Proof.
  simpl. rewrite lookup_insert_eq. simpl. rewrite insert_insert_eq.
  rewrite lookup_insert_eq. simpl. rewrite insert_insert_eq. reflexivity.
Qed.

Lemma save_run_4 :
  fs_run cm (take 4 (_save_token_ops d)) f
  = Some (<[TOKEN_FILE := mkFile (FJson (JDict d)) m0]> (delete TOKEN_TMP f)).
Proof.
  simpl. rewrite lookup_insert_eq. simpl. rewrite insert_insert_eq.
  rewrite lookup_insert_eq. simpl. rewrite insert_insert_eq.
  rewrite lookup_insert_eq. simpl. rewrite delete_insert_eq. reflexivity.
Qed.

Lemma save_run_5 :
  fs_run cm (_save_token_ops d) f
  = Some (<[TOKEN_FILE := mkFile (FJson (JDict d)) 384]> (delete TOKEN_TMP f)).
Proof.
  simpl. rewrite lookup_insert_eq. simpl. rewrite insert_insert_eq.
  rewrite lookup_insert_eq. simpl. rewrite insert_insert_eq.
  rewrite lookup_insert_eq. simpl. rewrite delete_insert_eq.
  rewrite lookup_insert_eq. simpl. rewrite insert_insert_eq. reflexivity.
Qed.

Lemma visible_tmp_insert (g : gmap string file) o :
  visible (<[TOKEN_TMP := o]> g) TOKEN_FILE = visible g TOKEN_FILE.
Proof. unfold visible. rewrite lookup_insert_ne; [reflexivity | apply tmp_ne_token]. Qed.

End SaxoSave.

Section InPlaceSave.
Variables (cm : Z) (f : gmap string file) (p : string) (v : jdoc).

(** Truncate, write, close on the file itself, as [QQQ.save_token] and
    [BotTokenDennik.save_token] do. *)
Lemma in_place_observations :
  observations cm [Truncate p; WriteChunk p v; WriteDone p v] f p
  = [Some FEmpty; Some (FPartial v); Some (FJson v)].
Proof.
  unfold observations, fs_step, visible.
  repeat (rewrite lookup_insert_eq; simpl). reflexivity.
Qed.

Lemma in_place_run :
  fs_run cm [Truncate p; WriteChunk p v; WriteDone p v] f
  = Some (<[p := mkFile (FJson v)
                 (match f !! p with Some o => mode o | None => cm end)]> f).
Proof.
  simpl. rewrite lookup_insert_eq. simpl. rewrite insert_insert_eq.
  rewrite lookup_insert_eq. simpl. rewrite insert_insert_eq. reflexivity.
Qed.

End InPlaceSave.

Lemma saxo_save_observations cm f d :
  observations cm (SaxoClient._save_token_ops d) f SaxoClient.TOKEN_FILE
  = [ visible f SaxoClient.TOKEN_FILE; visible f SaxoClient.TOKEN_FILE;
      visible f SaxoClient.TOKEN_FILE;
      Some (FJson (JDict d)); Some (FJson (JDict d)) ].
Proof.
  unfold SaxoClient._save_token_ops, observations, fs_step.
  repeat (rewrite ?visible_tmp_insert, ?lookup_insert_eq; cbn [mbind option_bind]).
  unfold visible. rewrite !lookup_insert_eq. reflexivity.
Qed.

Lemma saxo_save_ok d w :
  SaxoClient._save_token d w =
  (Ok tt,
   after_fs w (<[SaxoClient.TOKEN_FILE := mkFile (FJson (JDict d)) 384]>
                 (delete SaxoClient.TOKEN_TMP (fs w)))
            (SaxoClient._save_token_ops d)).
Proof. apply fs_do_all_ok, save_run_5. Qed.

(** C7 (as the code has it). [saxo_client._save_token] writes the whole
    record to the temporary file, renames it over the token file and then
    sets mode 0o600: after each of its five steps a reader of the token
    file sees either what was there before or the complete new record, and
    the save always succeeds.  [QQQ.save_token] and
    [bot-token-dennik.save_token] truncate and rewrite the token file in
    place: a reader can see it empty or half written, there is no rename,
    and the file keeps the mode it had (or gets the default one). *)
Theorem save_token_steps (cm : Z) (f : gmap string file) (d : dict)
        (cfg : BotTokenDennik.Config) :
  (SaxoClient._save_token_ops d
     = [ Truncate SaxoClient.TOKEN_TMP;
         WriteChunk SaxoClient.TOKEN_TMP (JDict d);
         WriteDone SaxoClient.TOKEN_TMP (JDict d);
         Replace SaxoClient.TOKEN_TMP SaxoClient.TOKEN_FILE;
         Chmod SaxoClient.TOKEN_FILE 384 ]
   /\ observations cm (SaxoClient._save_token_ops d) f SaxoClient.TOKEN_FILE
     = [ visible f SaxoClient.TOKEN_FILE; visible f SaxoClient.TOKEN_FILE;
         visible f SaxoClient.TOKEN_FILE;
         Some (FJson (JDict d)); Some (FJson (JDict d)) ]
   /\ (exists f', fs_run cm (SaxoClient._save_token_ops d) f = Some f'
                  /\ f' !! SaxoClient.TOKEN_FILE
                     = Some (mkFile (FJson (JDict d)) 384)))
  /\
  (observations cm (QQQ.save_token_ops d) f QQQ.TOKEN_FILE
     = [ Some FEmpty; Some (FPartial (JDict d)); Some (FJson (JDict d)) ]
   /\ existsb is_rename_or_chmod (QQQ.save_token_ops d) = false
   /\ (exists f', fs_run cm (QQQ.save_token_ops d) f = Some f'
                  /\ mode_of f' QQQ.TOKEN_FILE
                     = Some (default cm (mode_of f QQQ.TOKEN_FILE))))
  /\
  (observations cm (BotTokenDennik.save_token_ops cfg (JDict d)) f
                (BotTokenDennik.TOKEN_FILE cfg)
     = [ Some FEmpty; Some (FPartial (JDict d)); Some (FJson (JDict d)) ]
   /\ existsb is_rename_or_chmod (BotTokenDennik.save_token_ops cfg (JDict d))
      = false
   /\ (exists f', fs_run cm (BotTokenDennik.save_token_ops cfg (JDict d)) f = Some f'
                  /\ mode_of f' (BotTokenDennik.TOKEN_FILE cfg)
                     = Some (default cm (mode_of f (BotTokenDennik.TOKEN_FILE cfg))))).
Proof.
  split; [|split].
  - split; [reflexivity|]. split; [apply saxo_save_observations|].
    eexists. split; [apply save_run_5|]. apply lookup_insert_eq.
  - split; [apply in_place_observations|]. split; [reflexivity|].
    eexists. split; [apply in_place_run|].
    unfold mode_of. rewrite lookup_insert_eq. simpl.
    destruct (f !! QQQ.TOKEN_FILE); reflexivity.
  - split; [apply in_place_observations|]. split; [reflexivity|].
    eexists. split; [apply in_place_run|].
    unfold mode_of. rewrite lookup_insert_eq. simpl.
    destruct (f !! BotTokenDennik.TOKEN_FILE cfg); reflexivity.
Qed.

(** C7, the claim as worded fails for [QQQ.save_token]: while it replaces
    a stored record, a reader of the token file sees it empty and then
    half written, and no rename or chmod is among its steps. *)
Lemma qqq_save_is_not_atomic :
  map torn (observations 420 (QQQ.save_token_ops record_new)
                         (store_of QQQ.TOKEN_FILE (FJson (JDict record_old)))
                         QQQ.TOKEN_FILE)
  = [true; true; false]
  /\ existsb is_rename_or_chmod (QQQ.save_token_ops record_new) = false.
Proof. split; vm_compute; reflexivity. Qed.

(* --------------------------------------------------------------------- *)
(** ** Loading the token record *)
(* --------------------------------------------------------------------- *)



(* --------------------------------------------------------------------- *)
(** ** bot-token-dennik: the token layer *)
(* --------------------------------------------------------------------- *)

Section Bot.
Import BotTokenDennik.
Variable cfg : Config.

Lemma steps_bot_save v : steps token_layer (save_token cfg v).
Proof. unfold save_token. steps_auto. Qed.

Lemma steps_store_answer r : steps token_layer (store_answer cfg r).
Proof.
  unfold store_answer, raise_for_status, r_json.
  apply steps_bind; [steps_auto|]. intros _.
  apply steps_bind; [steps_auto|]. intros [d|]; [|apply steps_raise].
  apply steps_bind; [steps_auto|]. intros d1.
  apply steps_bind; [apply steps_bot_save|]. intros _. steps_auto.
Qed.

(** Whatever the endpoint answers, a call of [obtain_new_access] starts
    with the POST of the refresh token it was given, or of the configured
    one when it was given none. *)
Lemma obtain_new_access_trace rt w :
  grows token_layer w (snd (obtain_new_access cfg rt w)) /\
  exists evs,
    trace (snd (obtain_new_access cfg rt w))
    = trace w ++ EvRefresherCall :: EvLog Debug
        :: EvTokenPost (if truthy rt then rt else JStr (REFRESH_TOKEN cfg))
        :: evs.
Proof.
  split.
  - revert w. change (steps token_layer (obtain_new_access cfg rt)).
    unfold obtain_new_access, requests_call.
    apply steps_bind; [steps_auto|]. intros _.
    apply steps_bind; [steps_auto|]. intros _.
    apply steps_bind; [steps_auto|]. intros r. apply steps_store_answer.
  - unfold obtain_new_access, bind, emit, requests_call, token_exchange, bind.
    simpl. destruct (token_endpoint w (posts w)) as [st body|]; simpl.
    + match goal with
      | |- context [store_answer cfg ?r ?w3] =>
          destruct (steps_store_answer r w3) as (_ & _ & _ & _ & evs & E & _)
      end.
      exists evs. rewrite E. simpl. rewrite <- !app_assoc. reflexivity.
    + exists []. rewrite <- !app_assoc. reflexivity.
Qed.

Lemma bot_load_absent w :
  fs w !! TOKEN_FILE cfg = None -> load_token cfg w = (Ok (JDict ∅), w).
Proof.
  intros Hf. unfold load_token, bind, is_file. rewrite Hf.
  rewrite bool_decide_eq_false_2; [reflexivity|]. intros [? ?]. discriminate.
Qed.

Lemma token_is_valid_empty w : token_is_valid cfg (JDict ∅) w = (Ok false, tick w).
Proof.
  unfold token_is_valid, get_default. rewrite !lookup_empty. reflexivity.
Qed.

(** With no token file, [get_valid_token] goes to the token endpoint with
    the refresh token of the configuration. *)
Lemma bot_get_valid_token_absent w :
  fs w !! TOKEN_FILE cfg = None ->
  exists evs,
    new_events w (snd (get_valid_token cfg w))
    = EvLog Info :: EvRefresherCall :: EvLog Debug
        :: EvTokenPost (JStr (REFRESH_TOKEN cfg)) :: evs.
Proof.
  intros Hf. unfold get_valid_token. unfold bind at 1.
  rewrite (bot_load_absent w Hf). unfold bind at 1.
  rewrite token_is_valid_empty. cbn [negb]. unfold bind at 1, bind at 1.
  unfold emit at 1.
  match goal with
  | |- context [obtain_new_access cfg JNull ?w1] =>
      destruct (obtain_new_access_trace JNull w1) as [_ (evs & E)];
      destruct (obtain_new_access cfg JNull w1) as [[td|e] w2]
  end; simpl in E.
  - assert (steps token_layer
              (match td with
               | JDict d =>
                   let access := get_default d "access_token" JNull in
                   if negb (truthy access) then raise (RuntimeError NoAccessToken)
                   else ret access
               | JScalar _ => raise AttributeError
               end)) as Hfin by steps_auto.
    destruct (Hfin w2) as (_ & _ & _ & _ & evs2 & E2 & _). cbv zeta in E2.
    exists (evs ++ evs2). apply new_events_app.
    rewrite E2, E. rewrite <- !app_assoc. reflexivity.
  - exists evs. apply new_events_app. simpl.
    rewrite E. rewrite <- !app_assoc. reflexivity.
Qed.

End Bot.

(* --------------------------------------------------------------------- *)
(** ** Counting API requests *)
(* --------------------------------------------------------------------- *)

Lemma at_most_of_steps {A} (c : M A) : steps token_layer c -> at_most 0 c.
Proof.
  intros Hc w. destruct (Hc w) as (_ & _ & _ & _ & evs & E & F).
  exists evs. split; [exact E|].
  rewrite (count_none token_layer is_api evs); [lia | | exact F].
  intros e He. unfold token_layer in He. destruct (is_api e); [discriminate|reflexivity].
Qed.

Lemma at_most_mono {A} n m (c : M A) : (n <= m)%nat -> at_most n c -> at_most m c.
Proof.
  intros Hnm Hc w. destruct (Hc w) as (evs & E & F). exists evs. split; [exact E | lia].
Qed.

Lemma at_most_bind {A B} n m (c : M A) (k : A -> M B) :
  at_most n c -> (forall a, at_most m (k a)) -> at_most (n + m) (bind c k).
Proof.
  intros Hc Hk w. unfold bind. destruct (Hc w) as (evs & E & F).
  destruct (c w) as [[a|e] w1]; simpl in *.
  - destruct (Hk a w1) as (evs2 & E2 & F2).
    exists (evs ++ evs2). rewrite E2, E, app_assoc, count_app. split; [reflexivity | lia].
  - exists evs. split; [exact E | lia].
Qed.

Lemma at_most_try {A} n m (c : M A) (h : exn -> M A) :
  at_most n c -> (forall e, at_most m (h e)) -> at_most (n + m) (try_except c h).
Proof.
  intros Hc Hh w. unfold try_except. destruct (Hc w) as (evs & E & F).
  destruct (c w) as [[a|e] w1]; simpl in *.
  - exists evs. split; [exact E | lia].
  - destruct (Hh e w1) as (evs2 & E2 & F2).
    exists (evs ++ evs2). rewrite E2, E, app_assoc, count_app. split; [reflexivity | lia].
Qed.

Lemma at_most_api_exchange r : at_most 1 (api_exchange r).
Proof. intros w. exists [EvApi r]. split; [reflexivity | unfold count; simpl; lia]. Qed.

Lemma at_most_raise {A} e : at_most 0 (@raise A e).
Proof. apply at_most_of_steps, steps_raise. Qed.

Lemma at_most_ret {A} (a : A) : at_most 0 (ret a).
Proof. apply at_most_of_steps, steps_ret. Qed.

Lemma at_most_urlopen_json n (c : M response) :
  at_most n c -> at_most n (urlopen_json c).
Proof.
  intros Hc. unfold urlopen_json. replace n with (n + 0)%nat by lia.
  apply at_most_bind; [exact Hc|].
  intros [st body|]; [|apply at_most_raise].
  destruct ((200 <=? st) && (st <? 300)); [|apply at_most_raise].
  destruct body; [apply at_most_ret | apply at_most_raise].
Qed.

(** The events of a sequence begin with the events of its first part. *)
Lemma new_events_bind {A B} n (c : M A) (k : A -> M B) w pre :
  (forall a, at_most n (k a)) ->
  (exists evs, new_events w (snd (c w)) = pre ++ evs) ->
  trace (snd (c w)) = trace w ++ new_events w (snd (c w)) ->
  exists evs, new_events w (snd (bind c k w)) = pre ++ evs.
Proof.
  intros Hk [evs E] Ht. unfold bind.
  destruct (c w) as [[a|e] w1]; simpl in *.
  - destruct (Hk a w1) as (evs2 & E2 & _).
    exists (evs ++ evs2). apply new_events_app.
    rewrite E2, Ht, E, <- !app_assoc. reflexivity.
  - exists evs. exact E.
Qed.

Lemma trace_new_events p {A} (c : M A) w :
  steps p c -> trace (snd (c w)) = trace w ++ new_events w (snd (c w)).
Proof.
  intros Hc. destruct (Hc w) as (_ & _ & _ & _ & evs & E & _).
  rewrite (new_events_app _ _ _ E). exact E.
Qed.

Section BotDispatcher.
Import BotTokenDennik.
Variable cfg : Config.

Lemma steps_bot_load : steps token_layer (load_token cfg).
Proof. unfold load_token. steps_auto. Qed.

Lemma steps_token_is_valid td : steps token_layer (token_is_valid cfg td).
Proof. unfold token_is_valid. steps_auto. Qed.

Lemma steps_invalidate : steps token_layer (invalidate_token cfg).
Proof. unfold invalidate_token. steps_auto. Qed.

Lemma steps_obtain rt : steps token_layer (obtain_new_access cfg rt).
Proof. intros w. apply obtain_new_access_trace. Qed.

Lemma steps_bot_get_valid_token : steps token_layer (get_valid_token cfg).
Proof.
  unfold get_valid_token.
  apply steps_bind; [apply steps_bot_load|]. intros td.
  apply steps_bind; [apply steps_token_is_valid|]. intros valid.
  apply steps_bind.
  - destruct (negb valid).
    + apply steps_bind; [steps_auto | intros _; apply steps_obtain].
    + destruct td; [|apply steps_raise].
      apply steps_bind; [steps_auto|]. intros t.
      apply steps_bind; [steps_auto|]. intros e.
      destruct (e - t <? 300); [|apply steps_ret].
      apply steps_bind; [steps_auto | intros _; apply steps_obtain].
  - intros td'. steps_auto.
Qed.

Lemma at_most_requests_call r : at_most 1 (requests_call (api_exchange r)).
Proof.
  unfold requests_call. change 1%nat with (1 + 0)%nat.
  apply at_most_bind; [apply at_most_api_exchange|].
  intros [st body|]; [apply at_most_ret | apply at_most_raise].
Qed.

(** What follows the first [get_valid_token] in [example_api_call]. *)
Lemma at_most_after_token token :
  at_most 2
    (r <- requests_call (api_exchange (overview_request cfg token)) ;;
     r <- (if fst r =? 401 then
             emit (EvLog Warning) ;;;
             invalidate_token cfg ;;;
             token <- get_valid_token cfg ;;
             requests_call (api_exchange (overview_request cfg token))
           else ret r) ;;
     raise_for_status (fst r) ;;;
     _ <- r_json (snd r) ;;
     emit (EvLog Info)).
Proof.
  apply (at_most_bind 1 1); [apply at_most_requests_call|]. intros r.
  apply (at_most_bind 1 0).
  - destruct (fst r =? 401); [|apply (at_most_mono 0); [lia | apply at_most_ret]].
    apply (at_most_bind 0 1); [apply at_most_of_steps; steps_auto|]. intros _.
    apply (at_most_bind 0 1); [apply at_most_of_steps, steps_invalidate|]. intros _.
    apply (at_most_bind 0 1);
      [apply at_most_of_steps, steps_bot_get_valid_token|]. intros token'.
    apply at_most_requests_call.
  - intros r'. apply at_most_of_steps.
    unfold raise_for_status, r_json. steps_auto.
Qed.

(** The bot's dispatcher sends at most two API requests. *)
Lemma example_api_call_at_most : at_most 2 (example_api_call cfg).
Proof.
  unfold example_api_call. apply (at_most_bind 0 2).
  - apply at_most_of_steps, steps_bot_get_valid_token.
  - apply at_most_after_token.
Qed.

Lemma bot_dispatch_absent w :
  fs w !! TOKEN_FILE cfg = None ->
  exists evs,
    new_events w (snd (example_api_call cfg w))
    = [ EvLog Info; EvRefresherCall; EvLog Debug;
        EvTokenPost (JStr (REFRESH_TOKEN cfg)) ] ++ evs.
Proof.
  intros Hf. unfold example_api_call.
  apply (new_events_bind 2).
  - apply at_most_after_token.
  - apply bot_get_valid_token_absent, Hf.
  - apply (trace_new_events token_layer), steps_bot_get_valid_token.
Qed.

End BotDispatcher.

(* --------------------------------------------------------------------- *)
(** ** Dispatching with no stored record *)
(* --------------------------------------------------------------------- *)

Lemma saxo_get_valid_token_absent w :
  fs w !! SaxoClient.TOKEN_FILE = None ->
  SaxoClient.get_valid_token w = (Raise NotAuthorized, w).
Proof.
  intros Hf.
  unfold SaxoClient.get_valid_token, SaxoClient._load_token, try_except, bind,
    json_load.
  rewrite Hf. reflexivity.
Qed.

(** C6 (as the code has it). With no token file, every request of the
    [saxo_client] dispatcher fails with [NotAuthorized] and leaves the
    world as it was: nothing is sent and nothing is refreshed.  The
    dispatcher of [bot-token-dennik] does refresh in that case: it POSTs
    the refresh token of its configuration to the token endpoint. *)
Theorem dispatch_without_record (w : World) (cfg : BotTokenDennik.Config) :
  (fs w !! SaxoClient.TOKEN_FILE = None ->
   SaxoClient.get_valid_token w = (Raise NotAuthorized, w)
   /\ forall method url params json_data retry,
        SaxoClient._request method url params json_data retry w
        = (Raise NotAuthorized, w))
  /\
  (fs w !! BotTokenDennik.TOKEN_FILE cfg = None ->
   (exists evs,
      new_events w (snd (BotTokenDennik.get_valid_token cfg w))
      = [ EvLog Info; EvRefresherCall; EvLog Debug;
          EvTokenPost (JStr (BotTokenDennik.REFRESH_TOKEN cfg)) ] ++ evs)
   /\
   (exists evs,
      new_events w (snd (BotTokenDennik.example_api_call cfg w))
      = [ EvLog Info; EvRefresherCall; EvLog Debug;
          EvTokenPost (JStr (BotTokenDennik.REFRESH_TOKEN cfg)) ] ++ evs)).
Proof.
  split.
  - intros Hf. split; [apply saxo_get_valid_token_absent, Hf|].
    intros method url params json_data retry.
    unfold SaxoClient._request, SaxoClient.request_with, bind.
    rewrite (saxo_get_valid_token_absent w Hf). reflexivity.
  - intros Hf. split.
    + apply bot_get_valid_token_absent, Hf.
    + apply bot_dispatch_absent, Hf.
Qed.

(** C6, the claim as worded fails for [bot-token-dennik]: called with an
    empty store, its dispatcher refreshes with the configured refresh
    token, stores the answer and goes on to call the API. *)
Lemma bot_refreshes_on_empty_store :
  new_events
    (world_with ∅ (fun _ => Resp 200 (Some (JDict record_new)))
                (fun _ => Resp 200 (Some (JDict ∅))))
    (snd (BotTokenDennik.example_api_call bot_config
            (world_with ∅ (fun _ => Resp 200 (Some (JDict record_new)))
                        (fun _ => Resp 200 (Some (JDict ∅))))))
  = [ EvLog Info; EvRefresherCall; EvLog Debug; EvTokenPost (JStr "R-config");
      EvFs (Truncate "/var/lib/bot/token.json");
      EvFs (WriteChunk "/var/lib/bot/token.json"
              (JDict (<["expiry_ts" := JNum 2200]> record_new)));
      EvFs (WriteDone "/var/lib/bot/token.json"
              (JDict (<["expiry_ts" := JNum 2200]> record_new)));
      EvLog Info;
      EvApi (mkReq "GET"
               "https://gateway.saxobank.com/sim/openapi/port/v1/accountoverview"
               (JStr "A1") None);
      EvLog Info ]
  /\ fst (BotTokenDennik.example_api_call bot_config
            (world_with ∅ (fun _ => Resp 200 (Some (JDict record_new)))
                        (fun _ => Resp 200 (Some (JDict ∅)))))
     = Ok tt.
Proof. split; vm_compute; reflexivity. Qed.

(* --------------------------------------------------------------------- *)
(** ** saxo_client: a successful refresh *)
(* --------------------------------------------------------------------- *)

Lemma py_int_lifetime (body : dict) n w :
  lifetime body = Some n ->
  py_int (get_default body "expires_in" (JNum 0)) w = (Ok n, w).
Proof.
  unfold lifetime, py_int.
  destruct (get_default body "expires_in" (JNum 0)) as [|k|s]; [discriminate| |].
  - intros [= ->]. reflexivity.
  - intros ->. reflexivity.
Qed.

(** The first answer is a 2xx with a JSON object: the refresher returns
    it, stamped with the clock plus the reported lifetime, after a single
    POST and no pause. *)
Lemma refresh_ok rt w st body n :
  token_endpoint w (posts w) = Resp st (Some (JDict body)) ->
  is_2xx st = true ->
  lifetime body = Some n ->
  SaxoClient.refresh rt w =
  (Ok (<["exp" := JNum (clock w (ticks w) + n)]> body),
   tick (after_posts w 1 [EvRefresherCall; EvTokenPost rt])).
Proof.
  intros Hr H2 Hn.
  unfold SaxoClient.refresh, SaxoClient._refresh_token, bind at 1.
  rewrite emit_after_posts.
  cbn [seq SaxoClient.refresh_loop]. unfold try_except.
  unfold SaxoClient.refresh_attempt, bind at 1.
  unfold urlopen_json, bind at 1, token_exchange.
  cbn [after_posts token_endpoint posts]. rewrite Nat.add_0_r, Hr.
  unfold is_2xx in H2. rewrite H2.
  unfold ret at 1. unfold bind at 1, now. unfold bind at 1.
  rewrite (py_int_lifetime body n _ Hn).
  unfold ret, tick, after_posts. simpl. rewrite <- app_assoc.
  rewrite Nat.add_1_r. reflexivity.
Qed.

(* --------------------------------------------------------------------- *)
(** ** saxo_client: the dispatcher *)
(* --------------------------------------------------------------------- *)

(** Unfold the monad operations in a hypothesis, leaving the functions of
    the program folded. *)
Ltac run_in H :=
  cbv beta iota zeta
      delta [bind ret raise getitem try_except urlopen_json api_exchange] in H.

Section SaxoDispatcher.
Import SaxoClient.
Variables (method url : string) (params : option (list (string * string)))
          (json_data : option jdoc).

(** What [_request] does once it has the token. *)
Lemma request_tail_at_most (again : string -> M jdoc) n u retry token_obj :
  (forall u', at_most n (again u')) ->
  at_most (1 + n)
    (token <- getitem token_obj "access_token" ;;
     let url := add_query u params in
     let req := mkReq (upper method) url token json_data in
     try_except (urlopen_json (api_exchange req))
       (fun e =>
          match e with
          | HTTPError code =>
              if (code =? 401) && retry then
                rt <- getitem token_obj "refresh_token" ;;
                refreshed <- refresh rt ;;
                _save_token refreshed ;;;
                again url
              else raise (RuntimeError (RequestHttpError code))
          | _ => raise e
          end)).
Proof.
  intros Hagain.
  apply (at_most_bind 0 (1 + n)); [apply at_most_of_steps, steps_getitem|].
  intros token. cbv zeta.
  apply at_most_try; [apply at_most_urlopen_json, at_most_api_exchange|].
  intros e.
  assert (forall e', at_most n (@raise jdoc e')) as Hraise.
  { intros e'. apply (at_most_mono 0); [lia | apply at_most_raise]. }
  destruct e as [| | | | | | |c| | |]; try apply Hraise.
  destruct ((c =? 401) && retry); [|apply Hraise].
  apply (at_most_bind 0 n); [apply at_most_of_steps, steps_getitem|]. intros rt.
  apply (at_most_bind 0 n); [apply at_most_of_steps, steps_refresh|]. intros r.
  apply (at_most_bind 0 n);
    [apply at_most_of_steps, steps_save_token; reflexivity|]. intros _.
  apply Hagain.
Qed.

Lemma request_with_at_most (again : string -> M jdoc) n u retry :
  (forall u', at_most n (again u')) ->
  at_most (1 + n) (request_with again method u params json_data retry).
Proof.
  intros Hagain. unfold request_with.
  apply (at_most_bind 0 (1 + n));
    [apply at_most_of_steps, steps_get_valid_token|]. intros token_obj.
  apply request_tail_at_most, Hagain.
Qed.

Lemma request_final_at_most u : at_most 1 (_request_final method u params json_data).
Proof.
  unfold _request_final. apply (request_with_at_most _ 0).
  intros _. apply at_most_raise.
Qed.

(** Never a third request. *)
Lemma request_at_most retry : at_most 2 (_request method url params json_data retry).
Proof.
  unfold _request. apply (request_with_at_most _ 1).
  intros u'. apply request_final_at_most.
Qed.

(** The last attempt: an answer outside 2xx is raised as it is. *)
Lemma request_final_surfaces u w c b :
  api w (calls w) = Resp c b -> is_2xx c = false ->
  let r := _request_final method u params json_data w in
  (calls (snd r) = calls w /\ exists e, fst r = Raise e)
  \/ (calls (snd r) = S (calls w)
      /\ fst r = Raise (RuntimeError (RequestHttpError c))).
Proof.
  intros Hr H2. cbv zeta.
  remember (_request_final method u params json_data w) as r eqn:Er.
  unfold _request_final, request_with in Er. run_in Er.
  pose proof (steps_get_valid_token w) as (Ha & Hc & _).
  destruct (get_valid_token w) as [[tok|e] w1]; simpl in Ha, Hc;
    [|subst r; left; simpl; eauto].
  destruct (tok !! "access_token") as [token|]; [|subst r; left; simpl; eauto].
  cbn [api calls] in Er. rewrite Ha, Hc, Hr in Er.
  unfold is_2xx in H2. rewrite H2 in Er. rewrite andb_false_r in Er.
  subst r. right. simpl. split; [congruence | reflexivity].
Qed.

(** Two 401 answers in a row: the call fails; if the second request was
    sent, what it fails with is that second 401. *)
Lemma request_twice_unauthorized w b1 b2 :
  api w (calls w) = Resp 401 b1 ->
  api w (S (calls w)) = Resp 401 b2 ->
  let r := _request method url params json_data true w in
  (exists e, fst r = Raise e)
  /\ (calls (snd r) = (calls w + 2)%nat ->
      fst r = Raise (RuntimeError (RequestHttpError 401))).
Proof.
  intros H1 H2. cbv zeta.
  remember (_request method url params json_data true w) as r eqn:Er.
  unfold _request, request_with in Er. run_in Er.
  pose proof (steps_get_valid_token w) as (Ha & Hc & _).
  destruct (get_valid_token w) as [[tok|e] w1]; simpl in Ha, Hc;
    [|subst r; simpl; split; [eauto | lia]].
  destruct (tok !! "access_token") as [token|];
    [|subst r; simpl; split; [eauto | lia]].
  cbn [api calls] in Er. rewrite Ha, Hc, H1 in Er.
  cbn [andb Z.eqb Pos.eqb Z.leb Z.ltb Z.compare Pos.compare Pos.compare_cont]
    in Er.
  destruct (tok !! "refresh_token") as [rt|];
    [|subst r; simpl; split; [eauto | lia]].
  match type of Er with
  | context [refresh rt ?w2] =>
      pose proof (steps_refresh rt w2) as (Ha2 & Hc2 & _);
      destruct (refresh rt w2) as [[refreshed|e] w3]
  end; simpl in Ha2, Hc2; [|subst r; simpl; split; [eauto | lia]].
  pose proof (steps_save_token token_layer refreshed (fun _ => eq_refl) w3)
    as (Ha3 & Hc3 & _).
  destruct (_save_token refreshed w3) as [[[]|e] w4]; simpl in Ha3, Hc3;
    [|subst r; simpl; split; [eauto | lia]].
  destruct (request_final_surfaces (add_query url params) w4 401 b2)
    as [[Hcalls [e He]] | [Hcalls He]].
  - rewrite Ha3, Ha2, Hc3, Hc2. exact H2.
  - reflexivity.
  - subst r. split; [eauto|]. intros Hn. rewrite Hcalls, Hc3, Hc2 in Hn. lia.
  - subst r. split; [eauto|]. intros _. exact He.
Qed.

(** The retry cycle, step by step.  The stored token is still good, the
    API answers 401, the token endpoint then answers a 2xx with a record
    that lives longer than the margin, and the API answers 401 again.
    The dispatcher then sends the request, calls the refresher once (one
    POST), saves what it got, sends the request a second time with the new
    access token (the query is appended to the URL a second time), and
    fails with the second 401. *)
Lemma request_retry_cycle w f d e at0 rt b1 st body n at1 b2 :
  fs w !! TOKEN_FILE = Some f -> data f = FJson (JDict d) ->
  d !! "exp" = Some (JNum e) -> clock w (ticks w) + 30 < e ->
  d !! "access_token" = Some at0 -> d !! "refresh_token" = Some rt ->
  api w (calls w) = Resp 401 b1 ->
  token_endpoint w (posts w) = Resp st (Some (JDict body)) ->
  is_2xx st = true -> lifetime body = Some n ->
  body !! "access_token" = Some at1 ->
  clock w (S (S (ticks w))) + 30 < clock w (S (ticks w)) + n ->
  api w (S (calls w)) = Resp 401 b2 ->
  let r := _request method url params json_data true w in
  let stamped := <["exp" := JNum (clock w (S (ticks w)) + n)]> body in
  fst r = Raise (RuntimeError (RequestHttpError 401))
  /\ new_events w (snd r)
     = [ EvApi (mkReq (upper method) (add_query url params) at0 json_data);
         EvRefresherCall; EvTokenPost rt ]
       ++ map EvFs (_save_token_ops stamped)
       ++ [ EvApi (mkReq (upper method)
                         (add_query (add_query url params) params)
                         at1 json_data) ].
Proof.
  intros Hf Hd He Hfresh Hat0 Hrt H1 Htok H2xx Hn Hat1 Hfresh2 H2. cbv zeta.
  remember (_request method url params json_data true w) as r eqn:Er.
  unfold _request, request_with in Er. run_in Er.
  rewrite (get_valid_token_fresh w f d e Hf Hd He Hfresh) in Er.
  rewrite Hat0 in Er. cbn [api calls tick] in Er. rewrite H1 in Er.
  cbn [andb Z.eqb Pos.eqb Z.leb Z.ltb Z.compare Pos.compare Pos.compare_cont]
    in Er.
  rewrite Hrt in Er.
  erewrite (refresh_ok rt _ st body n) in Er; [|exact Htok|exact H2xx|exact Hn].
  rewrite saxo_save_ok in Er.
  unfold _request_final, request_with in Er. run_in Er.
  erewrite (get_valid_token_fresh _ _ _ (clock w (S (ticks w)) + n)) in Er;
    [ | apply lookup_insert_eq | reflexivity | apply lookup_insert_eq
      | exact Hfresh2 ].
  rewrite lookup_insert_ne in Er by discriminate. rewrite Hat1 in Er.
  cbn [api calls tick after_fs after_posts] in Er. rewrite H2 in Er.
  cbn [andb Z.eqb Pos.eqb Z.leb Z.ltb Z.compare Pos.compare Pos.compare_cont]
    in Er.
  subst r. split; [reflexivity|].
  apply new_events_app. cbn [snd trace tick after_fs after_posts].
  rewrite <- !app_assoc. reflexivity.
Qed.

End SaxoDispatcher.

(** With a non-empty [params], the request sent again after the refresh
    goes to the URL with the query appended a second time. *)
Lemma retried_url_repeats_query :
  SaxoClient.add_query
    (SaxoClient.add_query "https://gateway/x" (Some [("Uic", "4")]))
    (Some [("Uic", "4")])
  = "https://gateway/x?Uic=4?Uic=4".
Proof. reflexivity. Qed.

(* --------------------------------------------------------------------- *)
(** ** bot-token-dennik: the dispatcher *)
(* --------------------------------------------------------------------- *)

Ltac run_bot_in H :=
  cbv beta iota zeta
      delta [bind ret raise getitem try_except api_exchange emit
             BotTokenDennik.requests_call BotTokenDennik.raise_for_status
             BotTokenDennik.r_json] in H.

Section BotRetry.
Import BotTokenDennik.
Variable cfg : Config.

(** Two 401 answers in a row: the call fails; if the second request was
    sent, it fails with [HTTPError 401] from [raise_for_status]. *)
Lemma bot_twice_unauthorized w b1 b2 :
  api w (calls w) = Resp 401 b1 ->
  api w (S (calls w)) = Resp 401 b2 ->
  let r := example_api_call cfg w in
  (exists e, fst r = Raise e)
  /\ (calls (snd r) = (calls w + 2)%nat -> fst r = Raise (HTTPError 401)).
Proof.
  intros H1 H2. cbv zeta.
  remember (example_api_call cfg w) as r eqn:Er.
  unfold example_api_call in Er. run_bot_in Er.
  pose proof (steps_bot_get_valid_token cfg w) as (Ha & Hc & _).
  destruct (get_valid_token cfg w) as [[token|e] w1]; simpl in Ha, Hc;
    [|subst r; simpl; split; [eauto | lia]].
  cbn [api calls fst snd] in Er. rewrite Ha, Hc, H1 in Er.
  cbn [fst snd andb Z.eqb Pos.eqb Z.leb Z.ltb Z.compare Pos.compare
       Pos.compare_cont] in Er.
  match type of Er with
  | context [invalidate_token cfg ?w2] =>
      pose proof (steps_invalidate cfg w2) as (Ha2 & Hc2 & _);
      destruct (invalidate_token cfg w2) as [[[]|e] w3]
  end; simpl in Ha2, Hc2; [|subst r; simpl; split; [eauto | lia]].
  pose proof (steps_bot_get_valid_token cfg w3) as (Ha3 & Hc3 & _).
  destruct (get_valid_token cfg w3) as [[token'|e] w4]; simpl in Ha3, Hc3;
    [|subst r; simpl; split; [eauto | lia]].
  cbn [api calls fst snd] in Er. rewrite Ha3, Ha2, Hc3, Hc2, H2 in Er.
  cbn [fst snd andb Z.eqb Pos.eqb Z.leb Z.ltb Z.compare Pos.compare
       Pos.compare_cont] in Er.
  subst r. simpl. split; [eauto | reflexivity].
Qed.

Lemma get_default_some (d : dict) k v dflt :
  d !! k = Some v -> get_default d k dflt = v.
Proof. intros H. unfold get_default. rewrite H. reflexivity. Qed.

Lemma token_is_valid_expiry w d e :
  d !! "expiry_ts" = Some (JNum e) -> e <> 0 ->
  token_is_valid cfg (JDict d) w = (Ok (clock w (ticks w) <? e), tick w).
Proof.
  intros He He0. unfold token_is_valid.
  rewrite (get_default_some d _ _ _ He). cbn [truthy int_gt].
  destruct (Z.eqb_spec e 0) as [|_]; [contradiction|]. reflexivity.
Qed.

(** A stored record that is valid and more than 300 s from expiry. *)
Lemma bot_get_valid_token_good w f d e at0 :
  fs w !! TOKEN_FILE cfg = Some f -> data f = FJson (JDict d) ->
  d !! "expiry_ts" = Some (JNum e) -> e <> 0 ->
  clock w (ticks w) < e -> 300 <= e - clock w (S (ticks w)) ->
  d !! "access_token" = Some at0 -> truthy at0 = true ->
  get_valid_token cfg w = (Ok at0, tick (tick w)).
Proof.
  intros Hf Hd He He0 Hv Hrem Hat Htr.
  assert (load_token cfg w = (Ok (JDict d), w)) as Hload.
  { unfold load_token, is_file, json_load, try_except, bind.
    rewrite Hf. rewrite bool_decide_eq_true_2 by eauto. cbn [negb].
    rewrite Hf, Hd. reflexivity. }
  unfold get_valid_token. unfold bind at 1. rewrite Hload.
  unfold bind at 1. rewrite (token_is_valid_expiry w d e He He0).
  destruct (Z.ltb_spec (clock w (ticks w)) e) as [_|]; [|lia]. cbn [negb].
  rewrite (get_default_some d _ _ _ He).
  unfold now, as_num. cbv beta iota zeta delta [bind ret raise tick].
  cbn [clock ticks].
  destruct (Z.ltb_spec (e - clock w (S (ticks w))) 300) as [|_]; [lia|].
  rewrite (get_default_some d _ _ _ Hat), Htr. reflexivity.
Qed.

Lemma invalidate_present w f :
  fs w !! TOKEN_FILE cfg = Some f ->
  invalidate_token cfg w =
  (Ok tt,
   mkWorld (delete (TOKEN_FILE cfg) (fs w)) (create_mode w) (clock w) (ticks w)
           (token_endpoint w) (posts w) (api w) (calls w)
           (trace w ++ [EvFs (Unlink (TOKEN_FILE cfg)); EvLog Info])).
Proof.
  intros Hf. unfold invalidate_token, is_file, fs_do, fs_step.
  cbv beta iota zeta delta [bind ret raise emit].
  rewrite bool_decide_eq_true_2 by eauto. rewrite Hf. simpl.
  rewrite <- app_assoc. reflexivity.
Qed.

(** No token file, and the token endpoint answers with a record. *)
Lemma bot_get_valid_token_renew w st body n at1 :
  fs w !! TOKEN_FILE cfg = None ->
  token_endpoint w (posts w) = Resp st (Some (JDict body)) ->
  (400 <=? st) && (st <? 600) = false ->
  body !! "expires_in" = Some (JNum n) ->
  body !! "access_token" = Some at1 -> truthy at1 = true ->
  let d1 := <["expiry_ts" := JNum (clock w (S (ticks w)) + n)]> body in
  get_valid_token cfg w =
  (Ok at1,
   mkWorld (<[TOKEN_FILE cfg := mkFile (FJson (JDict d1)) (create_mode w)]> (fs w))
           (create_mode w) (clock w) (S (S (ticks w)))
           (token_endpoint w) (S (posts w)) (api w) (calls w)
           (trace w ++ [ EvLog Info; EvRefresherCall; EvLog Debug;
                         EvTokenPost (JStr (REFRESH_TOKEN cfg)) ]
                    ++ map EvFs (save_token_ops cfg (JDict d1))
                    ++ [ EvLog Info ])).
Proof.
  intros Hf Htok Hst Hexp Hat Htr d1.
  unfold get_valid_token. unfold bind at 1. rewrite (bot_load_absent cfg w Hf).
  unfold bind at 1. rewrite token_is_valid_empty. cbn [negb].
  unfold obtain_new_access, store_answer, requests_call, raise_for_status,
    r_json, token_exchange, now, save_token.
  cbv beta iota zeta delta [bind ret raise emit tick].
  cbn [truthy token_endpoint posts fst snd]. rewrite Htok. cbn [fst snd].
  rewrite Hst. rewrite Hexp. cbn [clock ticks].
  erewrite fs_do_all_ok.
  2:{ cbn [create_mode fs]. unfold save_token_ops. rewrite in_place_run.
      rewrite Hf. reflexivity. }
  unfold after_fs.
  cbn [fs create_mode clock ticks token_endpoint posts api calls trace].
  rewrite (get_default_some _ "access_token" at1)
    by (rewrite lookup_insert_ne by discriminate; exact Hat).
  rewrite Htr. cbn [negb]. unfold d1, save_token_ops.
  rewrite <- !app_assoc. reflexivity.
Qed.

(** The retry cycle, step by step.  The stored token is good, the API
    answers 401, the token endpoint then answers with a record, and the
    API answers 401 again: the request is sent, the token file removed,
    the refresher called once (one POST, with the configured refresh
    token), its answer written, the request sent a second time with the
    new access token, and the call fails with the second 401. *)
Lemma bot_retry_cycle w f d e at0 b1 st body n at1 b2 :
  fs w !! TOKEN_FILE cfg = Some f -> data f = FJson (JDict d) ->
  d !! "expiry_ts" = Some (JNum e) -> e <> 0 ->
  clock w (ticks w) < e -> 300 <= e - clock w (S (ticks w)) ->
  d !! "access_token" = Some at0 -> truthy at0 = true ->
  api w (calls w) = Resp 401 b1 ->
  token_endpoint w (posts w) = Resp st (Some (JDict body)) ->
  (400 <=? st) && (st <? 600) = false ->
  body !! "expires_in" = Some (JNum n) ->
  body !! "access_token" = Some at1 -> truthy at1 = true ->
  api w (S (calls w)) = Resp 401 b2 ->
  let r := example_api_call cfg w in
  let d1 := <["expiry_ts" := JNum (clock w (S (S (S (ticks w)))) + n)]> body in
  fst r = Raise (HTTPError 401)
  /\ new_events w (snd r)
     = [ EvApi (overview_request cfg at0); EvLog Warning;
         EvFs (Unlink (TOKEN_FILE cfg)); EvLog Info;
         EvLog Info; EvRefresherCall; EvLog Debug;
         EvTokenPost (JStr (REFRESH_TOKEN cfg)) ]
       ++ map EvFs (save_token_ops cfg (JDict d1))
       ++ [ EvLog Info; EvApi (overview_request cfg at1) ].
Proof.
  intros Hf Hd He He0 Hv Hrem Hat0 Htr0 H1 Htok Hst Hexp Hat1 Htr1 H2. cbv zeta.
  remember (example_api_call cfg w) as r eqn:Er.
  unfold example_api_call in Er. unfold bind at 1 in Er.
  rewrite (bot_get_valid_token_good w f d e at0) in Er by assumption.
  run_bot_in Er. cbn [api calls tick fst snd] in Er. rewrite H1 in Er.
  cbn [fst snd andb Z.eqb Pos.eqb Z.leb Z.ltb Z.compare Pos.compare
       Pos.compare_cont] in Er.
  erewrite (invalidate_present _ f) in Er by exact Hf.
  erewrite (bot_get_valid_token_renew _ st body n at1) in Er;
    [ | apply lookup_delete_eq | exact Htok | exact Hst | exact Hexp
      | exact Hat1 | exact Htr1 ].
  cbn [api calls fst snd] in Er. rewrite H2 in Er.
  cbn [fst snd andb Z.eqb Pos.eqb Z.leb Z.ltb Z.compare Pos.compare
       Pos.compare_cont] in Er.
  subst r. split; [reflexivity|].
  apply new_events_app. cbn [snd trace clock ticks].
  rewrite <- !app_assoc. reflexivity.
Qed.

End BotRetry.

Lemma at_most_count {A} n (c : M A) w :
  at_most n c -> (count is_api (new_events w (snd (c w))) <= n)%nat.
Proof.
  intros Hc. destruct (Hc w) as (evs & E & F).
  rewrite (new_events_app _ _ _ E). exact F.
Qed.

(** What both dispatchers do keep of the retry on 401,
    [saxo_client._request] and [bot-token-dennik.example_api_call]:
    (1) a call never sends more than two API requests; (2) when the first
    and the second answer are both 401 the call fails, and if the second
    request was sent it fails with that 401; (3) in the run where the
    stored token is good, the first answer is 401 and the refresh brings
    a record that lives longer than the margin, the trace is exactly: the
    request, one refresher call with one POST, the save, a second request
    with the new access token (in [saxo_client] to the URL with the query
    appended once more); the second 401 is then raised to the caller. *)
Theorem retry_once_on_401 (w : World) (cfg : BotTokenDennik.Config)
        (method url : string) (params : option (list (string * string)))
        (json_data : option jdoc) :
  ((count is_api
      (new_events w (snd (SaxoClient._request method url params json_data true w)))
    <= 2)%nat
   /\
   (forall b1 b2,
      api w (calls w) = Resp 401 b1 -> api w (S (calls w)) = Resp 401 b2 ->
      let r := SaxoClient._request method url params json_data true w in
      (exists e, fst r = Raise e)
      /\ (calls (snd r) = (calls w + 2)%nat ->
          fst r = Raise (RuntimeError (RequestHttpError 401))))
   /\
   (forall f d e at0 rt b1 st body n at1 b2,
      fs w !! SaxoClient.TOKEN_FILE = Some f -> data f = FJson (JDict d) ->
      d !! "exp" = Some (JNum e) -> clock w (ticks w) + 30 < e ->
      d !! "access_token" = Some at0 -> d !! "refresh_token" = Some rt ->
      api w (calls w) = Resp 401 b1 ->
      token_endpoint w (posts w) = Resp st (Some (JDict body)) ->
      is_2xx st = true -> lifetime body = Some n ->
      body !! "access_token" = Some at1 ->
      clock w (S (S (ticks w))) + 30 < clock w (S (ticks w)) + n ->
      api w (S (calls w)) = Resp 401 b2 ->
      let r := SaxoClient._request method url params json_data true w in
      let stamped := <["exp" := JNum (clock w (S (ticks w)) + n)]> body in
      fst r = Raise (RuntimeError (RequestHttpError 401))
      /\ new_events w (snd r)
         = [ EvApi (mkReq (upper method) (SaxoClient.add_query url params)
                          at0 json_data);
             EvRefresherCall; EvTokenPost rt ]
           ++ map EvFs (SaxoClient._save_token_ops stamped)
           ++ [ EvApi (mkReq (upper method)
                         (SaxoClient.add_query
                            (SaxoClient.add_query url params) params)
                         at1 json_data) ]))
  /\
  ((count is_api (new_events w (snd (BotTokenDennik.example_api_call cfg w)))
    <= 2)%nat
   /\
   (forall b1 b2,
      api w (calls w) = Resp 401 b1 -> api w (S (calls w)) = Resp 401 b2 ->
      let r := BotTokenDennik.example_api_call cfg w in
      (exists e, fst r = Raise e)
      /\ (calls (snd r) = (calls w + 2)%nat -> fst r = Raise (HTTPError 401)))
   /\
   (forall f d e at0 b1 st body n at1 b2,
      fs w !! BotTokenDennik.TOKEN_FILE cfg = Some f ->
      data f = FJson (JDict d) ->
      d !! "expiry_ts" = Some (JNum e) -> e <> 0 ->
      clock w (ticks w) < e -> 300 <= e - clock w (S (ticks w)) ->
      d !! "access_token" = Some at0 -> truthy at0 = true ->
      api w (calls w) = Resp 401 b1 ->
      token_endpoint w (posts w) = Resp st (Some (JDict body)) ->
      (400 <=? st) && (st <? 600) = false ->
      body !! "expires_in" = Some (JNum n) ->
      body !! "access_token" = Some at1 -> truthy at1 = true ->
      api w (S (calls w)) = Resp 401 b2 ->
      let r := BotTokenDennik.example_api_call cfg w in
      let d1 := <["expiry_ts" := JNum (clock w (S (S (S (ticks w)))) + n)]> body in
      fst r = Raise (HTTPError 401)
      /\ new_events w (snd r)
         = [ EvApi (BotTokenDennik.overview_request cfg at0); EvLog Warning;
             EvFs (Unlink (BotTokenDennik.TOKEN_FILE cfg)); EvLog Info;
             EvLog Info; EvRefresherCall; EvLog Debug;
             EvTokenPost (JStr (BotTokenDennik.REFRESH_TOKEN cfg)) ]
           ++ map EvFs (BotTokenDennik.save_token_ops cfg (JDict d1))
           ++ [ EvLog Info; EvApi (BotTokenDennik.overview_request cfg at1) ])).
Proof.
  split; (split; [|split]).
  - apply at_most_count, request_at_most.
  - intros b1 b2. apply request_twice_unauthorized.
  - intros. eapply request_retry_cycle; eassumption.
  - apply at_most_count, example_api_call_at_most.
  - intros b1 b2. apply bot_twice_unauthorized.
  - intros. eapply bot_retry_cycle; eassumption.
Qed.

(** C3, [saxo_client._request] after a 401 (evaluation at two failing
    inputs).  (1) A GET with the parameter [Uic=4], a good stored token,
    401 then 200 from the API: the call returns normally, but the request
    sent after the refresh is not the request sent before it: its URL has
    the query appended a second time.  (2) The same dispatch without
    parameters, the token endpoint answering with records that have no
    [expires_in]: the call returns normally after two refresher calls
    and two POSTs, the second made by the [get_valid_token] of the
    recursive call, which finds the record just saved already within the
    margin. *)
Theorem retry_after_401_diverges :
  (let r := SaxoClient.get "https://gateway/x" (Some [("Uic", "4")]) world_401 in
   fst r = Ok (JDict ∅)
   /\ List.filter is_api (new_events world_401 (snd r))
      = [ EvApi (mkReq "GET" "https://gateway/x?Uic=4" (JStr "A0") None);
          EvApi (mkReq "GET" "https://gateway/x?Uic=4?Uic=4" (JStr "A1") None) ])
  /\
  (let r := SaxoClient.get "https://gateway/x" None world_401_bare in
   fst r = Ok (JDict ∅)
   /\ new_events world_401_bare (snd r)
      = [ EvApi (mkReq "GET" "https://gateway/x" (JStr "A0") None);
          EvRefresherCall; EvTokenPost (JStr "R0") ]
        ++ map EvFs (SaxoClient._save_token_ops (<["exp" := JNum 1000]> record_bare))
        ++ [ EvRefresherCall; EvTokenPost (JStr "R1") ]
        ++ map EvFs (SaxoClient._save_token_ops (<["exp" := JNum 1000]> record_bare))
        ++ [ EvApi (mkReq "GET" "https://gateway/x" (JStr "A1") None) ]
   /\ count is_refresher_call (new_events world_401_bare (snd r)) = 2%nat
   /\ count is_post (new_events world_401_bare (snd r)) = 2%nat).
Proof.
  cbv zeta. split; [split | split; [|split; [|split]]]; vm_compute; reflexivity.
Qed.

(* --------------------------------------------------------------------- *)
(** ** The refresh token across a refresh *)
(* --------------------------------------------------------------------- *)

(** The refresh on expiry keeps the stored refresh token when the answer
    brings none, and takes the new one when it brings one. *)
Lemma proactive_refresh_keeps_refresh_token w f d e rt st body n :
  fs w !! SaxoClient.TOKEN_FILE = Some f -> data f = FJson (JDict d) ->
  d !! "exp" = Some (JNum e) -> e <= clock w (ticks w) + 30 ->
  d !! "refresh_token" = Some rt ->
  token_endpoint w (posts w) = Resp st (Some (JDict body)) ->
  is_2xx st = true -> lifetime body = Some n ->
  let w' := snd (SaxoClient.get_valid_token w) in
  (stored_record w' SaxoClient.TOKEN_FILE ≫= (.!! "refresh_token"))
  = Some (default rt (body !! "refresh_token")).
Proof.
  intros Hf Hd He Hle Hrt Htok H2 Hn. cbv zeta.
  rewrite (get_valid_token_stale w f d e rt Hf Hd He Hle Hrt).
  unfold bind at 1.
  erewrite (refresh_ok rt _ st body n); [|exact Htok|exact H2|exact Hn].
  unfold bind. rewrite saxo_save_ok.
  unfold stored_record, visible, after_fs. cbn [snd fs ret].
  rewrite lookup_insert_eq. cbn [fmap option_fmap option_map data mbind option_bind].
  rewrite lookup_insert_ne by discriminate.
  destruct (body !! "refresh_token") as [rt'|] eqn:Eb.
  - rewrite lookup_insert_ne by discriminate. rewrite Eb. reflexivity.
  - rewrite lookup_insert_eq. reflexivity.
Qed.

(** C2, the refresh after a 401 (evaluation at the failing input). The
    stored record holds the refresh token "R0"; the API answers 401, the
    token endpoint answers with a record without [refresh_token], the
    retried request succeeds.  The call returns normally, and the token
    file then holds the new record with no refresh token at all; once
    that record has expired, [get_valid_token] fails with [KeyError]. *)
Theorem refresh_after_401_drops_refresh_token :
  stored_record world_401 SaxoClient.TOKEN_FILE ≫= (.!! "refresh_token")
  = Some (JStr "R0")
  /\ fst (SaxoClient.get "https://gateway.saxobank.com/sim/openapi/port/v1/accounts"
                         None world_401)
     = Ok (JDict ∅)
  /\ stored_record
       (snd (SaxoClient.get "https://gateway.saxobank.com/sim/openapi/port/v1/accounts"
                            None world_401))
       SaxoClient.TOKEN_FILE
     = Some (<["exp" := JNum 2200]> record_new)
  /\ stored_record
       (snd (SaxoClient.get "https://gateway.saxobank.com/sim/openapi/port/v1/accounts"
                            None world_401))
       SaxoClient.TOKEN_FILE ≫= (.!! "refresh_token")
     = None
  /\ fst (SaxoClient.get_valid_token
            (at_time 3000
               (snd (SaxoClient.get
                       "https://gateway.saxobank.com/sim/openapi/port/v1/accounts"
                       None world_401))))
     = Raise (KeyError "refresh_token").
Proof. repeat split; vm_compute; reflexivity. Qed.

(* --------------------------------------------------------------------- *)
(** ** Answers and records without a lifetime *)
(* --------------------------------------------------------------------- *)

Lemma get_default_none (d : dict) k dflt :
  d !! k = None -> get_default d k dflt = dflt.
Proof. intros H. unfold get_default. rewrite H. reflexivity. Qed.








(* --------------------------------------------------------------------- *)
(** ** The callback listener *)
(* --------------------------------------------------------------------- *)

Lemma qqq_do_GET_invalid state r s :
  path r = "/callback" ->
  qs_first (query r) "state" <> Some state \/ qs_first (query r) "code" = None ->
  QQQ.do_GET state r s = (400, mkServer None true).
Proof.
  intros Hp Hbad. unfold QQQ.do_GET. rewrite Hp. cbn [String.eqb Ascii.eqb Bool.eqb negb].
  destruct (qs_first (query r) "state") as [st|];
    destruct (qs_first (query r) "code") as [c|]; try reflexivity.
  destruct (String.eqb_spec st state) as [->|]; [|reflexivity].
  destruct Hbad as [H|H]; [contradiction | discriminate].
Qed.

Lemma qqq_do_GET_cases state r s :
  let r' := QQQ.do_GET state r s in
  (r' = (404, s) /\ path r <> "/callback")
  \/ r' = (400, mkServer None true)
  \/ (exists c, r' = (200, mkServer (Some c) true)
                /\ path r = "/callback"
                /\ qs_first (query r) "state" = Some state
                /\ qs_first (query r) "code" = Some c).
Proof.
  cbv zeta. unfold QQQ.do_GET.
  destruct (String.eqb_spec (path r) "/callback") as [Hp|Hp]; cbn [negb];
    [|left; split; [reflexivity | exact Hp]].
  right.
  destruct (qs_first (query r) "state") as [st|];
    destruct (qs_first (query r) "code") as [c|]; try (left; reflexivity).
  destruct (String.eqb_spec st state) as [->|]; [|left; reflexivity].
  right. exists c. repeat split. exact Hp.
Qed.

(** A code held by the QQQ listener came with the expected state. *)
Lemma qqq_serve_accepts state reqs : forall s c,
  event_set s = false ->
  code (snd (QQQ.serve state reqs s)) = Some c ->
  code s = Some c
  \/ exists r, In r reqs /\ path r = "/callback"
               /\ qs_first (query r) "state" = Some state
               /\ qs_first (query r) "code" = Some c.
Proof.
  induction reqs as [|r rest IH]; intros s c Hev Hc; simpl in Hc.
  - left. exact Hc.
  - destruct (qqq_do_GET_cases state r s) as [[E _]|[E|(c' & E & Hp & Hs & Hcode)]];
      cbv zeta in E; rewrite E in Hc.
    + rewrite Hev in Hc.
      destruct (QQQ.serve state rest s) as [sts s2] eqn:Es. simpl in Hc.
      destruct (IH s c Hev) as [H|(r' & Hin & H)].
      * rewrite Es. exact Hc.
      * left. exact H.
      * right. exists r'. split; [right; exact Hin | exact H].
    + simpl in Hc. discriminate.
    + simpl in Hc. injection Hc as <-.
      right. exists r. split; [left; reflexivity | auto].
Qed.

(** Requests on other paths leave the QQQ listener as it was. *)
Lemma qqq_serve_strays state reqs s :
  event_set s = false ->
  Forall (fun r => path r <> "/callback") reqs ->
  snd (QQQ.serve state reqs s) = s.
Proof.
  intros Hev Hall. induction Hall as [|r rest Hr _ IH]; [reflexivity|].
  cbn [QQQ.serve]. unfold QQQ.do_GET.
  destruct (String.eqb_spec (path r) "/callback"); [contradiction|].
  cbn [negb]. rewrite Hev.
  destruct (QQQ.serve state rest s). exact IH.
Qed.

(** C5 (as the code has it).  In [QQQ]: a request on [/callback] whose
    state is not the expected one, or that has no code, is answered 400
    and no code is stored, but the completion event is set: the wait ends
    there and the run exits with status 1, whatever requests would have
    followed; requests on other paths get 404 and leave the listener
    waiting, and if nothing else arrives before the timeout the run exits
    with status 1 as well; a code is only ever taken from a request that
    carried the expected state.  In [get_saxo_token]: a request without a code is
    answered 400 and the listener goes on to the next request, however
    many of them come; the state parameter is not looked at, so the first
    request that carries a code is accepted. *)
Theorem callback_validation (state : string) (r : request) (rest : list request) :
  (forall s w,
     path r = "/callback" ->
     qs_first (query r) "state" <> Some state
     \/ qs_first (query r) "code" = None ->
     QQQ.do_GET state r s = (400, mkServer None true)
     /\ (fs w !! QQQ.TOKEN_FILE = None ->
         QQQ.main state (r :: rest) w = (Raise (SystemExit 1), w)))
  /\
  (forall s, path r <> "/callback" -> event_set s = false ->
             QQQ.do_GET state r s = (404, s)
             /\ snd (QQQ.serve state (r :: rest) s)
                = snd (QQQ.serve state rest s))
  /\
  (forall reqs w,
     Forall (fun r' => path r' <> "/callback") reqs ->
     fs w !! QQQ.TOKEN_FILE = None ->
     QQQ.main state reqs w = (Raise (SystemExit 1), w))
  /\
  (forall reqs c,
     code (snd (QQQ.serve state reqs (mkServer None false))) = Some c ->
     exists r', In r' reqs /\ path r' = "/callback"
                /\ qs_first (query r') "state" = Some state
                /\ qs_first (query r') "code" = Some c)
  /\
  (forall s, qs_first (query r) "code" = None ->
             GetSaxoToken.do_GET r s = (400, s)
             /\ (code s = None ->
                 GetSaxoToken.handle_requests (r :: rest) s
                 = GetSaxoToken.handle_requests rest s))
  /\
  (forall c, qs_first (query r) "code" = Some c ->
             GetSaxoToken.start_local_server (r :: rest) = Some c).
Proof.
  split; [|split; [|split; [|split; [|split]]]].
  - intros s w Hp Hbad. split; [apply qqq_do_GET_invalid; assumption|].
    intros Hf. unfold QQQ.main, bind, is_file. rewrite Hf.
    rewrite bool_decide_eq_false_2 by (intros [? ?]; discriminate).
    cbn [negb QQQ.serve]. rewrite (qqq_do_GET_invalid state r _ Hp Hbad).
    reflexivity.
  - intros s Hp Hev.
    assert (QQQ.do_GET state r s = (404, s)) as E.
    { unfold QQQ.do_GET. destruct (String.eqb_spec (path r) "/callback");
        [contradiction | reflexivity]. }
    split; [exact E|]. cbn [QQQ.serve]. rewrite E, Hev.
    destruct (QQQ.serve state rest s). reflexivity.
  - intros reqs w Hall Hf. unfold QQQ.main, bind, is_file. rewrite Hf.
    rewrite bool_decide_eq_false_2 by (intros [? ?]; discriminate).
    cbn [negb].
    rewrite (qqq_serve_strays state reqs (mkServer None false) eq_refl Hall).
    reflexivity.
  - intros reqs c Hc.
    destruct (qqq_serve_accepts state reqs (mkServer None false) c eq_refl Hc)
      as [H|H];
      [discriminate | exact H].
  - intros s Hc. unfold GetSaxoToken.do_GET. rewrite Hc.
    split; [reflexivity|]. intros Hs. cbn [GetSaxoToken.handle_requests].
    rewrite Hs. unfold GetSaxoToken.do_GET. rewrite Hc. reflexivity.
  - intros c Hc. unfold GetSaxoToken.start_local_server.
    cbn [GetSaxoToken.handle_requests code]. unfold GetSaxoToken.do_GET.
    rewrite Hc. cbn [snd]. destruct rest; reflexivity.
Qed.

(** C5, the claim as worded fails.  In [QQQ] a forged callback that
    arrives before the genuine one ends the wait: the listener answers
    400, the run exits with status 1 and the genuine redirect is never
    looked at.  In [get_saxo_token] the forged callback, whose state is
    not the one sent, is accepted and its code returned. *)
Lemma forged_callback_ends_or_wins :
  QQQ.serve "S3cr3t" [forged_callback; genuine_callback] (mkServer None false)
  = ([400], mkServer None true)
  /\ fst (QQQ.main "S3cr3t" [forged_callback; genuine_callback]
            (world_with ∅ (fun _ => NetErr) (fun _ => NetErr)))
     = Raise (SystemExit 1)
  /\ param "state" (GetSaxoToken.auth_params "client" "http://127.0.0.1:8080/callback")
     = Some "saxo_demo_state_123"
  /\ GetSaxoToken.start_local_server [forged_callback; genuine_callback]
     = Some "evil".
Proof. repeat split; vm_compute; reflexivity. Qed.

(* --------------------------------------------------------------------- *)
(** ** The state parameter of the authorize URL *)
(* --------------------------------------------------------------------- *)

(** C9 (as the code has it).  In [QQQ] the state placed in the authorize
    URL is the value drawn by [secrets.token_urlsafe(16)] when the script
    starts: the URL ends with it, and runs with different draws have
    different state parameters.  In [get_saxo_token] and [auth_code_flow]
    the state is a literal, the same in every run. *)
Theorem authorize_url_state :
  (forall s,
     param "state" (QQQ.auth_params s) = Some s
     /\ QQQ.auth_url s
        = ("https://sim.logonvalidation.net/authorize?response_type=code"
           ++ "&client_id=4252e068bf8b41b4a41545b73d1ccc6d"
           ++ "&redirect_uri=http%3A%2F%2F127.0.0.1%3A5327%2Fcallback"
           ++ "&scope=openid+profile&state=" ++ quote_plus s)%string)
  /\ (forall s1 s2, s1 <> s2 ->
        param "state" (QQQ.auth_params s1) <> param "state" (QQQ.auth_params s2))
  /\ (forall client_id redirect_uri,
        param "state" (GetSaxoToken.auth_params client_id redirect_uri)
        = Some "saxo_demo_state_123")
  /\ (forall client_id redirect_uri,
        param "state" (AuthCodeFlow.auth_params client_id redirect_uri)
        = Some "test_state_123").
Proof.
  split; [|split; [|split]].
  - intros s. split; [reflexivity|]. vm_compute. reflexivity.
  - intros s1 s2 Hne. cbn. congruence.
  - reflexivity.
  - reflexivity.
Qed.

(** C9, the claim as worded fails for [get_saxo_token] and
    [auth_code_flow]: two attempts, even with different client settings,
    put the same state in the authorize URL. *)
Lemma fixed_state_is_shared :
  param "state" (GetSaxoToken.auth_params "client-a" "http://127.0.0.1:8080/callback")
  = param "state" (GetSaxoToken.auth_params "client-b" "http://127.0.0.1:9090/callback")
  /\ param "state" (AuthCodeFlow.auth_params "client-a" "http://127.0.0.1:8080/callback")
     = param "state" (AuthCodeFlow.auth_params "client-b" "http://127.0.0.1:9090/callback").
Proof. split; reflexivity. Qed.

(* --------------------------------------------------------------------- *)
(** ** The theorems at concrete inputs *)
(* --------------------------------------------------------------------- *)


Lemma retry_once_on_401_witness :
  fst (SaxoClient._request "get" "https://gateway/x" (Some [("Uic", "4")]) None true
         (saxo_world record_old answer_new always_401))
  = Raise (RuntimeError (RequestHttpError 401))
  /\ fst (BotTokenDennik.example_api_call bot_config bot_world)
     = Raise (HTTPError 401).
Proof.
  split.
  - apply (proj2 (proj2 (proj1
             (retry_once_on_401 (saxo_world record_old answer_new always_401)
                bot_config "get" "https://gateway/x" (Some [("Uic", "4")]) None)))
             (mkFile (FJson (JDict record_old)) 384) record_old 5000
             (JStr "A0") (JStr "R0") None 200 record_new 1200 (JStr "A1") None);
      try reflexivity.
  - apply (proj2 (proj2 (proj2
             (retry_once_on_401 bot_world bot_config "" "" None None)))
             (mkFile (FJson (JDict bot_record)) 384) bot_record 5000
             (JStr "A0") None 200 record_new 1200 (JStr "A1") None);
      try reflexivity; try discriminate.
Defined.

Lemma callback_validation_witness :
  QQQ.do_GET "S3cr3t" forged_callback (mkServer None false)
  = (400, mkServer None true)
  /\ GetSaxoToken.start_local_server [forged_callback; genuine_callback]
     = Some "evil".
Proof.
  split.
  - apply (proj1 (callback_validation "S3cr3t" forged_callback [genuine_callback])
                 (mkServer None false)
                 (world_with no_store no_network no_network) eq_refl).
    left. vm_compute. discriminate.
  - apply (proj2 (proj2 (proj2 (proj2 (proj2
             (callback_validation "S3cr3t" forged_callback [genuine_callback])))))
             "evil" eq_refl).
Defined.

Lemma dispatch_without_record_witness :
  SaxoClient.get_valid_token (world_with no_store answer_new no_network)
  = (Raise NotAuthorized, world_with no_store answer_new no_network)
  /\ exists evs,
       new_events (world_with no_store answer_new no_network)
         (snd (BotTokenDennik.example_api_call bot_config
                 (world_with no_store answer_new no_network)))
       = [ EvLog Info; EvRefresherCall; EvLog Debug;
           EvTokenPost (JStr "R-config") ] ++ evs.
Proof.
  split.
  - apply (proj1 (dispatch_without_record (world_with no_store answer_new no_network)
                    bot_config) eq_refl).
  - apply (proj2 (proj2 (dispatch_without_record
                           (world_with no_store answer_new no_network) bot_config)
                        eq_refl)).
Defined.


Lemma authorize_url_state_witness :
  param "state" (QQQ.auth_params "q1w2e3") <> param "state" (QQQ.auth_params "r4t5y6").
Proof.
  apply (proj1 (proj2 authorize_url_state) "q1w2e3" "r4t5y6").
  discriminate.
Defined.

(* ===================================================================== *)
(** * Further properties of the scripts *)
(* ===================================================================== *)

(* --------------------------------------------------------------------- *)
(** ** saxo_client: the refresher on arbitrary answers *)
(* --------------------------------------------------------------------- *)

Section RefresherBounds.
Import SaxoClient.
Variables (rt : json) (retries : nat) (backoff : Z).



End RefresherBounds.


Section RefresherAnswers.
Import SaxoClient.
Variables (rt : json) (retries : nat) (backoff : Z).

(** An unusable answer makes the attempt raise something the loop does not
    treat as fatal. *)
Lemma refresh_attempt_unusable w :
  unusable (token_endpoint w (posts w)) = true ->
  exists e w1,
    refresh_attempt rt w = (Raise e, w1)
    /\ (forall c, e = HTTPError c -> (400 <=? c) && (c <? 500) = false)
    /\ posts w1 = S (posts w)
    /\ token_endpoint w1 = token_endpoint w
    /\ trace w1 = trace w ++ [EvTokenPost rt].
Proof.
  unfold unusable, is_2xx, lifetime.
  unfold refresh_attempt, urlopen_json, token_exchange, now, py_int.
  cbv beta iota zeta delta [bind ret raise].
  destruct (token_endpoint w (posts w)) as [st body|].
  - destruct ((200 <=? st) && (st <? 300)) eqn:E2.
    + destruct body as [[d|b]|].
      * destruct (get_default d "expires_in" (JNum 0)) as [|n|s].
        -- intros _. do 2 eexists. split; [reflexivity|].
           repeat split. intros c [=].
        -- discriminate.
        -- destruct (int_of_str s); [discriminate|]. intros _.
           do 2 eexists. split; [reflexivity|]. repeat split. intros c [=].
      * intros _. do 2 eexists. split; [reflexivity|]. repeat split. intros c [=].
      * intros _. do 2 eexists. split; [reflexivity|]. repeat split. intros c [=].
    + intros H4. do 2 eexists. split; [reflexivity|]. repeat split.
      intros c [= <-]. destruct ((400 <=? st) && (st <? 500)); [discriminate|reflexivity].
  - intros _. do 2 eexists. split; [reflexivity|]. repeat split. intros c [=].
Qed.

(** [k] unusable answers in a row: the loop goes through [k] attempts. *)
Lemma refresh_loop_unusable k : forall a rest w,
  (forall j, (j < k)%nat -> unusable (token_endpoint w (posts w + j)) = true) ->
  exists w',
    refresh_loop rt retries backoff (seq a k ++ rest) w
    = refresh_loop rt retries backoff rest w'
    /\ posts w' = (posts w + k)%nat
    /\ token_endpoint w' = token_endpoint w
    /\ trace w' = trace w ++ failed_attempts rt retries backoff a k.
Proof.
  induction k as [|k IH]; intros a rest w Hun.
  - exists w. simpl. rewrite Nat.add_0_r, app_nil_r. auto.
  - destruct (refresh_attempt_unusable w) as (e & w1 & Hatt & He & Hp & Ht & Htr).
    { specialize (Hun 0%nat). rewrite Nat.add_0_r in Hun. apply Hun. lia. }
    assert (exists w2,
              refresh_loop rt retries backoff (seq a (S k) ++ rest) w
              = refresh_loop rt retries backoff (seq (S a) k ++ rest) w2
              /\ posts w2 = S (posts w)
              /\ token_endpoint w2 = token_endpoint w
              /\ trace w2 = trace w ++ failed_attempts rt retries backoff a 1)
      as (w2 & Heq & Hp2 & Ht2 & Htr2).
    { cbn [seq app refresh_loop]. unfold try_except. rewrite Hatt.
      assert (exists w2,
                ((if (a <? retries)%nat
                  then sleep (backoff * 2 ^ Z.of_nat a) else ret tt) ;;;
                 refresh_loop rt retries backoff (seq (S a) k ++ rest)) w1
                = refresh_loop rt retries backoff (seq (S a) k ++ rest) w2
                /\ posts w2 = S (posts w)
                /\ token_endpoint w2 = token_endpoint w
                /\ trace w2 = trace w ++ failed_attempts rt retries backoff a 1)
        as Hnext.
      { unfold bind, sleep, emit, ret. cbn [failed_attempts].
        destruct (a <? retries)%nat; eexists; (split; [reflexivity|]);
          simpl; rewrite Htr, <- ?app_assoc, ?app_nil_r; auto. }
      destruct e as [| | | | | | |c| | |]; try exact Hnext.
      rewrite (He c eq_refl). exact Hnext. }
    destruct (IH (S a) rest w2) as (w' & Heq' & Hp' & Ht' & Htr').
    { intros j Hj. rewrite Ht2, Hp2.
      replace (S (posts w) + j)%nat with (posts w + S j)%nat by lia.
      apply Hun. lia. }
    exists w'. split; [congruence|]. split; [lia|]. split; [congruence|].
    rewrite Htr', Htr2, <- app_assoc.
    change (S k) with (1 + k)%nat. rewrite failed_attempts_app.
    replace (a + 1)%nat with (S a) by lia. reflexivity.
Qed.

End RefresherAnswers.

(** X2. Not only network errors and 5xx answers are retried by
    [_refresh_token]: a status outside 2xx and 4xx, and a 2xx answer whose
    body is not JSON, is not an object, or has an [expires_in] that [int]
    rejects, count as failed attempts too.  [retries + 1] such answers in
    a row give [retries + 1] POSTs, the usual pauses, and the exhaustion
    error. *)
Theorem refresher_retries_unusable_answers
        (rt : json) (retries : nat) (backoff : Z) (w : World) :
  (forall j, (j < S retries)%nat ->
             unusable (token_endpoint w (posts w + j)) = true) ->
  let r := SaxoClient._refresh_token rt retries backoff w in
  fst r = Raise TransientFailure
  /\ posts (snd r) = (posts w + S retries)%nat
  /\ new_events w (snd r)
     = EvRefresherCall :: failed_attempts rt retries backoff 0 (S retries).
Proof.
  intros Hun. cbv zeta. unfold SaxoClient._refresh_token, bind.
  rewrite emit_after_posts.
  rewrite <- (app_nil_r (seq 0 (S retries))).
  destruct (refresh_loop_unusable rt retries backoff (S retries) 0 []
              (after_posts w 0 [EvRefresherCall]))
    as (w' & Heq & Hp & _ & Htr).
  { intros j Hj. simpl. rewrite Nat.add_0_r. apply Hun, Hj. }
  rewrite Heq. cbn [SaxoClient.refresh_loop raise fst snd].
  split; [reflexivity|]. split.
  - rewrite Hp. simpl. lia.
  - apply new_events_app. rewrite Htr. simpl. rewrite <- app_assoc. reflexivity.
Qed.

Lemma refresher_retries_unusable_answers_witness :
  fst (SaxoClient._refresh_token (JStr "R0") 2 1
         (world_with no_store useless_endpoint no_network))
  = Raise TransientFailure.
Proof.
  apply (refresher_retries_unusable_answers (JStr "R0") 2 1
           (world_with no_store useless_endpoint no_network)).
  intros j Hj. destruct j as [|[|[|j]]]; [reflexivity | reflexivity | reflexivity | lia].
Defined.

Lemma refresh_attempt_ok rt w st body n :
  token_endpoint w (posts w) = Resp st (Some (JDict body)) ->
  is_2xx st = true -> lifetime body = Some n ->
  SaxoClient.refresh_attempt rt w
  = (Ok (<["exp" := JNum (clock w (ticks w) + n)]> body),
     tick (after_posts w 1 [EvTokenPost rt])).
Proof.
  intros Hr H2 Hn.
  unfold SaxoClient.refresh_attempt, urlopen_json, token_exchange, now.
  cbv beta iota zeta delta [bind ret raise].
  rewrite Hr. unfold is_2xx in H2. rewrite H2.
  rewrite (py_int_lifetime body n _ Hn).
  unfold tick, after_posts. simpl. rewrite Nat.add_1_r. reflexivity.
Qed.

(** X3. When [k <= retries] transient answers are followed by a 2xx answer
    with a JSON object, [_refresh_token] returns that object with [exp]
    set to the clock reading plus [int(expires_in)] (0 when the field is
    missing), after [k + 1] POSTs and the [k] pauses; it writes nothing. *)
Theorem refresher_recovers (rt : json) (retries : nat) (backoff : Z) (w : World)
        (k : nat) (st : Z) (body : dict) (n : Z) :
  (k <= retries)%nat ->
  (forall j, (j < k)%nat -> transient (token_endpoint w (posts w + j)) = true) ->
  token_endpoint w (posts w + k) = Resp st (Some (JDict body)) ->
  is_2xx st = true -> lifetime body = Some n ->
  SaxoClient._refresh_token rt retries backoff w
  = (Ok (<["exp" := JNum (clock w (ticks w) + n)]> body),
     tick (after_posts w (S k)
             (EvRefresherCall :: failed_attempts rt retries backoff 0 k
              ++ [EvTokenPost rt]))).
Proof.
  intros Hk Htr Hr H2 Hn. unfold SaxoClient._refresh_token, bind.
  rewrite emit_after_posts.
  replace (seq 0 (S retries)) with (seq 0 k ++ k :: seq (S k) (retries - k)).
  2:{ replace (S retries) with (k + S (retries - k))%nat by lia.
      rewrite seq_app. reflexivity. }
  rewrite refresh_loop_skip.
  2:{ intros j Hj. simpl. rewrite Nat.add_0_r. apply Htr, Hj. }
  cbn [SaxoClient.refresh_loop]. unfold try_except.
  erewrite (refresh_attempt_ok rt _ st body n); [| |exact H2|exact Hn].
  2:{ simpl. rewrite Nat.add_0_r. exact Hr. }
  rewrite !after_posts_after_posts. simpl.
  replace (k + 1)%nat with (S k) by lia. reflexivity.
Qed.

Lemma refresher_recovers_witness :
  SaxoClient._refresh_token (JStr "R0") 2 1
    (world_with no_store flaky_endpoint no_network)
  = (Ok (<["exp" := JNum (1000 + 1200)]> record_new),
     tick (after_posts (world_with no_store flaky_endpoint no_network) 3
             (EvRefresherCall :: failed_attempts (JStr "R0") 2 1 0 2
              ++ [EvTokenPost (JStr "R0")]))).
Proof.
  apply (refresher_recovers (JStr "R0") 2 1
           (world_with no_store flaky_endpoint no_network) 2 200 record_new 1200).
  - lia.
  - intros j Hj. destruct j as [|[|j]]; [reflexivity | reflexivity | lia].
  - reflexivity.
  - reflexivity.
  - reflexivity.
Defined.

(* --------------------------------------------------------------------- *)
(** ** Saving and loading again *)
(* --------------------------------------------------------------------- *)

Lemma bot_load_record cfg w f v :
  fs w !! BotTokenDennik.TOKEN_FILE cfg = Some f -> data f = FJson v ->
  BotTokenDennik.load_token cfg w = (Ok v, w).
Proof.
  intros Hf Hd.
  unfold BotTokenDennik.load_token, is_file, json_load, try_except, bind.
  rewrite Hf. rewrite bool_decide_eq_true_2 by eauto. cbn [negb].
  rewrite Hf, Hd. reflexivity.
Qed.

Lemma in_place_save_ok p v w :
  fs_do_all [Truncate p; WriteChunk p v; WriteDone p v] w
  = (Ok tt,
     after_fs w (<[p := mkFile (FJson v)
                          (match fs w !! p with
                           | Some o => mode o
                           | None => create_mode w
                           end)]> (fs w))
              [Truncate p; WriteChunk p v; WriteDone p v]).
Proof. apply fs_do_all_ok, in_place_run. Qed.

(** X4. [saxo_client]: loading right after [_save_token] gives back the
    record that was saved, whatever the token file held before (nothing,
    garbage, another record); the save always succeeds, leaves no
    temporary file behind, sets mode 0o600, and touches no other file. *)
Theorem saxo_save_then_load (d : dict) (w : World) :
  let w' := snd (SaxoClient._save_token d w) in
  fst (SaxoClient._save_token d w) = Ok tt
  /\ SaxoClient._load_token w' = (Ok (Some (JDict d)), w')
  /\ fs w' !! SaxoClient.TOKEN_TMP = None
  /\ mode_of (fs w') SaxoClient.TOKEN_FILE = Some 384
  /\ (forall p, p <> SaxoClient.TOKEN_FILE -> p <> SaxoClient.TOKEN_TMP ->
                fs w' !! p = fs w !! p).
Proof.
  cbv zeta. rewrite saxo_save_ok. cbn [fst snd]. split; [reflexivity|].
  split; [|split; [|split]].
  - apply (load_token_record _ (mkFile (FJson (JDict d)) 384));
      [apply lookup_insert_eq | reflexivity].
  - cbn [after_fs fs]. rewrite lookup_insert_ne by discriminate.
    apply lookup_delete_eq.
  - unfold mode_of. cbn [after_fs fs]. rewrite lookup_insert_eq. reflexivity.
  - intros p H1 H2. cbn [after_fs fs].
    rewrite lookup_insert_ne by congruence. apply lookup_delete_ne. congruence.
Qed.

(** X5. [QQQ] and [bot-token-dennik]: loading right after [save_token]
    gives back what was saved, whatever the file held before; the save
    always succeeds, touches no other file, and the file keeps the mode it
    had (a new file gets the default mode, never 0o600 by the save). *)
Theorem in_place_save_then_load (d : dict) (v : jdoc)
        (cfg : BotTokenDennik.Config) (w : World) :
  (let w' := snd (QQQ.save_token d w) in
   fst (QQQ.save_token d w) = Ok tt
   /\ QQQ.load_token w' = (Ok (Some (JDict d)), w')
   /\ mode_of (fs w') QQQ.TOKEN_FILE
      = Some (default (create_mode w) (mode_of (fs w) QQQ.TOKEN_FILE))
   /\ (forall p, p <> QQQ.TOKEN_FILE -> fs w' !! p = fs w !! p))
  /\
  (let w' := snd (BotTokenDennik.save_token cfg v w) in
   fst (BotTokenDennik.save_token cfg v w) = Ok tt
   /\ fst (BotTokenDennik.load_token cfg w') = Ok v
   /\ trace (snd (BotTokenDennik.load_token cfg w')) = trace w'
   /\ mode_of (fs w') (BotTokenDennik.TOKEN_FILE cfg)
      = Some (default (create_mode w)
                      (mode_of (fs w) (BotTokenDennik.TOKEN_FILE cfg)))
   /\ (forall p, p <> BotTokenDennik.TOKEN_FILE cfg -> fs w' !! p = fs w !! p)).
Proof.
  split; cbv zeta.
  - unfold QQQ.save_token, QQQ.save_token_ops. rewrite in_place_save_ok.
    cbn [fst snd]. split; [reflexivity|]. split; [|split].
    + unfold QQQ.load_token, try_except, bind, json_load. cbn [after_fs fs].
      rewrite lookup_insert_eq. reflexivity.
    + unfold mode_of. cbn [after_fs fs]. rewrite lookup_insert_eq. simpl.
      destruct (fs w !! QQQ.TOKEN_FILE); reflexivity.
    + intros p Hp. cbn [after_fs fs]. apply lookup_insert_ne. congruence.
  - unfold BotTokenDennik.save_token, BotTokenDennik.save_token_ops.
    rewrite in_place_save_ok. cbn [fst snd].
    rewrite (bot_load_record cfg _ (mkFile (FJson v)
                        (match fs w !! BotTokenDennik.TOKEN_FILE cfg with
                         | Some o => mode o
                         | None => create_mode w
                         end)) v)
      by (try apply lookup_insert_eq; reflexivity).
    cbn [fst snd]. split; [reflexivity|].
    split; [reflexivity|]. split; [reflexivity|]. split.
    + unfold mode_of. cbn [after_fs fs]. rewrite lookup_insert_eq. simpl.
      destruct (fs w !! BotTokenDennik.TOKEN_FILE cfg); reflexivity.
    + intros p Hp. cbn [after_fs fs]. apply lookup_insert_ne. congruence.
Qed.

(* --------------------------------------------------------------------- *)
(** ** saxo_client: records [get_valid_token] cannot use *)
(* --------------------------------------------------------------------- *)

(** X6. A token file that holds an empty object, [null], [false] or 0 is
    treated by [saxo_client] exactly like a missing file: [get_valid_token]
    and every request fail with the "token file missing" error and leave
    the world as it was. *)
Theorem saxo_empty_document_is_missing (w : World) (f : file) (v : jdoc) :
  fs w !! SaxoClient.TOKEN_FILE = Some f ->
  data f = FJson v ->
  doc_truthy v = false ->
  SaxoClient.get_valid_token w = (Raise NotAuthorized, w)
  /\ forall method url params json_data retry,
       SaxoClient._request method url params json_data retry w
       = (Raise NotAuthorized, w).
Proof.
  intros Hf Hd Hv.
  assert (SaxoClient.get_valid_token w = (Raise NotAuthorized, w)) as H.
  { unfold SaxoClient.get_valid_token, bind at 1.
    rewrite (load_token_record w f v Hf Hd), Hv. reflexivity. }
  split; [exact H|]. intros method url params json_data retry.
  unfold SaxoClient._request, SaxoClient.request_with, bind. rewrite H. reflexivity.
Qed.

Lemma saxo_empty_document_is_missing_witness :
  SaxoClient.get_valid_token (saxo_world empty_record answer_new no_network)
  = (Raise NotAuthorized, saxo_world empty_record answer_new no_network).
Proof.
  apply (proj1 (saxo_empty_document_is_missing
                  (saxo_world empty_record answer_new no_network)
                  (mkFile (FJson (JDict empty_record)) 384) (JDict empty_record)
                  eq_refl eq_refl ltac:(vm_compute; reflexivity))).
Defined.

(** X7. A stored record that has run out but carries no [refresh_token]
    makes [get_valid_token] fail with [KeyError] before anything is sent;
    a stored record whose [exp] is not a number makes it fail with
    [TypeError].  In both cases only the clock has been read: no event,
    and the files are as they were. *)
Theorem saxo_unusable_record (w : World) (f : file) (d : dict) :
  fs w !! SaxoClient.TOKEN_FILE = Some f ->
  data f = FJson (JDict d) ->
  (forall e, d !! "exp" = Some (JNum e) -> e <= clock w (ticks w) + 30 ->
             d !! "refresh_token" = None ->
             SaxoClient.get_valid_token w
             = (Raise (KeyError "refresh_token"), tick w))
  /\ (forall x, d !! "exp" = Some x -> (forall e, x <> JNum e) ->
                SaxoClient.get_valid_token w = (Raise TypeError, tick w)).
Proof.
  intros Hf Hd. split.
  - intros e He Hle Hrt. unfold SaxoClient.get_valid_token, bind at 1.
    rewrite (load_token_record w f _ Hf Hd), (dict_truthy d _ _ He).
    cbn [negb]. cbv beta iota zeta delta [bind ret raise getitem as_num now].
    rewrite He. cbv beta iota. rewrite He. cbv beta iota.
    destruct (Z.ltb_spec (clock w (ticks w)) (e - 30)); [lia|].
    rewrite Hrt. reflexivity.
  - intros x He Hx. unfold SaxoClient.get_valid_token, bind at 1.
    rewrite (load_token_record w f _ Hf Hd), (dict_truthy d _ _ He).
    cbn [negb]. cbv beta iota zeta delta [bind ret raise getitem as_num now].
    rewrite He. cbv beta iota. rewrite He. cbv beta iota.
    destruct x as [|e|s]; [reflexivity | | reflexivity].
    destruct (Hx e eq_refl).
Qed.

Lemma saxo_unusable_record_witness :
  SaxoClient.get_valid_token (saxo_world record_no_refresh answer_new no_network)
  = (Raise (KeyError "refresh_token"),
     tick (saxo_world record_no_refresh answer_new no_network))
  /\ SaxoClient.get_valid_token (saxo_world record_text_exp answer_new no_network)
     = (Raise TypeError, tick (saxo_world record_text_exp answer_new no_network)).
Proof.
  split.
  - apply (proj1 (saxo_unusable_record
                    (saxo_world record_no_refresh answer_new no_network)
                    (mkFile (FJson (JDict record_no_refresh)) 384)
                    record_no_refresh eq_refl eq_refl)
                 1010 eq_refl).
    + vm_compute. discriminate.
    + reflexivity.
  - apply (proj2 (saxo_unusable_record
                    (saxo_world record_text_exp answer_new no_network)
                    (mkFile (FJson (JDict record_text_exp)) 384)
                    record_text_exp eq_refl eq_refl)
                 (JStr "5000") eq_refl).
    intros e. discriminate.
Defined.

(* --------------------------------------------------------------------- *)
(** ** saxo_client: what [get_valid_token] returns *)
(* --------------------------------------------------------------------- *)

Lemma load_token_world w : snd (SaxoClient._load_token w) = w.
Proof.
  unfold SaxoClient._load_token, try_except, bind, json_load.
  destruct (fs w !! SaxoClient.TOKEN_FILE) as [f|]; [|reflexivity].
  destruct (data f); reflexivity.
Qed.

Lemma refresh_attempt_result rt w r w1 :
  SaxoClient.refresh_attempt rt w = (Ok r, w1) ->
  exists e, r !! "exp" = Some (JNum e).
Proof.
  unfold SaxoClient.refresh_attempt, urlopen_json, token_exchange, now, py_int.
  cbv beta iota zeta delta [bind ret raise].
  destruct (token_endpoint w (posts w)) as [st body|]; [|discriminate].
  destruct ((200 <=? st) && (st <? 300)); [|discriminate].
  destruct body as [[d|b]|]; try discriminate.
  destruct (get_default d "expires_in" (JNum 0)) as [|n|s]; try discriminate.
  - intros [= <- _]. eexists. apply lookup_insert_eq.
  - destruct (int_of_str s); [|discriminate].
    intros [= <- _]. eexists. apply lookup_insert_eq.
Qed.

Lemma refresh_loop_result rt retries backoff attempts : forall w r w1,
  SaxoClient.refresh_loop rt retries backoff attempts w = (Ok r, w1) ->
  exists e, r !! "exp" = Some (JNum e).
Proof.
  induction attempts as [|a rest IH]; intros w r w1; [discriminate|].
  cbn [SaxoClient.refresh_loop]. unfold try_except.
  destruct (SaxoClient.refresh_attempt rt w) as [[d|e] w0] eqn:Ea.
  - intros [= <- _]. eapply refresh_attempt_result, Ea.
  - assert (((if (a <? retries)%nat
              then sleep (backoff * 2 ^ Z.of_nat a) else ret tt) ;;;
             SaxoClient.refresh_loop rt retries backoff rest) w0 = (Ok r, w1) ->
            exists e, r !! "exp" = Some (JNum e)) as Hnext.
    { unfold bind. destruct (a <? retries)%nat; unfold sleep, emit, ret; apply IH. }
    destruct e as [| | | | | | |c| | |]; try exact Hnext.
    destruct ((400 <=? c) && (c <? 500)); [discriminate | exact Hnext].
Qed.

Lemma refresh_result rt w r w1 :
  SaxoClient.refresh rt w = (Ok r, w1) -> exists e, r !! "exp" = Some (JNum e).
Proof.
  unfold SaxoClient.refresh, SaxoClient._refresh_token, bind, emit.
  apply refresh_loop_result.
Qed.

(** X8. Whenever [saxo_client.get_valid_token] returns a record, that
    record has a numeric [exp]; and either that [exp] lies more than 30 s
    ahead and nothing but the clock was touched (the record is the one of
    the token file, stamped if it had no [exp]), or the record comes from
    a refresh, carries a [refresh_token], and is exactly what the token
    file now holds. *)
Theorem saxo_valid_token_is_stored (w : World) (tok : dict) :
  fst (SaxoClient.get_valid_token w) = Ok tok ->
  (exists e, tok !! "exp" = Some (JNum e)
             /\ snd (SaxoClient.get_valid_token w) = tick w
             /\ clock w (ticks w) + 30 < e)
  \/ (exists e, tok !! "exp" = Some (JNum e))
     /\ is_Some (tok !! "refresh_token")
     /\ stored_record (snd (SaxoClient.get_valid_token w)) SaxoClient.TOKEN_FILE
        = Some tok.
Proof.
  remember (SaxoClient.get_valid_token w) as r eqn:Er. intros H.
  unfold SaxoClient.get_valid_token, bind at 1 in Er.
  pose proof (load_token_world w) as Hw.
  destruct (SaxoClient._load_token w) as [[[v|]|e0] w0]; simpl in Hw; subst w0;
    try (subst r; discriminate H).
  destruct (negb (doc_truthy v)); [subst r; discriminate H|].
  unfold bind at 1, now in Er.
  destruct v as [tok0|b]; [|subst r; discriminate H].
  unfold bind at 1 in Er.
  assert (forall tok1 w1,
            match tok0 !! "exp" with
            | Some _ => ret tok0
            | None =>
                n <- py_int (get_default tok0 "expires_in" (JNum 0)) ;;
                ret (<["exp" := JNum (clock w (ticks w) + n)]> tok0)
            end (tick w) = (Ok tok1, w1) -> w1 = tick w) as Hstamp.
  { intros tok1 w1. destruct (tok0 !! "exp"); [intros [= _ <-]; reflexivity|].
    unfold py_int. cbv beta iota zeta delta [bind ret raise].
    destruct (get_default tok0 "expires_in" (JNum 0)) as [|n|s]; try discriminate.
    - intros [= _ <-]. reflexivity.
    - destruct (int_of_str s); [|discriminate]. intros [= _ <-]. reflexivity. }
  change (mkWorld (fs w) (create_mode w) (clock w) (S (ticks w))
                  (token_endpoint w) (posts w) (api w) (calls w) (trace w))
    with (tick w) in Er.
  destruct (match tok0 !! "exp" with
            | Some _ => ret tok0
            | None =>
                n <- py_int (get_default tok0 "expires_in" (JNum 0)) ;;
                ret (<["exp" := JNum (clock w (ticks w) + n)]> tok0)
            end (tick w)) as [[tok1|e1] w1] eqn:E1; [|subst r; discriminate H].
  rewrite (Hstamp tok1 w1 eq_refl) in Er. clear Hstamp E1 w1.
  cbv beta iota zeta delta [bind ret raise getitem as_num] in Er.
  destruct (tok1 !! "exp") as [[|e|s]|] eqn:Eexp; try (subst r; discriminate H).
  destruct (Z.ltb_spec (clock w (ticks w)) (e - 30)) as [Hlt|Hge].
  - subst r. injection H as <-. left. exists e. repeat split; [exact Eexp | lia].
  - destruct (tok1 !! "refresh_token") as [rt|]; [|subst r; discriminate H].
    destruct (SaxoClient.refresh rt (tick w)) as [[refreshed|e2] w2] eqn:Erf;
      [|subst r; discriminate H].
    rewrite saxo_save_ok in Er. subst r. cbn [fst snd] in H |- *.
    injection H as <-. right.
    destruct (refresh_result rt _ _ _ Erf) as [e' He'].
    split; [|split].
    + destruct (refreshed !! "refresh_token"); [eauto|].
      exists e'. rewrite lookup_insert_ne by discriminate. exact He'.
    + destruct (refreshed !! "refresh_token") eqn:Ert; [rewrite Ert; eauto|].
      rewrite lookup_insert_eq. eauto.
    + unfold stored_record, visible. cbn [after_fs fs].
      rewrite lookup_insert_eq. reflexivity.
Qed.

Lemma saxo_valid_token_is_stored_witness :
  stored_record
    (snd (SaxoClient.get_valid_token (saxo_world record_stale answer_new no_network)))
    SaxoClient.TOKEN_FILE
  = Some record_kept.
Proof.
  destruct (saxo_valid_token_is_stored
              (saxo_world record_stale answer_new no_network) record_kept
              ltac:(vm_compute; reflexivity))
    as [(e & _ & H & _) | (_ & _ & H)].
  - vm_compute in H. discriminate H.
  - exact H.
Defined.

(** X9. After a refresh that brought a record living longer than the
    margin, the next [get_valid_token] returns that same record from the
    token file without calling the refresher again. *)
Theorem saxo_refresh_then_reuse (w : World) (f : file) (d : dict) (e : Z)
        (rt : json) (st : Z) (body : dict) (n : Z) :
  fs w !! SaxoClient.TOKEN_FILE = Some f -> data f = FJson (JDict d) ->
  d !! "exp" = Some (JNum e) -> e <= clock w (ticks w) + 30 ->
  d !! "refresh_token" = Some rt ->
  token_endpoint w (posts w) = Resp st (Some (JDict body)) ->
  is_2xx st = true -> lifetime body = Some n ->
  clock w (S (S (ticks w))) + 30 < clock w (S (ticks w)) + n ->
  let r1 := SaxoClient.get_valid_token w in
  exists kept,
    fst r1 = Ok kept
    /\ kept !! "refresh_token" = Some (default rt (body !! "refresh_token"))
    /\ SaxoClient.get_valid_token (snd r1) = (Ok kept, tick (snd r1)).
Proof.
  intros Hf Hd He Hle Hrt Htok H2 Hn Hfresh. cbv zeta.
  remember (SaxoClient.get_valid_token w) as r1 eqn:E1.
  rewrite (get_valid_token_stale w f d e rt Hf Hd He Hle Hrt) in E1.
  unfold bind at 1 in E1.
  erewrite (refresh_ok rt _ st body n) in E1; [|exact Htok|exact H2|exact Hn].
  unfold bind, ret in E1. rewrite saxo_save_ok in E1. subst r1. cbn [fst snd].
  eexists. split; [reflexivity|]. split.
  - rewrite lookup_insert_ne by discriminate.
    destruct (body !! "refresh_token") as [rt'|] eqn:Eb.
    + rewrite lookup_insert_ne by discriminate. exact Eb.
    + apply lookup_insert_eq.
  - eapply (get_valid_token_fresh _ _ _ (clock w (S (ticks w)) + n)).
    + apply lookup_insert_eq.
    + reflexivity.
    + rewrite lookup_insert_ne by discriminate.
      destruct (body !! "refresh_token");
        [|rewrite lookup_insert_ne by discriminate]; apply lookup_insert_eq.
    + exact Hfresh.
Qed.

Lemma saxo_refresh_then_reuse_witness :
  exists kept,
    fst (SaxoClient.get_valid_token (saxo_world record_stale answer_new no_network))
    = Ok kept
    /\ kept !! "refresh_token" = Some (JStr "R0")
    /\ SaxoClient.get_valid_token
         (snd (SaxoClient.get_valid_token
                 (saxo_world record_stale answer_new no_network)))
       = (Ok kept,
          tick (snd (SaxoClient.get_valid_token
                       (saxo_world record_stale answer_new no_network)))).
Proof.
  apply (saxo_refresh_then_reuse (saxo_world record_stale answer_new no_network)
           (mkFile (FJson (JDict record_stale)) 384) record_stale 1010
           (JStr "R0") 200 record_new 1200); try reflexivity.
  vm_compute. discriminate.
Defined.

(* --------------------------------------------------------------------- *)
(** ** saxo_client: one round of the dispatcher *)
(* --------------------------------------------------------------------- *)

Section SaxoDispatcherRounds.
Import SaxoClient.
Variables (method url : string) (params : option (list (string * string)))
          (json_data : option jdoc).



End SaxoDispatcherRounds.



(* --------------------------------------------------------------------- *)
(** ** QQQ: the token requests *)
(* --------------------------------------------------------------------- *)

Lemma qqq_refresh_run rt w :
  QQQ.refresh_token rt w
  = (qqq_outcome (token_endpoint w (posts w)) (clock w (ticks w)),
     match token_endpoint w (posts w) with
     | Resp st (Some _) =>
         if is_2xx st
         then tick (after_posts w 1 [EvRefresherCall; EvTokenPost rt])
         else after_posts w 1 [EvRefresherCall; EvTokenPost rt]
     | _ => after_posts w 1 [EvRefresherCall; EvTokenPost rt]
     end).
Proof.
  unfold QQQ.refresh_token, urlopen_json, token_exchange, now, as_num,
    emit, qqq_outcome, is_2xx, tick, after_posts.
  cbv beta iota zeta delta [bind ret raise].
  cbn [token_endpoint posts fs create_mode clock ticks api calls trace].
  rewrite <- app_assoc, Nat.add_1_r. cbn [app].
  destruct (token_endpoint w (posts w)) as [st b|]; [|reflexivity].
  destruct ((200 <=? st) && (st <? 300)); [|destruct b; reflexivity].
  destruct b as [[token|s]|]; try reflexivity.
  destruct (get_default token "expires_in" (JNum 0)); reflexivity.
Qed.

Lemma qqq_exchange_run c w :
  QQQ.exchange_code_for_token c w
  = (qqq_outcome (token_endpoint w (posts w)) (clock w (ticks w)),
     match token_endpoint w (posts w) with
     | Resp st (Some _) =>
         if is_2xx st
         then tick (after_posts w 1 [EvCodePost c])
         else after_posts w 1 [EvCodePost c]
     | _ => after_posts w 1 [EvCodePost c]
     end).
Proof.
  unfold QQQ.exchange_code_for_token, urlopen_json, token_exchange, now, as_num,
    qqq_outcome, is_2xx, tick, after_posts.
  cbv beta iota zeta delta [bind ret raise].
  cbn [token_endpoint posts fs create_mode clock ticks api calls trace].
  rewrite Nat.add_1_r.
  destruct (token_endpoint w (posts w)) as [st b|]; [|reflexivity].
  destruct ((200 <=? st) && (st <? 300)); [|destruct b; reflexivity].
  destruct b as [[token|s]|]; try reflexivity.
  destruct (get_default token "expires_in" (JNum 0)); reflexivity.
Qed.

Lemma qqq_outcome_ok r t d :
  qqq_outcome r t = Ok d ->
  (exists e, d !! "exp" = Some (JNum e))
  /\ exists st v, r = Resp st (Some v) /\ is_2xx st = true.
Proof.
  unfold qqq_outcome. destruct r as [st b|]; [|discriminate].
  destruct (is_2xx st) eqn:E2; [|discriminate].
  destruct b as [[token|s]|]; try discriminate.
  destruct (get_default token "expires_in" (JNum 0)); try discriminate.
  intros [= <-]. split; [eexists; apply lookup_insert_eq | eauto].
Qed.

Lemma qqq_load_record w f v :
  fs w !! QQQ.TOKEN_FILE = Some f -> data f = FJson v ->
  QQQ.load_token w = (Ok (Some v), w).
Proof.
  intros Hf Hd. unfold QQQ.load_token, try_except, bind, json_load.
  rewrite Hf, Hd. reflexivity.
Qed.

(** X12. QQQ's [refresh_token] sends exactly one POST whatever the answer
    (no retry, no pause), touches no file, and lets the errors of
    [urlopen] and of the stamping through as they are. *)
Theorem qqq_refresh_is_single_shot (rt : json) (w : World) :
  let r := QQQ.refresh_token rt w in
  new_events w (snd r) = [EvRefresherCall; EvTokenPost rt]
  /\ posts (snd r) = S (posts w)
  /\ fs (snd r) = fs w
  /\ fst r = qqq_outcome (token_endpoint w (posts w)) (clock w (ticks w)).
Proof.
  cbv zeta. rewrite qqq_refresh_run. cbn [fst snd].
  assert (forall w', w' = tick (after_posts w 1 [EvRefresherCall; EvTokenPost rt])
                     \/ w' = after_posts w 1 [EvRefresherCall; EvTokenPost rt] ->
            new_events w w' = [EvRefresherCall; EvTokenPost rt]
            /\ posts w' = S (posts w) /\ fs w' = fs w) as H.
  { intros w' [-> | ->]; (split; [apply new_events_app; reflexivity|]);
      cbn [tick after_posts posts fs]; split; [lia | reflexivity | lia | reflexivity]. }
  match goal with
  | |- new_events w ?w' = _ /\ _ => destruct (H w') as (H1 & H2 & H3)
  end.
  { destruct (token_endpoint w (posts w)) as [st [b|]|]; auto.
    destruct (is_2xx st); auto. }
  auto.
Qed.

(** X13. An [expires_in] sent as a string of digits: the refresher of
    [saxo_client] converts it and stamps the record, while both token
    requests of QQQ raise [TypeError] after the POST has been made. *)
Theorem text_lifetime_differs (rt : json) (c : string) (w : World)
        (st : Z) (body : dict) (s : string) (n : Z) :
  token_endpoint w (posts w) = Resp st (Some (JDict body)) ->
  is_2xx st = true ->
  body !! "expires_in" = Some (JStr s) -> int_of_str s = Some n ->
  fst (SaxoClient.refresh rt w)
  = Ok (<["exp" := JNum (clock w (ticks w) + n)]> body)
  /\ QQQ.refresh_token rt w
     = (Raise TypeError, tick (after_posts w 1 [EvRefresherCall; EvTokenPost rt]))
  /\ QQQ.exchange_code_for_token c w
     = (Raise TypeError, tick (after_posts w 1 [EvCodePost c])).
Proof.
  intros Htok H2 Hs Hn. split; [|split].
  - erewrite (refresh_ok rt w st body n); [reflexivity|exact Htok|exact H2|].
    unfold lifetime. rewrite (get_default_some _ _ _ _ Hs). exact Hn.
  - rewrite qqq_refresh_run, Htok, H2. unfold qqq_outcome.
    rewrite H2, (get_default_some _ _ _ _ Hs). reflexivity.
  - rewrite qqq_exchange_run, Htok, H2. unfold qqq_outcome.
    rewrite H2, (get_default_some _ _ _ _ Hs). reflexivity.
Qed.

Lemma text_lifetime_differs_witness :
  fst (SaxoClient.refresh (JStr "R0")
         (saxo_world record_stale answer_text_lifetime no_network))
  = Ok (<["exp" := JNum (1000 + 1200)]> record_text_lifetime).
Proof.
  apply (text_lifetime_differs (JStr "R0") "code"
           (saxo_world record_stale answer_text_lifetime no_network)
           200 record_text_lifetime "1200" 1200);
    vm_compute; reflexivity.
Defined.

(* --------------------------------------------------------------------- *)
(** ** QQQ: obtaining a valid token *)
(* --------------------------------------------------------------------- *)

Lemma qqq_load_world w : snd (QQQ.load_token w) = w.
Proof.
  unfold QQQ.load_token, try_except, bind, json_load.
  destruct (fs w !! QQQ.TOKEN_FILE) as [f|]; [|reflexivity].
  destruct (data f); reflexivity.
Qed.

Lemma qqq_load_some w v :
  fst (QQQ.load_token w) = Ok (Some v) ->
  exists f, fs w !! QQQ.TOKEN_FILE = Some f /\ data f = FJson v.
Proof.
  unfold QQQ.load_token, try_except, bind, json_load.
  destruct (fs w !! QQQ.TOKEN_FILE) as [f|]; [|discriminate].
  destruct (data f) eqn:Hd; try discriminate.
  intros [= <-]. eauto.
Qed.

Lemma qqq_refresh_world rt w :
  exists t, snd (QQQ.refresh_token rt w)
            = mkWorld (fs w) (create_mode w) (clock w) t (token_endpoint w)
                      (S (posts w)) (api w) (calls w)
                      (trace w ++ [EvRefresherCall; EvTokenPost rt]).
Proof.
  rewrite qqq_refresh_run. cbn [snd]. unfold tick, after_posts.
  cbn [fs create_mode clock ticks token_endpoint posts api calls trace].
  rewrite Nat.add_1_r.
  destruct (token_endpoint w (posts w)) as [st [b|]|]; eauto.
  destruct (is_2xx st); eauto.
Qed.

(** X14. Whatever QQQ's [get_valid_token] returns is the record the token
    file holds when it returns: either the record found there, with an
    [exp] more than 30 s ahead (or with no [exp] while the clock reads
    less than -30) and nothing but the clock touched, or a record obtained
    by exactly one refresher call, which carries an [exp] and a
    [refresh_token]. *)
Theorem qqq_valid_token_is_stored (w : World) (tok : dict) :
  fst (QQQ.get_valid_token w) = Ok tok ->
  stored_record (snd (QQQ.get_valid_token w)) QQQ.TOKEN_FILE = Some tok
  /\ ((snd (QQQ.get_valid_token w) = tick w
       /\ exists e, tok !! "exp" = Some (JNum e) /\ clock w (ticks w) + 30 < e)
      \/ (is_Some (tok !! "refresh_token")
          /\ (exists e, tok !! "exp" = Some (JNum e))
          /\ count is_refresher_call
               (new_events w (snd (QQQ.get_valid_token w))) = 1%nat)
      \/ (snd (QQQ.get_valid_token w) = tick w
          /\ tok !! "exp" = None /\ clock w (ticks w) < -30)).
Proof.
  remember (QQQ.get_valid_token w) as r eqn:Er. intros H.
  unfold QQQ.get_valid_token, bind at 1 in Er.
  pose proof (qqq_load_world w) as Hw. pose proof (qqq_load_some w) as Hl.
  destruct (QQQ.load_token w) as [[[v|]|e0] w0]; simpl in Hw, Hl; subst w0;
    try (subst r; discriminate H).
  destruct (Hl v eq_refl) as (f & Hf & Hd). clear Hl.
  destruct (negb (doc_truthy v)); [subst r; discriminate H|].
  unfold bind at 1, now in Er.
  destruct v as [tok0|b]; [|subst r; discriminate H].
  change (mkWorld (fs w) (create_mode w) (clock w) (S (ticks w))
                  (token_endpoint w) (posts w) (api w) (calls w) (trace w))
    with (tick w) in Er.
  cbv beta iota zeta delta [bind ret raise getitem as_num] in Er.
  unfold get_default in Er.
  assert (stored_record (tick w) QQQ.TOKEN_FILE = Some tok0) as Hst.
  { unfold stored_record, visible. cbn [tick fs]. rewrite Hf. cbn. rewrite Hd.
    reflexivity. }
  assert (forall e, default (JNum 0) (tok0 !! "exp") = JNum e ->
                    clock w (ticks w) + 30 < e ->
                    (exists e', tok0 !! "exp" = Some (JNum e')
                                /\ clock w (ticks w) + 30 < e')
                    \/ tok0 !! "exp" = None /\ clock w (ticks w) < -30) as Hcase.
  { intros e. destruct (tok0 !! "exp") as [x|]; simpl.
    - intros -> Hlt. left. eauto.
    - intros [= <-] Hlt. right. split; [reflexivity | lia]. }
  destruct (default (JNum 0) (tok0 !! "exp")) as [|e|s] eqn:Eexp;
    try (subst r; discriminate H).
  destruct (Z.ltb_spec (clock w (ticks w)) (e - 30)) as [Hlt|Hge].
  - subst r. injection H as <-. cbn [fst snd]. split; [exact Hst|].
    destruct (Hcase e eq_refl ltac:(lia)) as [Hs | [Hn Hlt']]; [left | right; right];
      auto.
  - destruct (tok0 !! "refresh_token") as [rt|]; [|subst r; discriminate H].
    destruct (qqq_refresh_world rt (tick w)) as (t' & Hw').
    pose proof (qqq_refresh_run rt (tick w)) as Hrun.
    destruct (QQQ.refresh_token rt (tick w)) as [[refreshed|e2] w2];
      [|subst r; discriminate H].
    cbn [snd] in Hw'. injection Hrun as Hout _. symmetry in Hout.
    destruct (qqq_outcome_ok _ _ _ Hout) as [[e' He'] _].
    unfold QQQ.save_token, QQQ.save_token_ops in Er.
    rewrite in_place_save_ok in Er. subst r. cbn [fst snd] in H |- *.
    injection H as <-. split.
    + unfold stored_record, visible. cbn [after_fs fs].
      rewrite lookup_insert_eq. reflexivity.
    + right; left. split; [|split].
      * destruct (refreshed !! "refresh_token") eqn:Ert; [rewrite Ert; eauto|].
        rewrite lookup_insert_eq. eauto.
      * destruct (refreshed !! "refresh_token"); [eauto|].
        exists e'. rewrite lookup_insert_ne by discriminate. exact He'.
      * erewrite new_events_app.
        2:{ cbn [after_fs trace]. rewrite Hw'. cbn [trace tick].
            rewrite <- app_assoc. reflexivity. }
        rewrite count_app. reflexivity.
Qed.

Lemma qqq_valid_token_is_stored_witness :
  stored_record
    (snd (QQQ.get_valid_token (saxo_world record_old answer_new no_network)))
    QQQ.TOKEN_FILE
  = Some record_old.
Proof.
  apply (qqq_valid_token_is_stored
           (saxo_world record_old answer_new no_network) record_old).
  vm_compute. reflexivity.
Defined.

(** X15. QQQ reads a stored record without [exp] as expired at 0: from
    clock value -30 on it is never returned as it is, even if it carries
    an [expires_in]; the refresher is called with its refresh token. *)
Theorem qqq_unstamped_record_is_stale (w : World) (f : file) (d : dict) (rt : json) :
  fs w !! QQQ.TOKEN_FILE = Some f -> data f = FJson (JDict d) ->
  d !! "exp" = None -> d !! "refresh_token" = Some rt ->
  -30 <= clock w (ticks w) ->
  exists evs,
    new_events w (snd (QQQ.get_valid_token w))
    = EvRefresherCall :: EvTokenPost rt :: evs
    /\ forallb is_fs evs = true.
Proof.
  intros Hf Hd He Hrt Hclock.
  remember (QQQ.get_valid_token w) as r eqn:Er.
  unfold QQQ.get_valid_token, bind at 1 in Er.
  rewrite (qqq_load_record w f _ Hf Hd), (dict_truthy d _ _ Hrt) in Er.
  cbn [negb] in Er. unfold now in Er.
  rewrite (get_default_none d "exp" (JNum 0) He) in Er.
  cbv beta iota zeta delta [bind ret raise getitem as_num] in Er.
  destruct (Z.ltb_spec (clock w (ticks w)) (0 - 30)) as [|_]; [lia|].
  rewrite Hrt in Er.
  match type of Er with
  | context [QQQ.refresh_token rt ?w1] =>
      destruct (qqq_refresh_world rt w1) as (t' & Hw');
      destruct (QQQ.refresh_token rt w1) as [[refreshed|e2] w2]
  end; cbn [snd] in Hw'; subst w2.
  - unfold QQQ.save_token, QQQ.save_token_ops in Er.
    rewrite in_place_save_ok in Er. subst r. cbn [snd after_fs].
    eexists. split.
    + apply new_events_app. unfold after_fs. cbn [trace].
      rewrite <- app_assoc. reflexivity.
    + reflexivity.
  - subst r. exists []. split; [|reflexivity].
    apply new_events_app. reflexivity.
Qed.

Lemma qqq_unstamped_record_is_stale_witness :
  exists evs,
    new_events (saxo_world record_unstamped answer_new no_network)
      (snd (QQQ.get_valid_token (saxo_world record_unstamped answer_new no_network)))
    = EvRefresherCall :: EvTokenPost (JStr "R0") :: evs
    /\ forallb is_fs evs = true.
Proof.
  apply (qqq_unstamped_record_is_stale
           (saxo_world record_unstamped answer_new no_network)
           (mkFile (FJson (JDict record_unstamped)) 384) record_unstamped (JStr "R0"));
    vm_compute; try reflexivity.
  discriminate.
Defined.

(* --------------------------------------------------------------------- *)
(** ** QQQ: the interactive flow *)
(* --------------------------------------------------------------------- *)

(** X16. With no token file, QQQ's [main] never calls the refresher and
    exchanges at most one code.  If it fails, no token file has been
    written; if it returns, a request of the listener was a callback with
    the expected state, its code is the one exchanged, and the token file
    holds the stamped answer of the token endpoint. *)
Theorem qqq_main_first_run (state : string) (reqs : list request) (w : World) :
  fs w !! QQQ.TOKEN_FILE = None ->
  let r := QQQ.main state reqs w in
  (count is_code_post (new_events w (snd r)) <= 1)%nat
  /\ count is_refresher_call (new_events w (snd r)) = 0%nat
  /\ match fst r with
     | Raise _ => fs (snd r) = fs w
     | Ok _ =>
         exists rq c d,
           In rq reqs /\ path rq = "/callback"
           /\ qs_first (query rq) "state" = Some state
           /\ qs_first (query rq) "code" = Some c
           /\ qqq_outcome (token_endpoint w (posts w)) (clock w (ticks w)) = Ok d
           /\ stored_record (snd r) QQQ.TOKEN_FILE = Some d
           /\ new_events w (snd r) = EvCodePost c :: map EvFs (QQQ.save_token_ops d)
     end.
Proof.
  intros Hf. cbv zeta.
  remember (QQQ.main state reqs w) as r eqn:Er.
  unfold QQQ.main, is_file in Er. unfold bind at 1 in Er.
  rewrite bool_decide_eq_false_2 in Er by (rewrite Hf; intros [? ?]; discriminate).
  cbn [negb] in Er. cbv beta iota zeta in Er.
  pose proof (qqq_serve_accepts state reqs (mkServer None false)) as Hacc.
  destruct (QQQ.serve state reqs (mkServer None false)) as [sts httpd].
  cbn [snd] in Er, Hacc.
  assert (new_events w w = []) as Hnil.
  { apply new_events_app. rewrite app_nil_r. reflexivity. }
  destruct (event_set httpd);
    [|subst r; unfold raise; cbn [fst snd]; rewrite Hnil; repeat split;
      unfold count; simpl; lia].
  destruct (code httpd) as [c|];
    [|subst r; unfold raise; cbn [fst snd]; rewrite Hnil; repeat split;
      unfold count; simpl; lia].
  destruct (Hacc c eq_refl eq_refl) as [Habs | (rq & Hin & Hp & Hs & Hc)];
    [discriminate|]. clear Hacc.
  unfold bind in Er. rewrite qqq_exchange_run in Er.
  destruct (qqq_outcome (token_endpoint w (posts w)) (clock w (ticks w)))
    as [d|e] eqn:Hout.
  - destruct (qqq_outcome_ok _ _ _ Hout) as [_ (st & v & Hr & H2)].
    rewrite Hr, H2 in Er.
    unfold QQQ.save_token, QQQ.save_token_ops in Er.
    rewrite in_place_save_ok in Er. subst r. cbn [fst snd].
    assert (new_events w
              (after_fs (tick (after_posts w 1 [EvCodePost c]))
                 (<[QQQ.TOKEN_FILE :=
                      mkFile (FJson (JDict d))
                        match fs (tick (after_posts w 1 [EvCodePost c]))
                              !! QQQ.TOKEN_FILE with
                        | Some o => mode o
                        | None => create_mode (tick (after_posts w 1 [EvCodePost c]))
                        end]> (fs (tick (after_posts w 1 [EvCodePost c]))))
                 [Truncate QQQ.TOKEN_FILE; WriteChunk QQQ.TOKEN_FILE (JDict d);
                  WriteDone QQQ.TOKEN_FILE (JDict d)])
            = EvCodePost c :: map EvFs (QQQ.save_token_ops d)) as Hev.
    { apply new_events_app. cbn [after_fs tick after_posts trace].
      rewrite <- app_assoc. reflexivity. }
    rewrite Hev. split; [unfold count; simpl; lia|]. split; [reflexivity|].
    exists rq, c, d. repeat split; try assumption.
    unfold stored_record, visible. cbn [after_fs fs]. rewrite lookup_insert_eq.
    reflexivity.
  - assert (forall w', w' = tick (after_posts w 1 [EvCodePost c])
                       \/ w' = after_posts w 1 [EvCodePost c] ->
              new_events w w' = [EvCodePost c] /\ fs w' = fs w) as H.
    { intros w' [-> | ->]; (split; [apply new_events_app; reflexivity|reflexivity]). }
    match type of Er with
    | r = (_, ?w') => destruct (H w') as (H1 & H2)
    end.
    { destruct (token_endpoint w (posts w)) as [st [b|]|]; auto.
      destruct (is_2xx st); auto. }
    subst r. cbn [fst snd]. rewrite H1. repeat split; try assumption.
    unfold count; simpl; lia.
Qed.

Lemma qqq_main_first_run_witness :
  count is_refresher_call
    (new_events (world_with no_store answer_new no_network)
       (snd (QQQ.main "S3cr3t" [forged_callback; genuine_callback]
               (world_with no_store answer_new no_network))))
  = 0%nat.
Proof.
  destruct (qqq_main_first_run "S3cr3t" [forged_callback; genuine_callback]
              (world_with no_store answer_new no_network) eq_refl)
    as (_ & H & _).
  exact H.
Defined.

(* --------------------------------------------------------------------- *)
(** ** bot-token-dennik: validity, renewal, invalidation *)
(* --------------------------------------------------------------------- *)

Lemma bind_ok {A B} (c : M A) (k : A -> M B) w b w' :
  (x <- c ;; k x) w = (Ok b, w') ->
  exists a w1, c w = (Ok a, w1) /\ k a w1 = (Ok b, w').
Proof.
  unfold bind. destruct (c w) as [[a|e] w1]; [eauto | discriminate].
Qed.

Lemma bind_congr {A B} (c c' : M A) (k : A -> M B) w w' :
  c w = c' w' -> (x <- c ;; k x) w = (x <- c' ;; k x) w'.
Proof. intros H. unfold bind. rewrite H. reflexivity. Qed.

Section BotToken.
Import BotTokenDennik.
Variable cfg : Config.

Lemma bot_token_is_valid_run (d : dict) (w : World) :
  exists b, token_is_valid cfg (JDict d) w = (Ok b, tick w).
Proof.
  unfold token_is_valid. cbv zeta. unfold bind, now, ret.
  change (mkWorld (fs w) (create_mode w) (clock w) (S (ticks w))
                  (token_endpoint w) (posts w) (api w) (calls w) (trace w))
    with (tick w).
  destruct (if truthy (get_default d "expiry_ts" JNull)
            then int_gt (get_default d "expiry_ts" JNull) (clock w (ticks w))
            else None) as [b|]; [eauto|].
  destruct (negb (truthy (get_default d "access_token" JNull))); [eauto|].
  destruct (get_default d "access_token" JNull) as [|n|a]; eauto.
  destruct (jwt_decode cfg a) as [payload|]; [|eauto].
  destruct (truthy (get_default payload "exp" JNull)); eauto.
Qed.

Lemma steps_log_store_answer r : steps fs_or_log (store_answer cfg r).
Proof.
  unfold store_answer, raise_for_status, r_json, save_token.
  apply steps_bind; [steps_auto|]. intros _.
  apply steps_bind; [steps_auto|]. intros [d|]; [|apply steps_raise].
  apply steps_bind; [steps_auto|]. intros d1.
  apply steps_bind; [apply steps_fs_do_all; reflexivity|]. intros _. steps_auto.
Qed.

(** What a call of [obtain_new_access] adds to the trace. *)
Lemma obtain_new_access_events rt w :
  exists evs,
    trace (snd (obtain_new_access cfg rt w))
    = trace w ++ EvRefresherCall :: EvLog Debug
        :: EvTokenPost (if truthy rt then rt else JStr (REFRESH_TOKEN cfg))
        :: evs
    /\ forallb fs_or_log evs = true.
Proof.
  unfold obtain_new_access, bind, emit, requests_call, token_exchange, bind.
  simpl. destruct (token_endpoint w (posts w)) as [st body|]; simpl.
  - match goal with
    | |- context [store_answer cfg ?r ?w3] =>
        destruct (steps_log_store_answer r w3) as (_ & _ & _ & _ & evs & E & F)
    end.
    exists evs. rewrite E. simpl. rewrite <- !app_assoc. split; [reflexivity|exact F].
  - exists []. rewrite <- !app_assoc. split; reflexivity.
Qed.

Lemma bot_finish_events (td : jdoc) w :
  snd (match td with
       | JScalar _ => raise AttributeError
       | JDict d =>
           let access := get_default d "access_token" JNull in
           if negb (truthy access) then raise (RuntimeError NoAccessToken)
           else ret access
       end w) = w.
Proof.
  destruct td as [d|]; [|reflexivity]. cbv zeta.
  destruct (negb (truthy (get_default d "access_token" JNull))); reflexivity.
Qed.

(** X17. A stored record without [expiry_ts] is never used as it is: even
    when the JWT of its access token says it is valid, [get_valid_token]
    goes to the token endpoint, exactly once. *)
Theorem bot_jwt_validity_still_refreshes (w : World) (f : file) (d : dict) :
  fs w !! TOKEN_FILE cfg = Some f -> data f = FJson (JDict d) ->
  d !! "expiry_ts" = None ->
  -300 < clock w (S (ticks w)) ->
  exists sent evs,
    new_events w (snd (get_valid_token cfg w))
    = EvLog Info :: EvRefresherCall :: EvLog Debug :: EvTokenPost sent :: evs
    /\ forallb fs_or_log evs = true
    /\ (sent = JStr (REFRESH_TOKEN cfg) \/ d !! "refresh_token" = Some sent).
Proof.
  intros Hf Hd He Hclock.
  unfold get_valid_token. unfold bind at 1.
  rewrite (bot_load_record cfg w f _ Hf Hd). unfold bind at 1.
  destruct (bot_token_is_valid_run d w) as [b Hb]. rewrite Hb.
  assert (forall rt w0,
            trace w0 = trace w ->
            exists evs,
              new_events w
                (snd ((token_data <- (emit (EvLog Info) ;;; obtain_new_access cfg rt) ;;
                       match token_data with
                       | JScalar _ => raise AttributeError
                       | JDict d =>
                           let access := get_default d "access_token" JNull in
                           if negb (truthy access)
                           then raise (RuntimeError NoAccessToken)
                           else ret access
                       end) w0))
              = EvLog Info :: EvRefresherCall :: EvLog Debug
                  :: EvTokenPost (if truthy rt then rt else JStr (REFRESH_TOKEN cfg))
                  :: evs
              /\ forallb fs_or_log evs = true) as Hgo.
  { intros rt w0 Ht. unfold bind at 1, bind at 1, emit.
    match goal with
    | |- context [obtain_new_access cfg rt ?w1] =>
        destruct (obtain_new_access_events rt w1) as (evs & E & F);
        destruct (obtain_new_access cfg rt w1) as [[td|e] w2]
    end; cbn [snd trace] in E.
    - rewrite bot_finish_events. exists evs. split; [|exact F].
      apply new_events_app. rewrite E, Ht, <- app_assoc. reflexivity.
    - exists evs. split; [|exact F].
      apply new_events_app. cbn [snd]. rewrite E, Ht, <- app_assoc. reflexivity. }
  destruct b; cbn [negb].
  - rewrite (get_default_none d "expiry_ts" (JNum 0) He).
    erewrite (bind_congr _ (emit (EvLog Info) ;;;
                            obtain_new_access cfg (get_default d "refresh_token" JNull))
                         _ (tick w) (tick (tick w))).
    2:{ unfold bind at 1, now. unfold bind at 1, as_num, ret.
        cbn [tick clock ticks].
        destruct (Z.ltb_spec (0 - clock w (S (ticks w))) 300) as [_|]; [|lia].
        reflexivity. }
    destruct (Hgo (get_default d "refresh_token" JNull) (tick (tick w)) eq_refl)
      as (evs & E & F).
    eexists _, evs. split; [exact E|]. split; [exact F|].
    unfold get_default. destruct (d !! "refresh_token") as [x|]; simpl.
    + destruct (truthy x); auto.
    + auto.
  - destruct (Hgo JNull (tick w) eq_refl) as (evs & E & F).
    eexists _, evs. split; [exact E|]. split; [exact F|].
    left. reflexivity.
Qed.

(** X18. [invalidate_token] always succeeds and leaves no token file,
    touches no other file, and doing it again changes nothing at all. *)
Theorem bot_invalidate_idempotent (w : World) :
  let r := invalidate_token cfg w in
  fst r = Ok tt
  /\ fs (snd r) = delete (TOKEN_FILE cfg) (fs w)
  /\ invalidate_token cfg (snd r) = (Ok tt, snd r).
Proof.
  cbv zeta.
  assert (forall w', fs w' !! TOKEN_FILE cfg = None ->
                     invalidate_token cfg w' = (Ok tt, w')) as Hnone.
  { intros w' Hf. unfold invalidate_token, is_file, bind.
    rewrite bool_decide_eq_false_2; [reflexivity|].
    rewrite Hf. intros [? ?]. discriminate. }
  destruct (fs w !! TOKEN_FILE cfg) as [f|] eqn:Hf.
  - rewrite (invalidate_present cfg w f Hf). cbn [fst snd fs].
    split; [reflexivity|]. split; [reflexivity|].
    apply Hnone. cbn [fs]. apply lookup_delete_eq.
  - rewrite (Hnone w Hf). cbn [fst snd].
    split; [reflexivity|]. split; [|apply Hnone, Hf].
    symmetry. apply delete_id, Hf.
Qed.

(** X19. [obtain_new_access] makes one POST.  When the answer is not a
    JSON document other than an object: if the call fails, no file has
    changed; if it returns, the answer was a JSON object with a status
    outside 400..599, and what is returned and written to the token file
    is that object, changed at most in [expiry_ts]: the refresh token that
    was sent is not put back when the answer has none. *)
Theorem bot_obtain_new_access_result (rt : json) (w : World) :
  let r := obtain_new_access cfg rt w in
  posts (snd r) = S (posts w)
  /\ match fst r with
     | Raise _ =>
         fs (snd r) = fs w
         \/ exists st s, token_endpoint w (posts w) = Resp st (Some (JScalar s))
     | Ok v =>
         exists st body d1,
           token_endpoint w (posts w) = Resp st (Some (JDict body))
           /\ (400 <=? st) && (st <? 600) = false
           /\ v = JDict d1
           /\ delete "expiry_ts" d1 = delete "expiry_ts" body
           /\ visible (fs (snd r)) (TOKEN_FILE cfg) = Some (FJson (JDict d1))
     end.
Proof.
  cbv zeta.
  unfold obtain_new_access, store_answer, requests_call, raise_for_status,
    r_json, token_exchange, now, save_token, save_token_ops.
  cbv beta iota zeta delta [bind ret raise emit].
  cbn [token_endpoint posts fst snd].
  destruct (token_endpoint w (posts w)) as [st body|]; cbn [fst snd posts fs];
    [|split; [reflexivity | left; reflexivity]].
  destruct ((400 <=? st) && (st <? 600)) eqn:Est; cbn [fst snd posts fs];
    [split; [reflexivity | left; reflexivity]|].
  destruct body as [[d|s]|]; cbn [fst snd posts fs];
    [ | split; [reflexivity | right; eauto] | split; [reflexivity | left; reflexivity]].
  assert (forall d1 w1,
            posts w1 = S (posts w) -> fs w1 = fs w ->
            delete "expiry_ts" d1 = delete "expiry_ts" d ->
            let r := (let (o, w2) :=
                        fs_do_all [Truncate (TOKEN_FILE cfg);
                                   WriteChunk (TOKEN_FILE cfg) (JDict d1);
                                   WriteDone (TOKEN_FILE cfg) (JDict d1)] w1 in
                      match o with
                      | Ok _ =>
                          (Ok (JDict d1),
                           mkWorld (fs w2) (create_mode w2) (clock w2) (ticks w2)
                                   (token_endpoint w2) (posts w2) (api w2) (calls w2)
                                   (trace w2 ++ [EvLog Info]))
                      | Raise e => (Raise e, w2)
                      end) in
            posts (snd r) = S (posts w)
            /\ match fst r with
               | Raise _ =>
                   fs (snd r) = fs w
                   \/ exists st' s,
                        Resp st (Some (JDict d)) = Resp st' (Some (JScalar s))
               | Ok v =>
                   exists st' body' d1',
                     Resp st (Some (JDict d)) = Resp st' (Some (JDict body'))
                     /\ (400 <=? st') && (st' <? 600) = false
                     /\ v = JDict d1'
                     /\ delete "expiry_ts" d1' = delete "expiry_ts" body'
                     /\ visible (fs (snd r)) (TOKEN_FILE cfg)
                        = Some (FJson (JDict d1'))
               end) as Hsave.
  { intros d1 w1 Hp Hfs Hdel. cbv zeta. rewrite in_place_save_ok.
    cbn [fst snd posts fs after_fs]. split; [exact Hp|].
    exists st, d, d1. repeat split; try assumption.
    unfold visible. rewrite lookup_insert_eq. reflexivity. }
  assert (delete "expiry_ts" d = delete "expiry_ts" d) as Hrefl by reflexivity.
  destruct (d !! "expires_in") as [[|n|s]|];
    try (apply Hsave; [reflexivity | reflexivity | exact Hrefl]).
  - apply Hsave; [reflexivity | reflexivity |]. apply delete_insert_eq.
  - destruct (int_of_str s);
      apply Hsave; try reflexivity. apply delete_insert_eq.
Qed.

(** X20. [get_valid_token] never hands out an empty access token: what it
    returns is truthy. *)
Theorem bot_valid_token_is_truthy (w : World) (a : json) :
  fst (get_valid_token cfg w) = Ok a -> truthy a = true.
Proof.
  unfold get_valid_token.
  destruct ((token_data <- load_token cfg ;;
             valid <- token_is_valid cfg token_data ;;
             token_data0 <-
               (if negb valid
                then emit (EvLog Info) ;;; obtain_new_access cfg JNull
                else
                  match token_data with
                  | JDict d =>
                      t <- now ;;
                      e <- as_num (get_default d "expiry_ts" (JNum 0)) ;;
                      (if e - t <? 300
                       then emit (EvLog Info) ;;;
                            obtain_new_access cfg (get_default d "refresh_token" JNull)
                       else ret token_data)
                  | JScalar _ => raise AttributeError
                  end) ;;
             match token_data0 with
             | JDict d =>
                 let access := get_default d "access_token" JNull in
                 if negb (truthy access) then raise (RuntimeError NoAccessToken)
                 else ret access
             | JScalar _ => raise AttributeError
             end) w) as [[a'|e] w'] eqn:E; [|discriminate].
  intros [= ->].
  apply bind_ok in E as (td & w1 & _ & E).
  apply bind_ok in E as (valid & w2 & _ & E).
  apply bind_ok in E as (td' & w3 & _ & E).
  destruct td' as [d|]; [|discriminate]. cbv zeta in E.
  destruct (truthy (get_default d "access_token" JNull)) eqn:Ht; [|discriminate].
  injection E as <- _. exact Ht.
Qed.

(** X21. Unless the API answers 401, [example_api_call] is over after
    its first request: no token request and no file operation follows
    [get_valid_token], and the outcome is that of [raise_for_status] and
    [r.json()] on that answer: the raw [HTTPError] for 4xx and 5xx,
    [ConnectionError] when there is no answer. *)
Theorem bot_call_one_round (w : World) (token : json) :
  fst (get_valid_token cfg w) = Ok token ->
  (forall b, api w (calls w) <> Resp 401 b) ->
  let w1 := snd (get_valid_token cfg w) in
  let r := example_api_call cfg w in
  (exists evs, new_events w1 (snd r) = EvApi (overview_request cfg token) :: evs
               /\ forallb fs_or_log evs = true)
  /\ fs (snd r) = fs w1 /\ posts (snd r) = posts w1
  /\ fst r = match api w (calls w) with
             | NetErr => Raise ConnectionError
             | Resp c b =>
                 if (400 <=? c) && (c <? 600) then Raise (HTTPError c)
                 else match b with
                      | Some _ => Ok tt
                      | None => Raise JSONDecodeError
                      end
             end.
Proof.
  intros Htok Hno. cbv zeta.
  remember (example_api_call cfg w) as r eqn:Er.
  unfold example_api_call in Er. run_bot_in Er.
  pose proof (steps_bot_get_valid_token cfg w) as (Ha & Hc & _).
  destruct (get_valid_token cfg w) as [[token'|e] w1]; simpl in Ha, Hc, Htok |- *;
    [injection Htok as ->|discriminate].
  cbn [api calls fst snd] in Er. rewrite Ha, Hc in Er.
  destruct (api w (calls w)) as [c b|] eqn:Eapi.
  - cbn [fst snd] in Er.
    destruct (Z.eqb_spec c 401) as [->|_]; [exfalso; apply (Hno b); reflexivity|].
    cbn [fst snd fs posts trace] in Er.
    destruct ((400 <=? c) && (c <? 600)).
    + subst r. cbn [fst snd fs posts]. repeat split.
      exists []. split; [|reflexivity]. apply new_events_app. reflexivity.
    + destruct b as [v|]; subst r; cbn [fst snd fs posts]; repeat split.
      * exists [EvLog Info]. split; [|reflexivity].
        apply new_events_app. cbn [trace]. rewrite <- app_assoc. reflexivity.
      * exists []. split; [|reflexivity]. apply new_events_app. reflexivity.
  - subst r. cbn [fst snd fs posts]. repeat split.
    exists []. split; [|reflexivity]. apply new_events_app. reflexivity.
Qed.

Lemma invalidate_run w :
  exists pre,
    invalidate_token cfg w
    = (Ok tt,
       mkWorld (delete (TOKEN_FILE cfg) (fs w)) (create_mode w) (clock w) (ticks w)
               (token_endpoint w) (posts w) (api w) (calls w) (trace w ++ pre))
    /\ (pre = [] \/ pre = [EvFs (Unlink (TOKEN_FILE cfg)); EvLog Info]).
Proof.
  destruct (fs w !! TOKEN_FILE cfg) as [f|] eqn:Hf.
  - eexists. split; [apply (invalidate_present cfg w f Hf) | right; reflexivity].
  - exists []. split; [|left; reflexivity].
    unfold invalidate_token, is_file, bind.
    rewrite bool_decide_eq_false_2 by (rewrite Hf; intros [? ?]; discriminate).
    rewrite (delete_id _ _ Hf), app_nil_r. destruct w; reflexivity.
Qed.

(** X22. After a 401, [example_api_call] removes the token file if there
    is one and asks for a new token with the refresh token of the
    configuration, whatever refresh token the removed file held. *)
Theorem bot_retry_uses_configured_token (w : World) (token : json) (b1 : option jdoc) :
  fst (get_valid_token cfg w) = Ok token ->
  api w (calls w) = Resp 401 b1 ->
  let w1 := snd (get_valid_token cfg w) in
  let r := example_api_call cfg w in
  exists pre evs,
    new_events w1 (snd r)
    = EvApi (overview_request cfg token) :: EvLog Warning :: pre
      ++ EvLog Info :: EvRefresherCall :: EvLog Debug
      :: EvTokenPost (JStr (REFRESH_TOKEN cfg)) :: evs
    /\ (pre = [] \/ pre = [EvFs (Unlink (TOKEN_FILE cfg)); EvLog Info]).
Proof.
  intros Htok H1. cbv zeta.
  remember (example_api_call cfg w) as r eqn:Er.
  unfold example_api_call in Er. run_bot_in Er.
  pose proof (steps_bot_get_valid_token cfg w) as (Ha & Hc & _).
  destruct (get_valid_token cfg w) as [[token'|e] w1]; simpl in Ha, Hc, Htok |- *;
    [injection Htok as ->|discriminate].
  cbn [api calls fst snd] in Er. rewrite Ha, Hc, H1 in Er.
  cbn [fst snd andb Z.eqb Pos.eqb Z.leb Z.ltb Z.compare Pos.compare
       Pos.compare_cont] in Er.
  match type of Er with
  | context [invalidate_token cfg ?w2] =>
      destruct (invalidate_run w2) as (pre & Hinv & Hpre)
  end.
  rewrite Hinv in Er. cbn [trace fs] in Er.
  match type of Er with
  | context [get_valid_token cfg ?w4] =>
      destruct (bot_get_valid_token_absent cfg w4) as (evs & Hev);
        [cbn [fs]; apply lookup_delete_eq|];
      destruct (steps_bot_get_valid_token cfg w4) as (_ & _ & _ & _ & evs0 & E0 & _);
      rewrite (new_events_app _ _ _ E0) in Hev; subst evs0;
      destruct (get_valid_token cfg w4) as [[token2|e] w5]
  end; cbn [snd trace] in E0.
  - cbn [fst snd] in Er.
    assert (exists evs2, trace (snd r) = trace w5 ++ evs2) as (evs2 & E2).
    { destruct (api w5 (calls w5)) as [c2 b2|]; cbn [fst snd] in Er.
      - destruct ((400 <=? c2) && (c2 <? 600)).
        + subst r. cbn [snd trace]. eauto.
        + destruct b2; subst r; cbn [snd trace]; eexists;
            rewrite <- ?app_assoc; reflexivity.
      - subst r. cbn [snd trace]. eauto. }
    exists pre, (evs ++ evs2). split; [|exact Hpre].
    apply new_events_app. rewrite E2, E0. rewrite <- !app_assoc. reflexivity.
  - subst r. cbn [snd]. exists pre, evs. split; [|exact Hpre].
    apply new_events_app. rewrite E0. rewrite <- !app_assoc. reflexivity.
Qed.

End BotToken.

Lemma bot_jwt_validity_still_refreshes_witness :
  exists sent evs,
    new_events bot_world_jwt
      (snd (BotTokenDennik.get_valid_token bot_config bot_world_jwt))
    = EvLog Info :: EvRefresherCall :: EvLog Debug :: EvTokenPost sent :: evs
    /\ forallb fs_or_log evs = true
    /\ (sent = JStr (BotTokenDennik.REFRESH_TOKEN bot_config)
        \/ record_jwt_only !! "refresh_token" = Some sent).
Proof.
  apply (bot_jwt_validity_still_refreshes bot_config bot_world_jwt
           (mkFile (FJson (JDict record_jwt_only)) 384) record_jwt_only);
    vm_compute; reflexivity.
Defined.

Lemma bot_valid_token_is_truthy_witness : truthy (JStr "A0") = true.
Proof.
  apply (bot_valid_token_is_truthy bot_config bot_world (JStr "A0")).
  vm_compute. reflexivity.
Defined.

Lemma bot_call_one_round_witness :
  fst (BotTokenDennik.example_api_call bot_config bot_world_offline)
  = Raise ConnectionError.
Proof.
  destruct (bot_call_one_round bot_config bot_world_offline (JStr "A0")
              ltac:(vm_compute; reflexivity)
              ltac:(intros b; vm_compute; discriminate))
    as (_ & _ & _ & H).
  exact H.
Defined.

Lemma bot_retry_uses_configured_token_witness :
  exists pre evs,
    new_events (snd (BotTokenDennik.get_valid_token bot_config bot_world))
      (snd (BotTokenDennik.example_api_call bot_config bot_world))
    = EvApi (BotTokenDennik.overview_request bot_config (JStr "A0"))
      :: EvLog Warning :: pre
      ++ EvLog Info :: EvRefresherCall :: EvLog Debug
      :: EvTokenPost (JStr (BotTokenDennik.REFRESH_TOKEN bot_config)) :: evs
    /\ (pre = []
        \/ pre = [EvFs (Unlink (BotTokenDennik.TOKEN_FILE bot_config)); EvLog Info]).
Proof.
  apply (bot_retry_uses_configured_token bot_config bot_world (JStr "A0") None);
    vm_compute; reflexivity.
Defined.

(* --------------------------------------------------------------------- *)
(** ** The callback listeners *)
(* --------------------------------------------------------------------- *)

Lemma handle_requests_stored reqs s c :
  code s = Some c -> GetSaxoToken.handle_requests reqs s = Some c.
Proof. intros H. destruct reqs; cbn [GetSaxoToken.handle_requests]; rewrite H; reflexivity. Qed.

Lemma handle_requests_first reqs : forall s,
  code s = None ->
  GetSaxoToken.handle_requests reqs s
  = head (omap (fun r => qs_first (query r) "code") reqs).
Proof.
  induction reqs as [|r rest IH]; intros s Hs; cbn [GetSaxoToken.handle_requests];
    rewrite Hs; [reflexivity|].
  cbn [omap list_omap]. unfold GetSaxoToken.do_GET.
  destruct (qs_first (query r) "code") as [c|]; cbn [snd].
  - apply handle_requests_stored. reflexivity.
  - apply IH, Hs.
Qed.

(** X23. The listener of [get_saxo_token] returns the first non-blank
    [code] parameter among the requests it receives, whatever their path
    and [state]; it goes on waiting while no request carries one. *)
Theorem start_local_server_first_code (reqs : list request) :
  GetSaxoToken.start_local_server reqs
  = head (omap (fun r => qs_first (query r) "code") reqs).
Proof.
  unfold GetSaxoToken.start_local_server. apply handle_requests_first. reflexivity.
Qed.

(** X24. QQQ's listener is ended by the first request on [/callback],
    accepted or not: requests on other paths before it are answered 404,
    and no request after it is looked at. *)
Theorem qqq_first_callback_decides (state : string) (pre : list request)
        (r : request) (rest : list request) :
  Forall (fun r' => path r' <> "/callback") pre -> path r = "/callback" ->
  QQQ.serve state (pre ++ r :: rest) (mkServer None false)
  = (map (fun _ => 404) pre ++ [fst (QQQ.do_GET state r (mkServer None false))],
     snd (QQQ.do_GET state r (mkServer None false)))
  /\ event_set (snd (QQQ.do_GET state r (mkServer None false))) = true.
Proof.
  intros Hpre Hr.
  assert (event_set (snd (QQQ.do_GET state r (mkServer None false))) = true) as Hset.
  { destruct (qqq_do_GET_cases state r (mkServer None false))
      as [[_ Hp] | [E | (c & E & _)]]; [contradiction | |]; rewrite E; reflexivity. }
  split; [|exact Hset].
  induction Hpre as [|r' pre' Hp' _ IH]; cbn [app QQQ.serve map].
  - destruct (QQQ.do_GET state r (mkServer None false)) as [st s1].
    cbn [snd] in Hset. rewrite Hset. reflexivity.
  - assert (QQQ.do_GET state r' (mkServer None false) = (404, mkServer None false))
      as E.
    { unfold QQQ.do_GET. destruct (String.eqb_spec (path r') "/callback");
        [contradiction | reflexivity]. }
    rewrite E. cbn [event_set]. rewrite IH. reflexivity.
Qed.

Lemma qqq_first_callback_decides_witness :
  QQQ.serve "S3cr3t" [forged_callback; genuine_callback] (mkServer None false)
  = ([400], mkServer None true).
Proof.
  apply (qqq_first_callback_decides "S3cr3t" [] forged_callback [genuine_callback]).
  - constructor.
  - reflexivity.
Defined.

(* --------------------------------------------------------------------- *)
(** ** Answers without a lifetime, from the answer to the next dispatch *)
(* --------------------------------------------------------------------- *)












Section UnauthorizedRefresh.
Import SaxoClient.
Variables (method url : string) (params : option (list (string * string)))
          (json_data : option jdoc).


End UnauthorizedRefresh.



